(** * Task switching and management (kernel/sys/task.c)

    A shallow embedding of the multitasking core: the address-space cloner
    ([clone_table], [clone_directory], [free_directory]), [reap_process],
    [fork], [clone], [getpid], [switch_task], [switch_next], [task_exit],
    [kexit] and the user-mode trampoline [enter_user_jmp].  [tasking_install]
    and [switch_from_cross_thread_lock] are sequences of calls into the
    process tree, the pager and the interrupt controller and are not
    embedded.

    Machine words are 32-bit unsigned integers, carried as [Z] with the
    wrap-around written out ([wrap32]).  Pointers are addresses ([Z], with
    [0] for NULL).  Kernel memory is a typed store: one finite map per kind
    of object (process records, page directories, page tables, kernel
    stacks).  Calls that leave this file (allocator, frame allocator, queue
    machinery, interrupt control) are recorded in a trace, each entry stamped
    with the interrupt flag in force when the call was made.

    [read_eip] returns twice: once to the code that called it, and once more
    when [switch_next] jumps to the saved [eip] with [0x10000] in [eax].
    Functions that call it take what it returned as an argument, and are cut
    in two at the call: the part before, and the part after, which is also
    what runs on resumption. *)

From stdpp Require Import gmap list.
From Stdlib Require Import ZArith Lia.

Open Scope Z_scope.

(** ** Machine words *)

Definition wrap32 (x : Z) : Z := x mod 2 ^ 32.

Definition TASK_MAGIC : Z := 0xDEADBEEF.

(** ** Paging structures *)

(** A page-table entry: the five access bits the cloner mirrors and the
    frame number. *)
Record page_t := mk_page {
  present : bool;
  rw : bool;
  user : bool;
  accessed : bool;
  dirty : bool;
  frame : Z
}.

Definition zero_page : page_t := mk_page false false false false false 0.

Definition set_present (p : page_t) : page_t :=
  mk_page true (rw p) (user p) (accessed p) (dirty p) (frame p).
Definition set_rw (p : page_t) : page_t :=
  mk_page (present p) true (user p) (accessed p) (dirty p) (frame p).
Definition set_user (p : page_t) : page_t :=
  mk_page (present p) (rw p) true (accessed p) (dirty p) (frame p).
Definition set_accessed (p : page_t) : page_t :=
  mk_page (present p) (rw p) (user p) true (dirty p) (frame p).
Definition set_dirty (p : page_t) : page_t :=
  mk_page (present p) (rw p) (user p) (accessed p) true (frame p).

Record page_table_t := mk_table { pages : list page_t }.

Record page_directory_t := mk_dir {
  tables : list Z;
  physical_tables : list Z;
  physical_address : Z
}.

(** What [memset(p, 0, sizeof ...)] leaves behind. *)
Definition zero_table : page_table_t := mk_table (replicate 1024 zero_page).
Definition zero_directory : page_directory_t :=
  mk_dir (replicate 1024 0) (replicate 1024 0) 0.

(** ** Process records *)

Record process_t := mk_process {
  id : Z;
  image_stack : Z;
  thread_esp : Z;
  thread_ebp : Z;
  thread_eip : Z;
  thread_page_directory : Z;
  syscall_registers : Z;
  wait_queue : Z;
  fds_entries : Z;
  status : Z;
  finished : Z
}.

Definition zero_process : process_t := mk_process 0 0 0 0 0 0 0 0 0 0 0.

Definition set_thread_esp (v : Z) (p : process_t) : process_t :=
  mk_process (id p) (image_stack p) v (thread_ebp p) (thread_eip p)
    (thread_page_directory p) (syscall_registers p) (wait_queue p)
    (fds_entries p) (status p) (finished p).
Definition set_thread_ebp (v : Z) (p : process_t) : process_t :=
  mk_process (id p) (image_stack p) (thread_esp p) v (thread_eip p)
    (thread_page_directory p) (syscall_registers p) (wait_queue p)
    (fds_entries p) (status p) (finished p).
Definition set_thread_eip (v : Z) (p : process_t) : process_t :=
  mk_process (id p) (image_stack p) (thread_esp p) (thread_ebp p) v
    (thread_page_directory p) (syscall_registers p) (wait_queue p)
    (fds_entries p) (status p) (finished p).
Definition set_thread_page_directory (v : Z) (p : process_t) : process_t :=
  mk_process (id p) (image_stack p) (thread_esp p) (thread_ebp p)
    (thread_eip p) v (syscall_registers p) (wait_queue p)
    (fds_entries p) (status p) (finished p).
Definition set_syscall_registers (v : Z) (p : process_t) : process_t :=
  mk_process (id p) (image_stack p) (thread_esp p) (thread_ebp p)
    (thread_eip p) (thread_page_directory p) v (wait_queue p)
    (fds_entries p) (status p) (finished p).

(** The locals of a [fork]/[clone] activation that live in the caller's
    kernel stack across [read_eip].  The compiled code reaches them through
    the frame pointer [ebp] of the activation. *)
Record frame_t := mk_frame {
  fr_magic : Z;
  fr_parent : Z;
  fr_directory : Z;
  fr_new_proc : Z
}.

Definition zero_frame : frame_t := mk_frame 0 0 0 0.

(** ** Calls that leave this file *)

Inductive event :=
  | EvKvmalloc (size virt phys : Z)
  | EvAllocFrame (table : Z) (index : nat) (fr : Z)
  | EvCopyPage (src dst : Z)
  | EvFreeFrame (table : Z) (index : nat) (fr : Z)
  | EvFree (ptr : Z)
  | EvListFree (queue : Z)
  | EvKprintf (value : Z)
  | EvSpawn (parent child : Z)
  | EvSetEnv (proc dir : Z)
  | EvMakeReady (proc : Z)
  | EvSetKernelStack (stack : Z)
  | EvIrqOff
  | EvIrqRes.

(** ** Kernel state *)

Record kstate := mk_kstate {
  current_process : Z;
  current_directory : Z;
  kernel_directory : Z;
  mem_procs : gmap Z process_t;
  mem_dirs : gmap Z page_directory_t;
  mem_tables : gmap Z page_table_t;
  (* kernel stack memory: the activation records of [fork] and [clone], by
     the address the frame pointer of the activation holds *)
  mem_kstacks : gmap Z frame_t;
  process_queue : list Z;
  reap_queue : list Z;
  (* the interrupt flag: [true] when interrupts are enabled *)
  irq : bool;
  (* newest entry first *)
  trace : list (bool * event)
}.

Definition with_current_process (v : Z) (st : kstate) : kstate :=
  mk_kstate v (current_directory st) (kernel_directory st) (mem_procs st)
    (mem_dirs st) (mem_tables st) (mem_kstacks st) (process_queue st)
    (reap_queue st) (irq st) (trace st).
Definition with_current_directory (v : Z) (st : kstate) : kstate :=
  mk_kstate (current_process st) v (kernel_directory st) (mem_procs st)
    (mem_dirs st) (mem_tables st) (mem_kstacks st) (process_queue st)
    (reap_queue st) (irq st) (trace st).
Definition with_procs (v : gmap Z process_t) (st : kstate) : kstate :=
  mk_kstate (current_process st) (current_directory st) (kernel_directory st)
    v (mem_dirs st) (mem_tables st) (mem_kstacks st) (process_queue st)
    (reap_queue st) (irq st) (trace st).
Definition with_dirs (v : gmap Z page_directory_t) (st : kstate) : kstate :=
  mk_kstate (current_process st) (current_directory st) (kernel_directory st)
    (mem_procs st) v (mem_tables st) (mem_kstacks st) (process_queue st)
    (reap_queue st) (irq st) (trace st).
Definition with_tables (v : gmap Z page_table_t) (st : kstate) : kstate :=
  mk_kstate (current_process st) (current_directory st) (kernel_directory st)
    (mem_procs st) (mem_dirs st) v (mem_kstacks st) (process_queue st)
    (reap_queue st) (irq st) (trace st).
Definition with_kstacks (v : gmap Z frame_t) (st : kstate) : kstate :=
  mk_kstate (current_process st) (current_directory st) (kernel_directory st)
    (mem_procs st) (mem_dirs st) (mem_tables st) v (process_queue st)
    (reap_queue st) (irq st) (trace st).
Definition with_process_queue (v : list Z) (st : kstate) : kstate :=
  mk_kstate (current_process st) (current_directory st) (kernel_directory st)
    (mem_procs st) (mem_dirs st) (mem_tables st) (mem_kstacks st) v
    (reap_queue st) (irq st) (trace st).
Definition with_reap_queue (v : list Z) (st : kstate) : kstate :=
  mk_kstate (current_process st) (current_directory st) (kernel_directory st)
    (mem_procs st) (mem_dirs st) (mem_tables st) (mem_kstacks st)
    (process_queue st) v (irq st) (trace st).
Definition with_irq (v : bool) (st : kstate) : kstate :=
  mk_kstate (current_process st) (current_directory st) (kernel_directory st)
    (mem_procs st) (mem_dirs st) (mem_tables st) (mem_kstacks st)
    (process_queue st) (reap_queue st) v (trace st).

(** Record a call, stamped with the interrupt flag in force. *)
Definition emit (e : event) (st : kstate) : kstate :=
  mk_kstate (current_process st) (current_directory st) (kernel_directory st)
    (mem_procs st) (mem_dirs st) (mem_tables st) (mem_kstacks st)
    (process_queue st) (reap_queue st) (irq st) ((irq st, e) :: trace st).

(** ** Memory access *)

(** Reads through a pointer that is not mapped see zeroes. *)
Definition proc_at (st : kstate) (p : Z) : process_t :=
  default zero_process (mem_procs st !! p).
Definition dir_at (st : kstate) (d : Z) : page_directory_t :=
  default (mk_dir [] [] 0) (mem_dirs st !! d).
Definition table_at (st : kstate) (t : Z) : page_table_t :=
  default (mk_table []) (mem_tables st !! t).
Definition kstack_at (st : kstate) (s : Z) : frame_t :=
  default zero_frame (mem_kstacks st !! s).

(** [d->tables[i]], [d->physical_tables[i]], [t->pages[i]] *)
Definition rd_tables (st : kstate) (d : Z) (i : nat) : Z :=
  default 0 (tables (dir_at st d) !! i).
Definition rd_physical_tables (st : kstate) (d : Z) (i : nat) : Z :=
  default 0 (physical_tables (dir_at st d) !! i).
Definition rd_page (st : kstate) (t : Z) (i : nat) : page_t :=
  default zero_page (pages (table_at st t) !! i).

Definition wr_tables (d : Z) (i : nat) (v : Z) (st : kstate) : kstate :=
  let o := dir_at st d in
  with_dirs (<[d := mk_dir (<[i := v]> (tables o)) (physical_tables o)
                      (physical_address o)]> (mem_dirs st)) st.
Definition wr_physical_tables (d : Z) (i : nat) (v : Z) (st : kstate) : kstate :=
  let o := dir_at st d in
  with_dirs (<[d := mk_dir (tables o) (<[i := v]> (physical_tables o))
                      (physical_address o)]> (mem_dirs st)) st.
Definition wr_physical_address (d : Z) (v : Z) (st : kstate) : kstate :=
  let o := dir_at st d in
  with_dirs (<[d := mk_dir (tables o) (physical_tables o) v]> (mem_dirs st)) st.
Definition wr_page (t : Z) (i : nat) (v : page_t) (st : kstate) : kstate :=
  with_tables (<[t := mk_table (<[i := v]> (pages (table_at st t)))]>
                 (mem_tables st)) st.
Definition wr_proc (p : Z) (f : process_t -> process_t) (st : kstate) : kstate :=
  with_procs (<[p := f (proc_at st p)]> (mem_procs st)) st.

(** [for (i = 0; i < n; ++i) body] *)
Definition for_loop {S : Type} (n : nat) (body : nat -> S -> S) (s : S) : S :=
  foldl (fun acc i => body i acc) s (seq 0 n).

(** ** Interrupt control *)

(** Modelled from the spec: the macros [IRQ_OFF] and [IRQ_RES] come from
    system.h, which is not part of the sources at hand; the spec has them
    disable and re-enable interrupts. *)
Definition IRQ_OFF (st : kstate) : kstate := with_irq false (emit EvIrqOff st).
Definition IRQ_RES (st : kstate) : kstate := with_irq true (emit EvIrqRes st).

(** ** Heap and frame release *)

(** Modelled from the spec: [free] and [free_frame] belong to the heap and
    the frame allocator; they hand a block, respectively the frame of a page
    entry, back.  Memory contents are left as they are. *)
Definition free (ptr : Z) (st : kstate) : kstate := emit (EvFree ptr) st.
Definition free_frame (t : Z) (j : nat) (st : kstate) : kstate :=
  emit (EvFreeFrame t j (frame (rd_page st t j))) st.
Definition list_free (q : Z) (st : kstate) : kstate := emit (EvListFree q) st.

(** ** Results of code that may halt the kernel

    [Halt]: the kernel stops, on a failed [assert] or on the fault of a read
    through NULL. *)

Inductive result (A : Type) : Type :=
  | Ok (a : A)
  | Halt.
Arguments Ok {A} a.
Arguments Halt {A}.

(** The register file [switch_next] loads before its [jmp *%ebx]. *)
Record jump_t := mk_jump {
  j_eip : Z;
  j_esp : Z;
  j_ebp : Z;
  j_cr3 : Z;
  j_eax : Z
}.

(** ** The queue machinery *)

(** Modelled from the spec: the ready and reapable queues are kept by the
    process-tree code (process.c), which is not part of the sources at hand.
    [make_process_ready] enqueues, [next_ready_process] and
    [next_reapable_process] pop the head, [process_available] and
    [should_reap] test for a non-empty queue. *)
Definition make_process_ready (proc : Z) (st : kstate) : kstate :=
  emit (EvMakeReady proc) (with_process_queue (process_queue st ++ [proc]) st).
Definition process_available (st : kstate) : bool :=
  match process_queue st with [] => false | _ => true end.
Definition should_reap (st : kstate) : bool :=
  match reap_queue st with [] => false | _ => true end.
Definition next_ready_process (st : kstate) : result (Z * kstate) :=
  match process_queue st with
  | [] => Halt
  | p :: q => Ok (p, with_process_queue q st)
  end.
Definition next_reapable_process (st : kstate) : Z * kstate :=
  match reap_queue st with
  | [] => (0, st)
  | p :: q => (p, with_reap_queue q st)
  end.

(** Modelled from the spec: [set_process_environment(proc, dir)] sets
    [proc->thread.page_directory = dir]; [set_kernel_stack] programs the TSS. *)
Definition set_process_environment (proc dir : Z) (st : kstate) : kstate :=
  emit (EvSetEnv proc dir) (wr_proc proc (set_thread_page_directory dir) st).
Definition set_kernel_stack (stack : Z) (st : kstate) : kstate :=
  emit (EvSetKernelStack stack) st.

(** ** An example machine

    Collaborators of the simplest kind and a small kernel state, used to run
    the code on concrete inputs: a heap that hands out the page after the
    highest block in memory, a frame allocator that numbers the frames by
    the calls made so far and touches nothing but the frame field, and a
    process tree that puts each new record on a page of its own, with a
    kernel stack of [0x8000] bytes of its own.  A second frame allocator
    also sets access bits on the entry it fills. *)
Module Demo.

Definition KERNEL_STACK_SIZE : Z := 0x8000.
Definition sizeof_page_directory : Z := 8196.
Definition sizeof_page_table : Z := 4096.
Definition offsetof_physical_tables : Z := 4096.
Definition code_addr : Z := 0x100000.
Definition end_addr : Z := 0x200000.

Definition top_key {A : Type} (m : gmap Z A) : Z :=
  foldr Z.max 0 (elements (dom m)).
Definition next_page (top : Z) : Z := 0x1000 * (top / 0x1000 + 1).

Definition kvmalloc_p (size : Z) (s : kstate) : Z * Z :=
  let p := next_page (Z.max (top_key (mem_tables s)) (top_key (mem_dirs s))) in
  (p, p).

Definition alloc_frame (pg : page_t) (is_kernel is_writeable : Z) (s : kstate)
  : page_t :=
  mk_page (present pg) (rw pg) (user pg) (accessed pg) (dirty pg)
    (1 + Z.of_nat (length (trace s))).

(** A frame allocator that also marks the entry it fills: present, and open
    to user mode unless the frame is asked for the kernel, writable when
    asked so. *)
Definition alloc_user_frame (pg : page_t) (is_kernel is_writeable : Z)
    (s : kstate) : page_t :=
  mk_page true (is_writeable =? 1) (negb (is_kernel =? 1)) (accessed pg)
    (dirty pg) (1 + Z.of_nat (length (trace s))).

(** A new record above those in memory, with the next pid and a kernel
    stack of its own. *)
Definition spawn_process_record (parent : Z) (s : kstate) : Z * process_t :=
  let n := Z.of_nat (size (mem_procs s)) in
  (next_page (Z.max (top_key (mem_procs s)) parent),
   mk_process (1 + n) (0x8000 + 0x10000 * (2 + n mod 0x1000))
     0 0 0 0 0 0 0 0 0).

Definition regs_esp (r : Z) (s : kstate) : Z := r.

(** The kernel directory at [0x1000] maps one table ([0x5000]) and carries
    the sentinel in entry 1; the directory of the running process at
    [0x2000] shares these two entries and has a table of its own
    ([0x6000]) in entry 2. *)
Definition kernel_entry (i : nat) : Z :=
  match i with
  | 0%nat => 0x5000
  | 1%nat => 0xFFFFFFFF
  | _ => 0
  end.
Definition user_entry (i : nat) : Z :=
  match i with
  | 0%nat => 0x5000
  | 1%nat => 0xFFFFFFFF
  | 2%nat => 0x6000
  | _ => 0
  end.
Definition kernel_dir : page_directory_t :=
  mk_dir (map kernel_entry (seq 0 1024))
    (map (fun i => Z.lor (kernel_entry i) 0x03) (seq 0 1024)) 0x2000.
Definition user_dir : page_directory_t :=
  mk_dir (map user_entry (seq 0 1024))
    (map (fun i => Z.lor (user_entry i) 0x07) (seq 0 1024)) 0x3000.
Definition kernel_table : page_table_t :=
  mk_table (<[0%nat := mk_page true true false false false 0x100]>
              (replicate 1024 zero_page)).
Definition user_table : page_table_t :=
  mk_table (<[3%nat := mk_page true false true true true 0x201]>
              (<[0%nat := mk_page true true true false false 0x200]>
                 (replicate 1024 zero_page))).

(** Process 1 runs on the kernel stack below [0x28000], its trap frame at
    [0x27f00]. *)
Definition init : process_t :=
  mk_process 1 0x28000 0 0 0 0x2000 0x27f00 0 0 0 0.

Definition state : kstate :=
  mk_kstate 0x3000 0x2000 0x1000
    (<[0x3000 := init]> ∅)
    (<[0x1000 := kernel_dir]> (<[0x2000 := user_dir]> ∅))
    (<[0x5000 := kernel_table]> (<[0x6000 := user_table]> ∅))
    ∅ [] [] true [].

(** The same with a second process ready and a finished one to reap. *)
Definition busy_state : kstate :=
  mk_kstate 0x3000 0x2000 0x1000
    (<[0x3000 := init]> ∅)
    (<[0x1000 := kernel_dir]> (<[0x2000 := user_dir]> ∅))
    (<[0x5000 := kernel_table]> (<[0x6000 := user_table]> ∅))
    ∅ [0x7000] [0x4000] true [].

(** A wait queue nobody sleeps on: waking it changes nothing. *)
Definition wakeup_queue (q : Z) (s : kstate) : kstate := s.

(** A second process, switched out at [0x100800] on the kernel stack below
    [0x38000]. *)
Definition worker : process_t :=
  mk_process 2 0x38000 0x37e00 0x37e40 0x100800 0x2000 0x37f00 0 0 0 0.

(** Process 1 running, process 2 ready. *)
Definition duo_state : kstate :=
  mk_kstate 0x3000 0x2000 0x1000
    (<[0x4000 := worker]> (<[0x3000 := init]> ∅))
    (<[0x1000 := kernel_dir]> (<[0x2000 := user_dir]> ∅))
    (<[0x5000 := kernel_table]> (<[0x6000 := user_table]> ∅))
    ∅ [0x4000] [] true [].

(** Process 1 has called [task_exit(7)] from [duo_state] and process 2 has
    been switched in: the ready queue is empty and process 1 waits to be
    reaped. *)
Definition exited_init : process_t :=
  mk_process 1 0x28000 0 0 0 0x2000 0x27f00 0 0 7 1.
Definition exited_state : kstate :=
  mk_kstate 0x4000 0x2000 0x1000
    (<[0x4000 := worker]> (<[0x3000 := exited_init]> ∅))
    (<[0x1000 := kernel_dir]> (<[0x2000 := user_dir]> ∅))
    (<[0x5000 := kernel_table]> (<[0x6000 := user_table]> ∅))
    ∅ [] [0x3000] true [(true, EvSetKernelStack 0x38000)].

End Demo.

Section Task.

(** *** Collaborators and constants declared outside task.c *)

(** [KERNEL_STACK_SIZE] (process.h), the sizes and the field offset the
    compiler computes for the paging structs, and the linker symbols [code]
    and [end]. *)
Variable KERNEL_STACK_SIZE : Z.
Variable sizeof_page_directory : Z.
Variable sizeof_page_table : Z.
Variable offsetof_physical_tables : Z.
Variable code_addr : Z.
Variable end_addr : Z.

(** [kvmalloc_p(size, &phys)]: the virtual and the physical address of the
    block the heap hands out in a given kernel state. *)
Variable kvmalloc_p : Z -> kstate -> Z * Z.

(** [alloc_frame(page, is_kernel, is_writeable)]: the page entry as the frame
    allocator leaves it. *)
Variable alloc_frame : page_t -> Z -> Z -> kstate -> page_t.

(** [spawn_process(parent)]: the address and the initial contents of the
    process record the process tree hands out. *)
Variable spawn_process_record : Z -> kstate -> Z * process_t.

(** [r->esp] of the trap frame at address [r]. *)
Variable regs_esp : Z -> kstate -> Z.

(** Modelled from the spec: [spawn_process] (process.c) returns a process
    record with a kernel stack of its own and a new pid, not yet enqueued;
    here the record [spawn_process_record] names is put in memory. *)
Definition spawn_process (parent : Z) (st : kstate) : Z * kstate :=
  let '(p, rec) := spawn_process_record parent st in
  (p, emit (EvSpawn parent p) (with_procs (<[p := rec]> (mem_procs st)) st)).

(** *** clone_table *)

(** [if (src->pages[i].bit) table->pages[i].bit = 1;] *)
Definition mirror_bit (get : page_t -> bool) (set : page_t -> page_t)
    (src table : Z) (i : nat) (st : kstate) : kstate :=
  if get (rd_page st src i)
  then wr_page table i (set (rd_page st table i)) st
  else st.

Definition clone_table_body (src table : Z) (i : nat) (st : kstate) : kstate :=
  if frame (rd_page st src i) =? 0 then st else
  (* alloc_frame(&table->pages[i], 0, 0) *)
  let pg := alloc_frame (rd_page st table i) 0 0 st in
  let st := emit (EvAllocFrame table i (frame pg)) (wr_page table i pg st) in
  let st := mirror_bit present set_present src table i st in
  let st := mirror_bit rw set_rw src table i st in
  let st := mirror_bit user set_user src table i st in
  let st := mirror_bit accessed set_accessed src table i st in
  let st := mirror_bit dirty set_dirty src table i st in
  emit (EvCopyPage (wrap32 (frame (rd_page st src i) * 0x1000))
                   (wrap32 (frame (rd_page st table i) * 0x1000))) st.

(** Returns the new table, [*physAddr] and the state. *)
Definition clone_table (src : Z) (st : kstate) : Z * Z * kstate :=
  let '(table, physAddr) := kvmalloc_p sizeof_page_table st in
  let st := emit (EvKvmalloc sizeof_page_table table physAddr) st in
  let st := with_tables (<[table := zero_table]> (mem_tables st)) st in
  (table, physAddr, for_loop 1024 (clone_table_body src table) st).

(** *** clone_directory *)

Definition clone_directory_body (src dir : Z) (i : nat) (st : kstate) : kstate :=
  if (rd_tables st src i =? 0) || (rd_tables st src i =? 0xFFFFFFFF) then st
  else if rd_tables st (kernel_directory st) i =? rd_tables st src i then
    let st := wr_tables dir i (rd_tables st src i) st in
    wr_physical_tables dir i (rd_physical_tables st src i) st
  else
    let '(t, phys, st) := clone_table (rd_tables st src i) st in
    let st := wr_tables dir i t st in
    wr_physical_tables dir i (Z.lor phys 0x07) st.

(** The head of [clone_directory]: the new directory, cleared, with its
    physical address stored. *)
Definition clone_directory_alloc (st : kstate) : Z * kstate :=
  let '(dir, phys) := kvmalloc_p sizeof_page_directory st in
  let st := emit (EvKvmalloc sizeof_page_directory dir phys) st in
  let st := with_dirs (<[dir := zero_directory]> (mem_dirs st)) st in
  let offset := offsetof_physical_tables in
  (dir, wr_physical_address dir (wrap32 (phys + offset)) st).

Definition clone_directory (src : Z) (st : kstate) : Z * kstate :=
  let '(dir, st) := clone_directory_alloc st in
  (dir, for_loop 1024 (clone_directory_body src dir) st).

(** *** free_directory *)

Definition free_table_body (t : Z) (j : nat) (st : kstate) : kstate :=
  if frame (rd_page st t j) =? 0 then st else free_frame t j st.

Definition free_directory_body (dir : Z) (i : nat) (st : kstate) : kstate :=
  if (rd_tables st dir i =? 0) || (rd_tables st dir i =? 0xFFFFFFFF) then st
  else if rd_tables st (kernel_directory st) i =? rd_tables st dir i then st
  else
    let st := for_loop 1024 (free_table_body (rd_tables st dir i)) st in
    free (rd_tables st dir i) st.

Definition free_directory (dir : Z) (st : kstate) : kstate :=
  free dir (for_loop 1024 (free_directory_body dir) st).

(** *** reap_process *)

Definition reap_process (proc : Z) (st : kstate) : kstate :=
  let st := list_free (wait_queue (proc_at st proc)) st in
  let st := free (wait_queue (proc_at st proc)) st in
  let st := free (wrap32 (image_stack (proc_at st proc) - KERNEL_STACK_SIZE)) st in
  let st := free_directory (thread_page_directory (proc_at st proc)) st in
  free (fds_entries (proc_at st proc)) st.

(** *** fork and clone *)

(** Code runs on the kernel stack of the current process. *)
Definition current_stack (st : kstate) : Z :=
  image_stack (proc_at st (current_process st)).

(** The ESP/EBP fixup, as written: both branches of the [if]. *)
Definition fixup_esp (cur_stack new_stack esp : Z) : Z :=
  if cur_stack >? new_stack
  then wrap32 (esp - wrap32 (cur_stack - new_stack))
  else wrap32 (esp + wrap32 (new_stack - cur_stack)).
Definition fixup_ebp (cur_stack new_stack ebp : Z) : Z :=
  if cur_stack >? new_stack
  then wrap32 (ebp - wrap32 (cur_stack - new_stack))
  else wrap32 (ebp - wrap32 (cur_stack - new_stack)).

(** "Move the syscall_registers pointer" *)
Definition move_syscall_registers (cur_stack new_stack regs : Z) : Z :=
  let o_stack := wrap32 (cur_stack - KERNEL_STACK_SIZE) in
  let n_stack := wrap32 (new_stack - KERNEL_STACK_SIZE) in
  let offset := wrap32 (regs - o_stack) in
  wrap32 (n_stack + offset).

(** [memcpy(dst, src, n)] on kernel stack memory: what lies in
    [src, src + n) is copied to the same offset from [dst], over what
    [dst, dst + n) held. *)
Definition memcpy_frames (dst src n : Z) (m : gmap Z frame_t)
  : gmap Z frame_t :=
  kmap (M2 := gmap Z) (fun a : Z => a - src + dst)
    (filter (fun kv : Z * frame_t => src <= kv.1 < src + n) m)
  ∪ filter (fun kv : Z * frame_t => ~ (dst <= kv.1 < dst + n)) m.

(** The part of the parent branch that [fork] and [clone] have in common:
    from the two [mov] that collect [esp] and [ebp] up to
    [make_process_ready(new_proc)]. *)
Definition prepare_child (new_proc eip esp ebp : Z) (st : kstate) : kstate :=
  let cur := current_process st in
  let st := wr_proc new_proc
              (set_thread_esp (fixup_esp (image_stack (proc_at st cur))
                                 (image_stack (proc_at st new_proc)) esp)) st in
  let st := wr_proc new_proc
              (set_thread_ebp (fixup_ebp (image_stack (proc_at st cur))
                                 (image_stack (proc_at st new_proc)) ebp)) st in
  (* memcpy of the whole kernel stack region *)
  let st := with_kstacks
              (memcpy_frames
                 (wrap32 (image_stack (proc_at st new_proc) - KERNEL_STACK_SIZE))
                 (wrap32 (image_stack (proc_at st cur) - KERNEL_STACK_SIZE))
                 KERNEL_STACK_SIZE (mem_kstacks st)) st in
  let st := wr_proc new_proc
              (set_syscall_registers
                 (move_syscall_registers (image_stack (proc_at st cur))
                    (image_stack (proc_at st new_proc))
                    (syscall_registers (proc_at st cur)))) st in
  let st := wr_proc new_proc (set_thread_eip eip) st in
  make_process_ready new_proc st.

(** [fork] from the return of [read_eip] on.  [eip] is what [read_eip]
    returned, [esp] and [ebp] are the stack and the frame pointer in force:
    those of the call on the first return, those [switch_next] loaded on a
    resumption.  The locals are read through the frame pointer. *)
Definition fork_after_read_eip (eip esp ebp : Z) (st : kstate)
  : result (Z * kstate) :=
  let fr := kstack_at st ebp in
  if current_process st =? fr_parent fr then
    if negb (fr_magic fr =? TASK_MAGIC) then Halt else
    let st := prepare_child (fr_new_proc fr) eip esp ebp st in
    let st := IRQ_RES st in
    Ok (id (proc_at st (fr_new_proc fr)), st)
  else
    if negb (fr_magic fr =? TASK_MAGIC) then Halt else
    Ok (0, st).

(** [fork] up to the call of [read_eip]: the state in which [read_eip]
    is called, the locals sitting in the frame at [ebp] in the caller's
    kernel stack. *)
Definition fork_before_read_eip (ebp : Z) (st : kstate) : result kstate :=
  let st := IRQ_OFF st in
  let magic := TASK_MAGIC in
  let parent := current_process st in
  if parent =? 0 then Halt else
  let '(directory, st) := clone_directory (current_directory st) st in
  if directory =? 0 then Halt else
  let '(new_proc, st) := spawn_process (current_process st) st in
  if new_proc =? 0 then Halt else
  let st := set_process_environment new_proc directory st in
  Ok (with_kstacks (<[ebp := mk_frame magic parent directory new_proc]>
                      (mem_kstacks st)) st).

(** A call of [fork]: [eip] is what [read_eip] returns to the caller, [esp]
    and [ebp] what the two [mov] then read. *)
Definition fork (eip esp ebp : Z) (st : kstate) : result (Z * kstate) :=
  match fork_before_read_eip ebp st with
  | Halt => Halt
  | Ok st => fork_after_read_eip eip esp ebp st
  end.

Definition clone_after_read_eip (eip esp ebp : Z) (st : kstate)
  : result (Z * kstate) :=
  let fr := kstack_at st ebp in
  if current_process st =? fr_parent fr then
    if negb (fr_magic fr =? TASK_MAGIC) then Halt else
    let st := prepare_child (fr_new_proc fr) eip esp ebp st in
    Ok (id (proc_at st (fr_new_proc fr)), st)
  else
    if negb (fr_magic fr =? TASK_MAGIC) then Halt else
    Ok (0, st).

(** [clone] up to the call of [read_eip].  [current_process->syscall_registers]
    and [r->esp] are read before the first [assert]: with [current_process]
    or that [syscall_registers] NULL the read faults and the kernel stops
    there, before any call is made. *)
Definition clone_before_read_eip (stack_top stack_old ebp : Z) (st : kstate)
  : result kstate :=
  let magic := TASK_MAGIC in
  if current_process st =? 0 then Halt else
  let r := syscall_registers (proc_at st (current_process st)) in
  if r =? 0 then Halt else
  let st := emit (EvKprintf (regs_esp r st)) st in
  let parent := current_process st in
  if parent =? 0 then Halt else
  let directory := current_directory st in
  let '(new_proc, st) := spawn_process (current_process st) st in
  if new_proc =? 0 then Halt else
  let st := set_process_environment new_proc directory st in
  Ok (with_kstacks (<[ebp := mk_frame magic parent directory new_proc]>
                      (mem_kstacks st)) st).

Definition clone (stack_top stack_old : Z) (eip esp ebp : Z) (st : kstate)
  : result (Z * kstate) :=
  match clone_before_read_eip stack_top stack_old ebp st with
  | Halt => Halt
  | Ok st => clone_after_read_eip eip esp ebp st
  end.

(** *** getpid *)

Definition getpid (st : kstate) : Z := id (proc_at st (current_process st)).

(** *** switch_next and switch_task *)

Definition switch_next (st : kstate) : result (jump_t * kstate) :=
  match next_ready_process st with
  | Halt => Halt
  | Ok (p, st) =>
    let st := with_current_process p st in
    let eip := thread_eip (proc_at st (current_process st)) in
    let esp := thread_esp (proc_at st (current_process st)) in
    let ebp := thread_ebp (proc_at st (current_process st)) in
    if negb ((eip >? code_addr) && (eip <? end_addr)) then Halt else
    let st := with_current_directory
                (thread_page_directory (proc_at st (current_process st))) st in
    let st := set_kernel_stack (image_stack (proc_at st (current_process st))) st in
    (* read_eip() will return 0x10000 *)
    Ok (mk_jump eip esp ebp
          (physical_address (dir_at st (current_directory st))) 0x10000, st)
  end.

(** [while (should_reap()) { ... }]; [None] when the fuel runs out. *)
Fixpoint reap_while (fuel : nat) (st : kstate) : option kstate :=
  match fuel with
  | O => None
  | S fuel =>
    if should_reap st then
      let '(proc, st) := next_reapable_process st in
      let st := if proc =? 0 then st else reap_process proc st in
      reap_while fuel st
    else Some st
  end.

(** How a call of [switch_task] ends: it returns to its caller, it leaves
    through the jump of [switch_next], or the kernel halts. *)
Inductive outcome :=
  | Returned (st : kstate)
  | Switched (j : jump_t) (st : kstate)
  | Halted
  | OutOfFuel.

(** [switch_task] from the return of [read_eip] on.  [eip] is what
    [read_eip] returned: the address of the next instruction on a call, and
    [0x10000] when the jump of [switch_next] lands here and the process
    resumes.  [esp] and [ebp] are what the two [mov] collected. *)
Definition switch_task_after_read_eip (fuel : nat) (reschedule : Z)
    (eip esp ebp : Z) (st : kstate) : outcome :=
  if eip =? 0x10000 then
    match reap_while fuel st with
    | Some st => Returned st
    | None => OutOfFuel
    end
  else
  let st := wr_proc (current_process st) (set_thread_eip eip) st in
  let st := wr_proc (current_process st) (set_thread_esp esp) st in
  let st := wr_proc (current_process st) (set_thread_ebp ebp) st in
  let st := if reschedule =? 0 then st
            else make_process_ready (current_process st) st in
  match switch_next st with
  | Ok (j, st) => Switched j st
  | Halt => Halted
  end.

(** A call of [switch_task]: the two early exits, then the code from
    [read_eip] on with what [read_eip] returns to the call.  A process that
    is switched in does not come through here: it continues in
    [switch_task_after_read_eip], with [0x10000] for [eip]. *)
Definition switch_task (fuel : nat) (reschedule : Z) (eip esp ebp : Z)
    (st : kstate) : outcome :=
  if current_process st =? 0 then Returned st else
  if negb (process_available st) then Returned st else
  switch_task_after_read_eip fuel reschedule eip esp ebp st.

(** ** Specification-side vocabulary *)

(** The part of the state the paging code never writes. *)
Definition sched_part (st : kstate) :=
  (current_process st, current_directory st, kernel_directory st,
   mem_procs st, mem_kstacks st, process_queue st, reap_queue st, irq st).

(** The paging structures in memory. *)
Definition heap_part (st : kstate) := (mem_dirs st, mem_tables st).

(** What the cloner and [reap_while] are expected to do, written as plain
    recursion on the queue. *)
Fixpoint reap_each (q : list Z) (st : kstate) : kstate :=
  match q with
  | [] => st
  | p :: q' =>
    reap_each q' (if p =? 0 then with_reap_queue q' st
                  else reap_process p (with_reap_queue q' st))
  end.

(** The state in which [read_eip] is called, given the frame pointer and
    the directory and the process record obtained on the way. *)
Definition at_read_eip (ebp parent directory new_proc : Z) (rec : process_t)
    (st1 : kstate) : kstate :=
  let st2 := emit (EvSpawn parent new_proc)
               (with_procs (<[new_proc := rec]> (mem_procs st1)) st1) in
  let st3 := set_process_environment new_proc directory st2 in
  with_kstacks (<[ebp := mk_frame TASK_MAGIC parent directory new_proc]>
                  (mem_kstacks st3)) st3.

(** The entry [clone_table] leaves: what the frame allocator made of the
    cleared entry ([pg]), with every access bit of the source entry [s] that
    is set, set. *)
Definition mirrored (pg s : page_t) : page_t :=
  mk_page (present pg || present s) (rw pg || rw s) (user pg || user s)
    (accessed pg || accessed s) (dirty pg || dirty s) (frame pg).

(** The calls the loop of [clone_table] makes for the entries below [n],
    newest first, in terms of the source entries and the entries of the new
    table [t]. *)
Fixpoint table_calls (b : bool) (t : Z) (src new : nat -> page_t) (n : nat)
  : list (bool * event) :=
  match n with
  | O => []
  | S k =>
    (if frame (src k) =? 0 then []
     else [(b, EvCopyPage (wrap32 (frame (src k) * 0x1000))
                          (wrap32 (frame (new k) * 0x1000)));
           (b, EvAllocFrame t k (frame (new k)))])
    ++ table_calls b t src new k
  end.

(** What one entry of a cloned table looks like. *)
Definition cloned_entry (s new : page_t) : Prop :=
  if frame s =? 0 then new = zero_page
  else exists x, new = mirrored (alloc_frame zero_page 0 0 x) s.

(** The state the loop of [clone_table] reaches after [n] turns. *)
Record clone_table_inv (src t phys : Z) (st : kstate) (n : nat) (x : kstate)
  : Prop := {
  cti_sched : sched_part x = sched_part st;
  cti_dirs : mem_dirs x = mem_dirs st;
  cti_dom : dom (mem_tables x) = {[t]} ∪ dom (mem_tables st);
  cti_others : forall t', t' <> t -> mem_tables x !! t' = mem_tables st !! t';
  cti_length : length (pages (table_at x t)) = 1024%nat;
  cti_rest : forall j, (n <= j)%nat -> rd_page x t j = zero_page;
  cti_done : forall j, (j < n)%nat ->
             cloned_entry (rd_page st src j) (rd_page x t j);
  cti_trace : trace x
              = table_calls (irq st) t (rd_page st src) (rd_page x t) n
                ++ (irq st, EvKvmalloc sizeof_page_table t phys) :: trace st
}.

(** The calls that give something back: [free], [free_frame], [list_free]. *)
Definition is_release (e : bool * event) : Prop :=
  match e.2 with
  | EvFree _ | EvFreeFrame _ _ _ | EvListFree _ => True
  | _ => False
  end.

(** [st'] comes after [st], and every call made in between satisfies [P]. *)
Definition extends (P : bool * event -> Prop) (st st' : kstate) : Prop :=
  exists evs, trace st' = evs ++ trace st /\ Forall P evs.

(** [p] lies in the kernel stack region whose top is [stack]. *)
Definition in_kernel_stack (stack p : Z) : Prop :=
  stack - KERNEL_STACK_SIZE <= p < stack.

(** What [clone_directory] leaves in entry [j] of the new directory [dir],
    in terms of the source directory and of the state [st0] in which its
    loop starts: [tbl] is [tables[j]] and [phys] is [physical_tables[j]]. *)
Definition directory_entry (src dir : Z) (st0 : kstate) (j : nat)
    (tbl phys : Z) : Prop :=
  if (rd_tables st0 src j =? 0) || (rd_tables st0 src j =? 0xFFFFFFFF)
  then tbl = 0 /\ phys = 0
  else if rd_tables st0 (kernel_directory st0) j =? rd_tables st0 src j
  then tbl = rd_tables st0 src j /\ phys = rd_physical_tables st0 src j
  else tbl = (clone_table (rd_tables st0 src j)
                (for_loop j (clone_directory_body src dir) st0)).1.1 /\
       phys = Z.lor (clone_table (rd_tables st0 src j)
                       (for_loop j (clone_directory_body src dir) st0)).1.2
                0x07.

(** The state the loop of [clone_directory] reaches after [n] turns. *)
Record clone_directory_inv (src dir : Z) (st0 : kstate) (n : nat) (x : kstate)
  : Prop := {
  cdi_state : x = for_loop n (clone_directory_body src dir) st0;
  cdi_sched : sched_part x = sched_part st0;
  cdi_others : forall d', d' <> dir -> mem_dirs x !! d' = mem_dirs st0 !! d';
  cdi_length : length (tables (dir_at x dir)) = 1024%nat /\
               length (physical_tables (dir_at x dir)) = 1024%nat;
  cdi_rest : forall j, (n <= j)%nat ->
             rd_tables x dir j = 0 /\ rd_physical_tables x dir j = 0;
  cdi_done : forall j, (j < n)%nat ->
             directory_entry src dir st0 j (rd_tables x dir j)
               (rd_physical_tables x dir j)
}.

(** What a run took from and gave back to the allocators, read off the
    calls it made (newest first). *)
Definition allocated_frames (evs : list (bool * event)) : list Z :=
  flat_map (fun e => match e.2 with EvAllocFrame _ _ f => [f] | _ => [] end) evs.
Definition allocated_blocks (evs : list (bool * event)) : list Z :=
  flat_map (fun e => match e.2 with EvKvmalloc _ p _ => [p] | _ => [] end) evs.
Definition freed_frames (evs : list (bool * event)) : list Z :=
  flat_map (fun e => match e.2 with EvFreeFrame _ _ f => [f] | _ => [] end) evs.
Definition freed_blocks (evs : list (bool * event)) : list Z :=
  flat_map (fun e => match e.2 with EvFree p => [p] | _ => [] end) evs.

(** Entry [i] of directory [d] holds a table of its own: neither empty nor
    the sentinel nor the table the kernel directory has there. *)
Definition owned (x : kstate) (d : Z) (i : nat) : bool :=
  negb ((rd_tables x d i =? 0) || (rd_tables x d i =? 0xFFFFFFFF))
  && negb (rd_tables x (kernel_directory x) i =? rd_tables x d i).

(** The frames of the entries below [n] of a table, the tables directory [d]
    owns in its entries below [n], and the frames of these tables; highest
    index first. *)
Fixpoint table_frames (pg : nat -> page_t) (n : nat) : list Z :=
  match n with
  | O => []
  | S k => (if frame (pg k) =? 0 then [] else [frame (pg k)])
           ++ table_frames pg k
  end.
Fixpoint dir_blocks (x : kstate) (d : Z) (n : nat) : list Z :=
  match n with
  | O => []
  | S k => (if owned x d k then [rd_tables x d k] else []) ++ dir_blocks x d k
  end.
Fixpoint dir_frames (x : kstate) (d : Z) (n : nat) : list Z :=
  match n with
  | O => []
  | S k => (if owned x d k
            then table_frames (rd_page x (rd_tables x d k)) 1024 else [])
           ++ dir_frames x d k
  end.

(** A table pointer that is empty, the sentinel, or a table in memory. *)
Definition live_table (st : kstate) (t : Z) : Prop :=
  t = 0 \/ t = 0xFFFFFFFF \/ t ∈ dom (mem_tables st).

(** What the heap and the frame allocator promise: a block that is not
    NULL, not the sentinel and not in use; a frame that is not frame 0. *)
Definition kvmalloc_fresh : Prop :=
  forall (size : Z) (s : kstate),
    (kvmalloc_p size s).1 <> 0 /\ (kvmalloc_p size s).1 <> 0xFFFFFFFF /\
    ((kvmalloc_p size s).1 ∉ dom (mem_tables s)) /\
    ((kvmalloc_p size s).1 ∉ dom (mem_dirs s)).
Definition alloc_frame_nonzero : Prop :=
  forall (pg : page_t) (k w : Z) (s : kstate), frame (alloc_frame pg k w s) <> 0.

(** The loop of [clone_directory] after [n] turns, with the bookkeeping of
    what it has taken from the allocators since it started in [st0]. *)
Record clone_directory_heap_inv (src dir : Z) (st0 : kstate) (n : nat)
    (x : kstate) : Prop := {
  chi_base : clone_directory_inv src dir st0 n x;
  chi_dom : dom (mem_tables st0) ⊆ dom (mem_tables x);
  chi_fresh : forall j, (j < n)%nat -> owned x dir j = true ->
              (rd_tables x dir j ∈ dom (mem_tables x)) /\
              (rd_tables x dir j ∉ dom (mem_tables st0));
  chi_trace : exists evs,
              trace x = evs ++ trace st0 /\
              allocated_frames evs = dir_frames x dir n /\
              allocated_blocks evs = dir_blocks x dir n
}.

(** Directories [x] and [y] agree on the entries below [n] of [d], on the
    kernel directory's, and on the tables [d] owns there. *)
Definition agree_below (x y : kstate) (d : Z) (n : nat) : Prop :=
  forall j, (j < n)%nat ->
    rd_tables y d j = rd_tables x d j /\
    rd_tables y (kernel_directory y) j = rd_tables x (kernel_directory x) j /\
    (owned x d j = true ->
     forall k, rd_page y (rd_tables x d j) k = rd_page x (rd_tables x d j) k).

(** The calls of the address-space cloner, and such a call made with the
    interrupt flag at [b]. *)
Definition is_paging_call (e : bool * event) : Prop :=
  match e.2 with
  | EvKvmalloc _ _ _ | EvAllocFrame _ _ _ | EvCopyPage _ _ => True
  | _ => False
  end.
Definition paging_call_at (b : bool) (e : bool * event) : Prop :=
  e.1 = b /\ is_paging_call e.

(** *** task_exit and kexit *)

Definition set_status (v : Z) (p : process_t) : process_t :=
  mk_process (id p) (image_stack p) (thread_esp p) (thread_ebp p)
    (thread_eip p) (thread_page_directory p) (syscall_registers p)
    (wait_queue p) (fds_entries p) v (finished p).
Definition set_finished (v : Z) (p : process_t) : process_t :=
  mk_process (id p) (image_stack p) (thread_esp p) (thread_ebp p)
    (thread_eip p) (thread_page_directory p) (syscall_registers p)
    (wait_queue p) (fds_entries p) (status p) v.

(** [wakeup_queue(queue)] (process.c): the kernel state once the sleepers of
    a wait queue have been woken. *)
Variable wakeup_queue : Z -> kstate -> kstate.

(** Modelled from the spec: [make_process_reapable] (process.c) marks a
    process reapable; it joins the queue [next_reapable_process] pops. *)
Definition make_process_reapable (proc : Z) (st : kstate) : kstate :=
  with_reap_queue (reap_queue st ++ [proc]) st.

(** The code between [#if 0] and [#endif] is not compiled. *)
Definition task_exit (retval : Z) (st : kstate) : result (jump_t * kstate) :=
  let st := wr_proc (current_process st) (set_status retval) st in
  let st := wr_proc (current_process st) (set_finished 1) st in
  let st := wakeup_queue (wait_queue (proc_at st (current_process st))) st in
  let st := make_process_reapable (current_process st) st in
  switch_next st.

(** [STOP] comes after a call that leaves through the jump of [switch_next]
    or halts on its assertion: it is reached in neither case. *)
Definition kexit (retval : Z) (st : kstate) : outcome :=
  match task_exit retval st with
  | Ok (j, st) => Switched j st
  | Halt => Halted
  end.

(** *** enter_user_jmp *)

(** The registers the assembly of the trampoline works on, and the memory
    its pushes land in (32-bit words by address). *)
Record cpu_t := mk_cpu {
  r_esp : Z;
  r_eax : Z;
  r_ds : Z;
  r_es : Z;
  r_fs : Z;
  r_gs : Z;
  r_eflags : Z;
  r_mem : gmap Z Z
}.

Definition mov_esp (v : Z) (c : cpu_t) : cpu_t :=
  mk_cpu v (r_eax c) (r_ds c) (r_es c) (r_fs c) (r_gs c) (r_eflags c) (r_mem c).
Definition mov_eax (v : Z) (c : cpu_t) : cpu_t :=
  mk_cpu (r_esp c) v (r_ds c) (r_es c) (r_fs c) (r_gs c) (r_eflags c) (r_mem c).
(** [mov $v, %ax] writes the low half of [eax]. *)
Definition mov_ax (v : Z) (c : cpu_t) : cpu_t :=
  mov_eax (Z.lor (Z.land (r_eax c) 0xFFFF0000) (Z.land v 0xFFFF)) c.
Definition ax (c : cpu_t) : Z := Z.land (r_eax c) 0xFFFF.
Definition mov_ds (v : Z) (c : cpu_t) : cpu_t :=
  mk_cpu (r_esp c) (r_eax c) v (r_es c) (r_fs c) (r_gs c) (r_eflags c) (r_mem c).
Definition mov_es (v : Z) (c : cpu_t) : cpu_t :=
  mk_cpu (r_esp c) (r_eax c) (r_ds c) v (r_fs c) (r_gs c) (r_eflags c) (r_mem c).
Definition mov_fs (v : Z) (c : cpu_t) : cpu_t :=
  mk_cpu (r_esp c) (r_eax c) (r_ds c) (r_es c) v (r_gs c) (r_eflags c) (r_mem c).
Definition mov_gs (v : Z) (c : cpu_t) : cpu_t :=
  mk_cpu (r_esp c) (r_eax c) (r_ds c) (r_es c) (r_fs c) v (r_eflags c) (r_mem c).

(** [pushl v]: the stack pointer goes down by four, then [v] is stored. *)
Definition pushl (v : Z) (c : cpu_t) : cpu_t :=
  let sp := wrap32 (r_esp c - 4) in
  mk_cpu sp (r_eax c) (r_ds c) (r_es c) (r_fs c) (r_gs c) (r_eflags c)
    (<[sp := v]> (r_mem c)).
(** [popl]: the word at the stack pointer, which then goes up by four. *)
Definition popl (c : cpu_t) : Z * cpu_t :=
  (default 0 (r_mem c !! r_esp c), mov_esp (wrap32 (r_esp c + 4)) c).

(** Where [iret] lands: it pops [eip], [cs] and [eflags] and, the return
    being to an outer ring, [esp] and [ss]. *)
Record user_t := mk_user {
  u_eip : Z;
  u_cs : Z;
  u_eflags : Z;
  u_esp : Z;
  u_ss : Z;
  u_ds : Z;
  u_es : Z;
  u_fs : Z;
  u_gs : Z;
  u_mem : gmap Z Z
}.

Definition iret (c : cpu_t) : user_t :=
  let '(eip, c) := popl c in
  let '(cs, c) := popl c in
  let '(eflags, c) := popl c in
  let '(esp, c) := popl c in
  let '(ss, c) := popl c in
  mk_user eip cs eflags esp ss (r_ds c) (r_es c) (r_fs c) (r_gs c) (r_mem c).

(** [c] holds the registers and the memory as the assembly finds them; the
    arguments are 32-bit words. *)
Definition enter_user_jmp (location argc argv stack : Z) (c : cpu_t)
    (st : kstate) : user_t * kstate :=
  let st := IRQ_OFF st in
  let st := set_kernel_stack (image_stack (proc_at st (current_process st))) st in
  let c := mov_esp stack c in                 (* mov %3, %%esp *)
  let c := pushl 0 c in                       (* pushl $0 *)
  let c := pushl argv c in                    (* pushl %2 *)
  let c := pushl argc c in                    (* pushl %1 *)
  let c := pushl 0xDECADE21 c in              (* pushl $0xDECADE21 *)
  let c := mov_ax 0x23 c in                   (* mov $0x23, %%ax *)
  let c := mov_ds (ax c) c in                 (* mov %%ax, %%ds *)
  let c := mov_es (ax c) c in                 (* mov %%ax, %%es *)
  let c := mov_fs (ax c) c in                 (* mov %%ax, %%fs *)
  let c := mov_gs (ax c) c in                 (* mov %%ax, %%gs *)
  let c := mov_eax (r_esp c) c in             (* mov %%esp, %%eax *)
  let c := pushl 0x23 c in                    (* pushl $0x23 *)
  let c := pushl (r_eax c) c in               (* pushl %%eax *)
  let c := pushl (r_eflags c) c in            (* pushf *)
  let '(v, c) := popl c in                    (* popl %%eax *)
  let c := mov_eax v c in
  let c := mov_eax (Z.lor (r_eax c) 0x200) c in  (* orl $0x200, %%eax *)
  let c := pushl (r_eax c) c in               (* pushl %%eax *)
  let c := pushl 0x1B c in                    (* pushl $0x1B *)
  let c := pushl location c in                (* pushl %0 *)
  (iret c, st).                               (* iret *)

(** ** More specification-side vocabulary *)

(** The state [switch_next] leaves when it jumps to process [p], the rest
    of the ready queue being [q]. *)
Definition switched_to (p : Z) (q : list Z) (st : kstate) : kstate :=
  set_kernel_stack (image_stack (proc_at st p))
    (with_current_directory (thread_page_directory (proc_at st p))
       (with_current_process p (with_process_queue q st))).

(** The state in which [switch_task] calls [switch_next]. *)
Definition yielded (reschedule eip esp ebp : Z) (st : kstate) : kstate :=
  let st := wr_proc (current_process st) (set_thread_eip eip) st in
  let st := wr_proc (current_process st) (set_thread_esp esp) st in
  let st := wr_proc (current_process st) (set_thread_ebp ebp) st in
  if reschedule =? 0 then st else make_process_ready (current_process st) st.

(** The state in which [task_exit] calls [switch_next]. *)
Definition exited (retval : Z) (st : kstate) : kstate :=
  let st := wr_proc (current_process st) (set_status retval) st in
  let st := wr_proc (current_process st) (set_finished 1) st in
  let st := wakeup_queue (wait_queue (proc_at st (current_process st))) st in
  make_process_reapable (current_process st) st.

(** What this file relies on [wakeup_queue] to leave alone: the current
    process, the process records and the reapable queue. *)
Definition wakeup_queue_frame : Prop :=
  forall (q : Z) (s : kstate),
    current_process (wakeup_queue q s) = current_process s /\
    mem_procs (wakeup_queue q s) = mem_procs s /\
    reap_queue (wakeup_queue q s) = reap_queue s.


(** * Properties *)

#[local] Arguments replicate : simpl never.

(** A property depends on the collaborators its statement names only. *)
Set Default Proof Using "Type".

(** ** Loops *)

Lemma for_loop_0 {S : Type} (body : nat -> S -> S) (s : S) :
  for_loop 0 body s = s.
Proof. reflexivity. Qed.

Lemma for_loop_S {S : Type} (n : nat) (body : nat -> S -> S) (s : S) :
  for_loop (Datatypes.S n) body s = body n (for_loop n body s).
Proof.
  unfold for_loop. rewrite seq_S, foldl_app. reflexivity.
Qed.

Lemma for_loop_inv {S : Type} (P : nat -> S -> Prop) (n : nat)
    (body : nat -> S -> S) (s : S) :
  P O s ->
  (forall i x, (i < n)%nat -> P i x -> P (Datatypes.S i) (body i x)) ->
  P n (for_loop n body s).
Proof.
  intros H0 Hstep. induction n as [|n IH].
  - exact H0.
  - rewrite for_loop_S. apply Hstep; [lia|]. apply IH.
    intros i x Hi. apply Hstep. lia.
Qed.

(** From here on loops are reasoned about through [for_loop_S] and
    [for_loop_inv] only. *)
Opaque for_loop.

(** ** 32-bit arithmetic *)

Lemma wrap32_small (x : Z) : 0 <= x < 2 ^ 32 -> wrap32 x = x.
Proof. intros H. unfold wrap32. apply Z.mod_small. exact H. Qed.

Lemma wrap32_sub_wrap (a b : Z) : wrap32 (a - wrap32 b) = wrap32 (a - b).
Proof. unfold wrap32. apply Zminus_mod_idemp_r. Qed.

Lemma wrap32_add_wrap (a b : Z) : wrap32 (a + wrap32 b) = wrap32 (a + b).
Proof. unfold wrap32. apply Zplus_mod_idemp_r. Qed.

Lemma wrap32_wrap_add (a b : Z) : wrap32 (wrap32 a + b) = wrap32 (a + b).
Proof. unfold wrap32. apply Zplus_mod_idemp_l. Qed.

Lemma fixup_esp_offset (cur new esp : Z) :
  fixup_esp cur new esp = wrap32 (esp + (new - cur)).
Proof.
  unfold fixup_esp. destruct (cur >? new).
  - rewrite wrap32_sub_wrap. f_equal. lia.
  - rewrite wrap32_add_wrap. reflexivity.
Qed.

Lemma fixup_ebp_offset (cur new ebp : Z) :
  fixup_ebp cur new ebp = wrap32 (ebp + (new - cur)).
Proof.
  unfold fixup_ebp. destruct (cur >? new);
    rewrite wrap32_sub_wrap; f_equal; lia.
Qed.

(** ** Reads and writes that do not meet

    A write to one part of the state leaves the reads of the other parts
    alone; these hold by computation.  The ones used as rewrite rules below
    are collected in the rewrite base [kst]. *)

Lemma mem_dirs_emit (e : event) (st : kstate) :
  mem_dirs (emit e st) = mem_dirs st.
Proof. reflexivity. Qed.
Lemma mem_tables_emit (e : event) (st : kstate) :
  mem_tables (emit e st) = mem_tables st.
Proof. reflexivity. Qed.
Lemma proc_at_emit (e : event) (st : kstate) (p : Z) :
  proc_at (emit e st) p = proc_at st p.
Proof. reflexivity. Qed.
Lemma table_at_emit (e : event) (st : kstate) (t : Z) :
  table_at (emit e st) t = table_at st t.
Proof. reflexivity. Qed.
Lemma kstack_at_emit (e : event) (st : kstate) (s : Z) :
  kstack_at (emit e st) s = kstack_at st s.
Proof. reflexivity. Qed.
Lemma rd_page_emit (e : event) (st : kstate) (t : Z) (i : nat) :
  rd_page (emit e st) t i = rd_page st t i.
Proof. reflexivity. Qed.
Lemma sched_part_emit (e : event) (st : kstate) :
  sched_part (emit e st) = sched_part st.
Proof. reflexivity. Qed.
Lemma heap_part_emit (e : event) (st : kstate) :
  heap_part (emit e st) = heap_part st.
Proof. reflexivity. Qed.
Lemma proc_at_with_current_process (v : Z) (st : kstate) (p : Z) :
  proc_at (with_current_process v st) p = proc_at st p.
Proof. reflexivity. Qed.
Lemma proc_at_with_kstacks (v : gmap Z frame_t) (st : kstate) (p : Z) :
  proc_at (with_kstacks v st) p = proc_at st p.
Proof. reflexivity. Qed.
Lemma proc_at_with_process_queue (v : list Z) (st : kstate) (p : Z) :
  proc_at (with_process_queue v st) p = proc_at st p.
Proof. reflexivity. Qed.
Lemma kstack_at_with_process_queue (v : list Z) (st : kstate) (s : Z) :
  kstack_at (with_process_queue v st) s = kstack_at st s.
Proof. reflexivity. Qed.
Lemma mem_tables_wr_tables (a : Z) (k : nat) (v : Z) (st : kstate) :
  mem_tables (wr_tables a k v st) = mem_tables st.
Proof. reflexivity. Qed.
Lemma trace_wr_tables (a : Z) (k : nat) (v : Z) (st : kstate) :
  trace (wr_tables a k v st) = trace st.
Proof. reflexivity. Qed.
Lemma sched_part_wr_tables (a : Z) (k : nat) (v : Z) (st : kstate) :
  sched_part (wr_tables a k v st) = sched_part st.
Proof. reflexivity. Qed.
Lemma mem_tables_wr_physical_tables (a : Z) (k : nat) (v : Z) (st : kstate) :
  mem_tables (wr_physical_tables a k v st) = mem_tables st.
Proof. reflexivity. Qed.
Lemma trace_wr_physical_tables (a : Z) (k : nat) (v : Z) (st : kstate) :
  trace (wr_physical_tables a k v st) = trace st.
Proof. reflexivity. Qed.
Lemma sched_part_wr_physical_tables (a : Z) (k : nat) (v : Z) (st : kstate) :
  sched_part (wr_physical_tables a k v st) = sched_part st.
Proof. reflexivity. Qed.
Lemma current_process_wr_proc (a : Z) (f : process_t -> process_t)
    (st : kstate)  :
  current_process (wr_proc a f st) = current_process st.
Proof. reflexivity. Qed.
Lemma kstack_at_wr_proc (a : Z) (f : process_t -> process_t)
    (st : kstate) (s : Z) :
  kstack_at (wr_proc a f st) s = kstack_at st s.
Proof. reflexivity. Qed.

Create Rewrite HintDb kst.

#[local] Hint Rewrite
  mem_dirs_emit mem_tables_emit
  proc_at_emit table_at_emit
  kstack_at_emit rd_page_emit
  sched_part_emit heap_part_emit
  proc_at_with_current_process proc_at_with_kstacks
  proc_at_with_process_queue kstack_at_with_process_queue
  mem_tables_wr_tables trace_wr_tables
  sched_part_wr_tables mem_tables_wr_physical_tables
  trace_wr_physical_tables sched_part_wr_physical_tables
  current_process_wr_proc kstack_at_wr_proc
  : kst.

(** ** Reads that meet a write *)

Lemma trace_emit (e : event) (st : kstate) :
  trace (emit e st) = (irq st, e) :: trace st.
Proof. reflexivity. Qed.
Lemma irq_with_irq (v : bool) (st : kstate) : irq (with_irq v st) = v.
Proof. reflexivity. Qed.
Lemma current_process_with_current_process (v : Z) (st : kstate) :
  current_process (with_current_process v st) = v.
Proof. reflexivity. Qed.
Lemma current_directory_with_current_directory (v : Z) (st : kstate) :
  current_directory (with_current_directory v st) = v.
Proof. reflexivity. Qed.
Lemma process_queue_with_process_queue (v : list Z) (st : kstate) :
  process_queue (with_process_queue v st) = v.
Proof. reflexivity. Qed.
Lemma reap_queue_with_reap_queue (v : list Z) (st : kstate) :
  reap_queue (with_reap_queue v st) = v.
Proof. reflexivity. Qed.
Lemma mem_procs_with_procs (v : gmap Z process_t) (st : kstate) :
  mem_procs (with_procs v st) = v.
Proof. reflexivity. Qed.
Lemma mem_dirs_with_dirs (v : gmap Z page_directory_t) (st : kstate) :
  mem_dirs (with_dirs v st) = v.
Proof. reflexivity. Qed.
Lemma mem_tables_with_tables (v : gmap Z page_table_t) (st : kstate) :
  mem_tables (with_tables v st) = v.
Proof. reflexivity. Qed.
Lemma mem_kstacks_with_kstacks (v : gmap Z frame_t) (st : kstate) :
  mem_kstacks (with_kstacks v st) = v.
Proof. reflexivity. Qed.
Lemma current_stack_with_current_process (v : Z) (st : kstate) :
  current_stack (with_current_process v st) = image_stack (proc_at st v).
Proof. reflexivity. Qed.

Lemma proc_at_with_procs (v : gmap Z process_t) (st : kstate) (p : Z) :
  proc_at (with_procs v st) p = default zero_process (v !! p).
Proof. reflexivity. Qed.
Lemma kstack_at_with_kstacks (v : gmap Z frame_t) (st : kstate) (s : Z) :
  kstack_at (with_kstacks v st) s = default zero_frame (v !! s).
Proof. reflexivity. Qed.
Lemma table_at_with_tables (v : gmap Z page_table_t) (st : kstate) (t : Z) :
  table_at (with_tables v st) t = default (mk_table []) (v !! t).
Proof. reflexivity. Qed.
Lemma dir_at_with_dirs (v : gmap Z page_directory_t) (st : kstate) (d : Z) :
  dir_at (with_dirs v st) d = default (mk_dir [] [] 0) (v !! d).
Proof. reflexivity. Qed.

Lemma mem_procs_wr_proc (a : Z) (f : process_t -> process_t) (st : kstate) :
  mem_procs (wr_proc a f st) = <[a := f (proc_at st a)]> (mem_procs st).
Proof. reflexivity. Qed.
Lemma mem_tables_wr_page (a : Z) (k : nat) (v : page_t) (st : kstate) :
  mem_tables (wr_page a k v st)
  = <[a := mk_table (<[k := v]> (pages (table_at st a)))]> (mem_tables st).
Proof. reflexivity. Qed.

Lemma proc_at_wr_proc (st : kstate) (p q : Z) (f : process_t -> process_t) :
  proc_at (wr_proc p f st) q
  = if decide (p = q) then f (proc_at st p) else proc_at st q.
Proof.
  unfold proc_at, wr_proc. simpl. rewrite lookup_insert.
  destruct (decide (p = q)); subst; reflexivity.
Qed.

Lemma proc_at_wr_proc_eq (st : kstate) (p : Z) (f : process_t -> process_t) :
  proc_at (wr_proc p f st) p = f (proc_at st p).
Proof. rewrite proc_at_wr_proc. destruct (decide (p = p)); congruence. Qed.

Lemma proc_at_wr_proc_ne (st : kstate) (p q : Z) (f : process_t -> process_t) :
  p <> q -> proc_at (wr_proc p f st) q = proc_at st q.
Proof. intros H. rewrite proc_at_wr_proc. destruct (decide (p = q)); congruence. Qed.

(** A write that leaves a field alone leaves it alone in every record. *)
Lemma image_stack_wr_proc (st : kstate) (p q : Z) (f : process_t -> process_t) :
  (forall r, image_stack (f r) = image_stack r) ->
  image_stack (proc_at (wr_proc p f st) q) = image_stack (proc_at st q).
Proof.
  intros Hf. rewrite proc_at_wr_proc.
  destruct (decide (p = q)); subst; [apply Hf | reflexivity].
Qed.

Lemma syscall_registers_wr_proc (st : kstate) (p q : Z)
    (f : process_t -> process_t) :
  (forall r, syscall_registers (f r) = syscall_registers r) ->
  syscall_registers (proc_at (wr_proc p f st) q)
  = syscall_registers (proc_at st q).
Proof.
  intros Hf. rewrite proc_at_wr_proc.
  destruct (decide (p = q)); subst; [apply Hf | reflexivity].
Qed.

Lemma current_stack_wr_proc (st : kstate) (p : Z) (f : process_t -> process_t) :
  (forall r, image_stack (f r) = image_stack r) ->
  current_stack (wr_proc p f st) = current_stack st.
Proof.
  intros Hf. unfold current_stack. rewrite current_process_wr_proc.
  apply image_stack_wr_proc. exact Hf.
Qed.

(** Page tables *)

Lemma rd_page_wr_page (t t' : Z) (i j : nat) (v : page_t) (st : kstate) :
  rd_page (wr_page t i v st) t' j
  = if decide (t = t')
    then default zero_page (<[i := v]> (pages (table_at st t)) !! j)
    else rd_page st t' j.
Proof.
  unfold rd_page, table_at, wr_page. simpl. rewrite lookup_insert.
  destruct (decide (t = t')); subst; reflexivity.
Qed.

Lemma rd_page_wr_page_other_table (t t' : Z) (i j : nat) (v : page_t)
    (st : kstate) :
  t <> t' -> rd_page (wr_page t i v st) t' j = rd_page st t' j.
Proof.
  intros H. rewrite rd_page_wr_page. destruct (decide (t = t')); congruence.
Qed.

Lemma rd_page_wr_page_other_index (t : Z) (i j : nat) (v : page_t)
    (st : kstate) :
  i <> j -> rd_page (wr_page t i v st) t j = rd_page st t j.
Proof.
  intros H. rewrite rd_page_wr_page. destruct (decide (t = t)); [|congruence].
  rewrite list_lookup_insert_ne by assumption. reflexivity.
Qed.

Lemma rd_page_wr_page_same (t : Z) (i : nat) (v : page_t) (st : kstate) :
  (i < length (pages (table_at st t)))%nat ->
  rd_page (wr_page t i v st) t i = v.
Proof.
  intros H. rewrite rd_page_wr_page. destruct (decide (t = t)); [|congruence].
  rewrite list_lookup_insert_eq by assumption. reflexivity.
Qed.

Lemma table_at_wr_page (t t' : Z) (i : nat) (v : page_t) (st : kstate) :
  table_at (wr_page t i v st) t'
  = if decide (t = t') then mk_table (<[i := v]> (pages (table_at st t)))
    else table_at st t'.
Proof.
  unfold table_at, wr_page. simpl. rewrite lookup_insert.
  destruct (decide (t = t')); subst; reflexivity.
Qed.

Lemma length_pages_wr_page (t t' : Z) (i : nat) (v : page_t) (st : kstate) :
  length (pages (table_at (wr_page t i v st) t'))
  = length (pages (table_at st t')).
Proof.
  rewrite table_at_wr_page. destruct (decide (t = t')); subst; [|reflexivity].
  simpl. apply length_insert.
Qed.

Lemma dom_wr_page (t : Z) (i : nat) (v : page_t) (st : kstate) :
  dom (mem_tables (wr_page t i v st)) = {[t]} ∪ dom (mem_tables st).
Proof. rewrite mem_tables_wr_page. apply dom_insert_L. Qed.

Lemma dom_wr_page_in (t : Z) (i : nat) (v : page_t) (st : kstate) :
  t ∈ dom (mem_tables st) ->
  dom (mem_tables (wr_page t i v st)) = dom (mem_tables st).
Proof.
  intros H. rewrite dom_wr_page. apply subseteq_union_1_L.
  apply singleton_subseteq_l. exact H.
Qed.

(** Page directories *)

Lemma dir_at_wr_tables (d d' : Z) (i : nat) (v : Z) (st : kstate) :
  dir_at (wr_tables d i v st) d'
  = if decide (d = d')
    then mk_dir (<[i := v]> (tables (dir_at st d)))
           (physical_tables (dir_at st d)) (physical_address (dir_at st d))
    else dir_at st d'.
Proof.
  unfold dir_at, wr_tables. simpl. rewrite lookup_insert.
  destruct (decide (d = d')); subst; reflexivity.
Qed.

Lemma dir_at_wr_physical_tables (d d' : Z) (i : nat) (v : Z) (st : kstate) :
  dir_at (wr_physical_tables d i v st) d'
  = if decide (d = d')
    then mk_dir (tables (dir_at st d))
           (<[i := v]> (physical_tables (dir_at st d)))
           (physical_address (dir_at st d))
    else dir_at st d'.
Proof.
  unfold dir_at, wr_physical_tables. simpl. rewrite lookup_insert.
  destruct (decide (d = d')); subst; reflexivity.
Qed.

Lemma dir_at_wr_physical_address (d d' : Z) (v : Z) (st : kstate) :
  dir_at (wr_physical_address d v st) d'
  = if decide (d = d')
    then mk_dir (tables (dir_at st d)) (physical_tables (dir_at st d)) v
    else dir_at st d'.
Proof.
  unfold dir_at, wr_physical_address. simpl. rewrite lookup_insert.
  destruct (decide (d = d')); subst; reflexivity.
Qed.

Lemma rd_tables_wr_tables (d d' : Z) (i j : nat) (v : Z) (st : kstate) :
  rd_tables (wr_tables d i v st) d' j
  = if decide (d = d')
    then default 0 (<[i := v]> (tables (dir_at st d)) !! j)
    else rd_tables st d' j.
Proof.
  unfold rd_tables. rewrite dir_at_wr_tables.
  destruct (decide (d = d')); reflexivity.
Qed.

Lemma rd_physical_tables_wr_physical_tables (d d' : Z) (i j : nat) (v : Z)
    (st : kstate) :
  rd_physical_tables (wr_physical_tables d i v st) d' j
  = if decide (d = d')
    then default 0 (<[i := v]> (physical_tables (dir_at st d)) !! j)
    else rd_physical_tables st d' j.
Proof.
  unfold rd_physical_tables. rewrite dir_at_wr_physical_tables.
  destruct (decide (d = d')); reflexivity.
Qed.

Lemma rd_tables_wr_physical_tables (d d' : Z) (i j : nat) (v : Z)
    (st : kstate) :
  rd_tables (wr_physical_tables d i v st) d' j = rd_tables st d' j.
Proof.
  unfold rd_tables. rewrite dir_at_wr_physical_tables.
  destruct (decide (d = d')); subst; reflexivity.
Qed.

Lemma rd_physical_tables_wr_tables (d d' : Z) (i j : nat) (v : Z)
    (st : kstate) :
  rd_physical_tables (wr_tables d i v st) d' j = rd_physical_tables st d' j.
Proof.
  unfold rd_physical_tables. rewrite dir_at_wr_tables.
  destruct (decide (d = d')); subst; reflexivity.
Qed.

Lemma rd_tables_wr_physical_address (d d' : Z) (j : nat) (v : Z)
    (st : kstate) :
  rd_tables (wr_physical_address d v st) d' j = rd_tables st d' j.
Proof.
  unfold rd_tables. rewrite dir_at_wr_physical_address.
  destruct (decide (d = d')); subst; reflexivity.
Qed.

Lemma rd_physical_tables_wr_physical_address (d d' : Z) (j : nat) (v : Z)
    (st : kstate) :
  rd_physical_tables (wr_physical_address d v st) d' j
  = rd_physical_tables st d' j.
Proof.
  unfold rd_physical_tables. rewrite dir_at_wr_physical_address.
  destruct (decide (d = d')); subst; reflexivity.
Qed.

#[local] Hint Rewrite
  trace_emit irq_with_irq current_process_with_current_process
  current_directory_with_current_directory process_queue_with_process_queue
  reap_queue_with_reap_queue mem_procs_with_procs mem_dirs_with_dirs
  mem_tables_with_tables mem_kstacks_with_kstacks
  current_stack_with_current_process
  rd_tables_wr_physical_tables rd_physical_tables_wr_tables
  rd_tables_wr_physical_address rd_physical_tables_wr_physical_address
  length_pages_wr_page
  : kst.

(** From here on the writes are used through the lemmas above only. *)
Opaque emit with_current_process with_current_directory with_procs with_dirs
  with_tables with_kstacks with_process_queue with_reap_queue with_irq
  wr_tables wr_physical_tables wr_physical_address wr_page wr_proc.

Ltac split_ifs :=
  repeat match goal with
         | |- context [if ?b then _ else _] => destruct b
         end.

Ltac kst := try rewrite_strat (bottomup (hints kst)).

(** ** What the paging code leaves alone *)

Lemma mirror_bit_sched (get : page_t -> bool) (set : page_t -> page_t)
    (src table : Z) (i : nat) (st : kstate) :
  sched_part (mirror_bit get set src table i st) = sched_part st.
Proof. unfold mirror_bit. destruct (get _); kst; reflexivity. Qed.

Lemma mirror_bit_dirs (get : page_t -> bool) (set : page_t -> page_t)
    (src table : Z) (i : nat) (st : kstate) :
  mem_dirs (mirror_bit get set src table i st) = mem_dirs st.
Proof. unfold mirror_bit. destruct (get _); kst; reflexivity. Qed.

Lemma mirror_bit_trace (get : page_t -> bool) (set : page_t -> page_t)
    (src table : Z) (i : nat) (st : kstate) :
  trace (mirror_bit get set src table i st) = trace st.
Proof. unfold mirror_bit. destruct (get _); kst; reflexivity. Qed.

Lemma mirror_bit_irq (get : page_t -> bool) (set : page_t -> page_t)
    (src table : Z) (i : nat) (st : kstate) :
  irq (mirror_bit get set src table i st) = irq st.
Proof. unfold mirror_bit. destruct (get _); kst; reflexivity. Qed.

Lemma clone_table_body_sched (src table : Z) (i : nat) (st : kstate) :
  sched_part (clone_table_body src table i st) = sched_part st.
Proof.
  unfold clone_table_body. destruct (_ =? _); [reflexivity|]. cbv zeta.
  kst. rewrite !mirror_bit_sched. kst. reflexivity.
Qed.

Lemma clone_table_body_dirs (src table : Z) (i : nat) (st : kstate) :
  mem_dirs (clone_table_body src table i st) = mem_dirs st.
Proof.
  unfold clone_table_body. destruct (_ =? _); [reflexivity|]. cbv zeta.
  kst. rewrite !mirror_bit_dirs. kst. reflexivity.
Qed.

Lemma clone_table_sched (src : Z) (st : kstate) :
  sched_part (clone_table src st).2 = sched_part st.
Proof.
  unfold clone_table. destruct (kvmalloc_p _ _) as [table phys]. simpl.
  apply (for_loop_inv (fun _ x => sched_part x = sched_part st)).
  - kst. reflexivity.
  - intros i x _ Hx. rewrite clone_table_body_sched. exact Hx.
Qed.

Lemma clone_table_dirs (src : Z) (st : kstate) :
  mem_dirs (clone_table src st).2 = mem_dirs st.
Proof.
  unfold clone_table. destruct (kvmalloc_p _ _) as [table phys]. simpl.
  apply (for_loop_inv (fun _ x => mem_dirs x = mem_dirs st)).
  - kst. reflexivity.
  - intros i x _ Hx. rewrite clone_table_body_dirs. exact Hx.
Qed.

Lemma clone_directory_body_sched (src dir : Z) (i : nat) (st : kstate) :
  sched_part (clone_directory_body src dir i st) = sched_part st.
Proof.
  unfold clone_directory_body.
  destruct (_ || _); [reflexivity|].
  destruct (_ =? _); [kst; reflexivity|].
  pose proof (clone_table_sched (rd_tables st src i) st) as H.
  destruct (clone_table _ _) as [[t phys] st1]. kst. exact H.
Qed.

Lemma clone_directory_sched (src : Z) (st : kstate) :
  sched_part (clone_directory src st).2 = sched_part st.
Proof.
  unfold clone_directory, clone_directory_alloc.
  destruct (kvmalloc_p _ _) as [dir phys]. simpl.
  apply (for_loop_inv (fun _ x => sched_part x = sched_part st)).
  - kst. reflexivity.
  - intros i x _ Hx. rewrite clone_directory_body_sched. exact Hx.
Qed.

Lemma free_table_body_frame (t : Z) (j : nat) (st : kstate) :
  sched_part (free_table_body t j st) = sched_part st /\
  heap_part (free_table_body t j st) = heap_part st.
Proof.
  unfold free_table_body, free_frame. split_ifs; kst; split; reflexivity.
Qed.

Lemma free_table_frame (t : Z) (n : nat) (st : kstate) :
  sched_part (for_loop n (free_table_body t) st) = sched_part st /\
  heap_part (for_loop n (free_table_body t) st) = heap_part st.
Proof.
  apply (for_loop_inv (fun _ x => sched_part x = sched_part st /\
                                  heap_part x = heap_part st)).
  - split; reflexivity.
  - intros i x _ [H1 H2]. destruct (free_table_body_frame t i x) as [-> ->].
    split; assumption.
Qed.

Lemma free_directory_body_frame (dir : Z) (i : nat) (st : kstate) :
  sched_part (free_directory_body dir i st) = sched_part st /\
  heap_part (free_directory_body dir i st) = heap_part st.
Proof.
  unfold free_directory_body.
  destruct (_ || _); [split; reflexivity|].
  destruct (_ =? _); [split; reflexivity|].
  unfold free. kst. apply free_table_frame.
Qed.

Lemma free_directory_frame (dir : Z) (st : kstate) :
  sched_part (free_directory dir st) = sched_part st /\
  heap_part (free_directory dir st) = heap_part st.
Proof.
  unfold free_directory, free. kst.
  apply (for_loop_inv (fun _ x => sched_part x = sched_part st /\
                                  heap_part x = heap_part st)).
  - split; reflexivity.
  - intros i x _ [H1 H2]. destruct (free_directory_body_frame dir i x) as [-> ->].
    split; assumption.
Qed.

Lemma reap_process_frame (proc : Z) (st : kstate) :
  sched_part (reap_process proc st) = sched_part st /\
  heap_part (reap_process proc st) = heap_part st.
Proof.
  unfold reap_process, free, list_free. kst.
  match goal with
  | |- context [free_directory ?d ?s] =>
    destruct (free_directory_frame d s) as [-> ->]
  end.
  kst. split; reflexivity.
Qed.

Lemma sched_part_fields (st st' : kstate) :
  sched_part st' = sched_part st ->
  current_process st' = current_process st /\
  current_directory st' = current_directory st /\
  kernel_directory st' = kernel_directory st /\
  mem_procs st' = mem_procs st /\
  mem_kstacks st' = mem_kstacks st /\
  process_queue st' = process_queue st /\
  reap_queue st' = reap_queue st /\
  irq st' = irq st.
Proof. unfold sched_part. intros H. injection H. auto 10. Qed.

Lemma sched_part_kernel_directory (st st' : kstate) :
  sched_part st' = sched_part st -> kernel_directory st' = kernel_directory st.
Proof.
  intros H. apply sched_part_fields in H.
  destruct H as (_ & _ & H & _). exact H.
Qed.

Lemma sched_part_irq (st st' : kstate) :
  sched_part st' = sched_part st -> irq st' = irq st.
Proof.
  intros H. apply sched_part_fields in H.
  destruct H as (_ & _ & _ & _ & _ & _ & _ & H). exact H.
Qed.

Lemma sched_part_proc_at (st st' : kstate) (p : Z) :
  sched_part st' = sched_part st -> proc_at st' p = proc_at st p.
Proof.
  intros H. apply sched_part_fields in H.
  destruct H as (_ & _ & _ & H & _). unfold proc_at. rewrite H. reflexivity.
Qed.

Lemma sched_part_kstack_at (st st' : kstate) (s : Z) :
  sched_part st' = sched_part st -> kstack_at st' s = kstack_at st s.
Proof.
  intros H. apply sched_part_fields in H.
  destruct H as (_ & _ & _ & _ & H & _). unfold kstack_at. rewrite H.
  reflexivity.
Qed.

Lemma heap_part_fields (st st' : kstate) :
  heap_part st' = heap_part st ->
  mem_dirs st' = mem_dirs st /\ mem_tables st' = mem_tables st.
Proof. unfold heap_part. intros H. injection H. auto. Qed.

Lemma heap_part_rd_tables (st st' : kstate) (d : Z) (i : nat) :
  heap_part st' = heap_part st -> rd_tables st' d i = rd_tables st d i.
Proof.
  intros H. apply heap_part_fields in H. destruct H as [H _].
  unfold rd_tables, dir_at. rewrite H. reflexivity.
Qed.

Lemma heap_part_rd_page (st st' : kstate) (t : Z) (i : nat) :
  heap_part st' = heap_part st -> rd_page st' t i = rd_page st t i.
Proof.
  intros H. apply heap_part_fields in H. destruct H as [_ H].
  unfold rd_page, table_at. rewrite H. reflexivity.
Qed.

(** ** The parent branch *)

Ltac wr_proc_norm :=
  repeat (progress (kst;
                    rewrite ?image_stack_wr_proc, ?syscall_registers_wr_proc
                      by reflexivity;
                    rewrite ?proc_at_wr_proc_eq)).

(** The record of the child once the parent has prepared it. *)
Lemma prepare_child_record (new_proc eip esp ebp : Z) (st : kstate) :
  let cur := proc_at st (current_process st) in
  let new := proc_at st new_proc in
  proc_at (prepare_child new_proc eip esp ebp st) new_proc
  = set_thread_eip eip
      (set_syscall_registers
         (move_syscall_registers (image_stack cur) (image_stack new)
            (syscall_registers cur))
         (set_thread_ebp (fixup_ebp (image_stack cur) (image_stack new) ebp)
            (set_thread_esp (fixup_esp (image_stack cur) (image_stack new) esp)
               new))).
Proof.
  intros cur new. unfold prepare_child, make_process_ready.
  wr_proc_norm. reflexivity.
Qed.

(** Records other than the child's are not written. *)
Lemma prepare_child_others (new_proc eip esp ebp q : Z) (st : kstate) :
  q <> new_proc ->
  proc_at (prepare_child new_proc eip esp ebp st) q = proc_at st q.
Proof.
  intros Hq. unfold prepare_child, make_process_ready.
  repeat (progress (kst; rewrite ?proc_at_wr_proc_ne by congruence)).
  reflexivity.
Qed.

Lemma prepare_child_queue (new_proc eip esp ebp : Z) (st : kstate) :
  process_queue (prepare_child new_proc eip esp ebp st)
  = process_queue st ++ [new_proc].
Proof. unfold prepare_child, make_process_ready. kst. reflexivity. Qed.

Lemma prepare_child_current (new_proc eip esp ebp : Z) (st : kstate) :
  current_process (prepare_child new_proc eip esp ebp st) = current_process st.
Proof. unfold prepare_child, make_process_ready. kst. reflexivity. Qed.

Lemma prepare_child_irq (new_proc eip esp ebp : Z) (st : kstate) :
  irq (prepare_child new_proc eip esp ebp st) = irq st.
Proof. unfold prepare_child, make_process_ready. kst. reflexivity. Qed.

Lemma prepare_child_trace (new_proc eip esp ebp : Z) (st : kstate) :
  trace (prepare_child new_proc eip esp ebp st)
  = (irq st, EvMakeReady new_proc) :: trace st.
Proof. unfold prepare_child, make_process_ready. kst. reflexivity. Qed.

(** Copying a kernel stack: what lay at [a] in the source region lies at
    the same offset in the destination. *)
#[local] Instance shift_inj (src dst : Z) :
  Inj (=) (=) (fun a : Z => a - src + dst).
Proof. intros a b H. lia. Qed.

Lemma memcpy_frames_lookup (dst src n : Z) (m : gmap Z frame_t) (a : Z) :
  src <= a < src + n ->
  memcpy_frames dst src n m !! (a - src + dst) = m !! a.
Proof.
  intros Ha. unfold memcpy_frames.
  destruct (m !! a) as [fr|] eqn:E.
  - apply lookup_union_Some_l.
    rewrite (lookup_kmap (fun a : Z => a - src + dst) _ a).
    apply map_lookup_filter_Some. split; [exact E | exact Ha].
  - apply lookup_union_None_2.
    + rewrite (lookup_kmap (fun a : Z => a - src + dst) _ a).
      apply map_lookup_filter_None. left. exact E.
    + apply map_lookup_filter_None. right. intros x _ Hn. apply Hn.
      cbn [fst]. lia.
Qed.

Lemma mem_kstacks_wr_proc (a : Z) (f : process_t -> process_t) (st : kstate) :
  mem_kstacks (wr_proc a f st) = mem_kstacks st.
Proof. with_strategy transparent [wr_proc with_procs] reflexivity. Qed.

(** The child's kernel stack holds a copy of the parent's: what lay at [a]
    in the parent's stack lies at the same distance from the top of the
    child's. *)
Lemma prepare_child_kstack (new_proc eip esp ebp a : Z) (st : kstate) :
  KERNEL_STACK_SIZE <= current_stack st < 2 ^ 32 ->
  KERNEL_STACK_SIZE <= image_stack (proc_at st new_proc) < 2 ^ 32 ->
  in_kernel_stack (current_stack st) a ->
  kstack_at (prepare_child new_proc eip esp ebp st)
    (a + (image_stack (proc_at st new_proc) - current_stack st))
  = kstack_at st a.
Proof.
  intros Hcur Hnew Ha.
  unfold prepare_child, make_process_ready, current_stack in *.
  unfold in_kernel_stack in Ha.
  wr_proc_norm. rewrite kstack_at_with_kstacks. wr_proc_norm.
  rewrite !mem_kstacks_wr_proc.
  rewrite !wrap32_small by lia.
  replace (a + (image_stack (proc_at st new_proc)
                - image_stack (proc_at st (current_process st))))
    with (a - (image_stack (proc_at st (current_process st))
               - KERNEL_STACK_SIZE)
          + (image_stack (proc_at st new_proc) - KERNEL_STACK_SIZE)) by lia.
  rewrite memcpy_frames_lookup by lia. reflexivity.
Qed.

Lemma prepare_child_image_stack (new_proc eip esp ebp q : Z) (st : kstate) :
  image_stack (proc_at (prepare_child new_proc eip esp ebp st) q)
  = image_stack (proc_at st q).
Proof.
  destruct (decide (q = new_proc)) as [->|Hq].
  - rewrite prepare_child_record. reflexivity.
  - rewrite prepare_child_others by assumption. reflexivity.
Qed.

Opaque prepare_child.

(** ** [fork] and [clone] up to [read_eip] *)

Lemma at_read_eip_current (ebp parent directory new_proc : Z) (rec : process_t)
    (st1 : kstate) :
  current_process (at_read_eip ebp parent directory new_proc rec st1)
  = current_process st1.
Proof. unfold at_read_eip, set_process_environment. kst. reflexivity. Qed.

Lemma at_read_eip_queue (ebp parent directory new_proc : Z) (rec : process_t)
    (st1 : kstate) :
  process_queue (at_read_eip ebp parent directory new_proc rec st1)
  = process_queue st1.
Proof. unfold at_read_eip, set_process_environment. kst. reflexivity. Qed.

Lemma at_read_eip_irq (ebp parent directory new_proc : Z) (rec : process_t)
    (st1 : kstate) :
  irq (at_read_eip ebp parent directory new_proc rec st1) = irq st1.
Proof. unfold at_read_eip, set_process_environment. kst. reflexivity. Qed.

Lemma at_read_eip_trace (ebp parent directory new_proc : Z) (rec : process_t)
    (st1 : kstate) :
  trace (at_read_eip ebp parent directory new_proc rec st1)
  = (irq st1, EvSetEnv new_proc directory)
      :: (irq st1, EvSpawn parent new_proc) :: trace st1.
Proof. unfold at_read_eip, set_process_environment. kst. reflexivity. Qed.

(** At [read_eip] the caller's stack holds the locals. *)
Lemma at_read_eip_frame (ebp parent directory new_proc : Z) (rec : process_t)
    (st1 : kstate) :
  let st_f := at_read_eip ebp parent directory new_proc rec st1 in
  kstack_at st_f ebp
  = mk_frame TASK_MAGIC parent directory new_proc.
Proof.
  unfold at_read_eip. cbv zeta. kst. rewrite kstack_at_with_kstacks.
  rewrite lookup_insert_eq. reflexivity.
Qed.

Lemma at_read_eip_own_frame (ebp parent directory new_proc : Z) (rec : process_t)
    (st1 : kstate) :
  current_process st1 = parent ->
  let st_f := at_read_eip ebp parent directory new_proc rec st1 in
  kstack_at st_f ebp
  = mk_frame TASK_MAGIC (current_process st_f) directory new_proc.
Proof.
  intros H st_f. subst st_f. rewrite at_read_eip_current, H.
  apply at_read_eip_frame.
Qed.

Lemma at_read_eip_child (ebp parent directory new_proc : Z) (rec : process_t)
    (st1 : kstate) :
  proc_at (at_read_eip ebp parent directory new_proc rec st1) new_proc
  = set_thread_page_directory directory rec.
Proof.
  unfold at_read_eip, set_process_environment. kst.
  rewrite proc_at_wr_proc_eq. kst. rewrite proc_at_with_procs.
  rewrite lookup_insert_eq. reflexivity.
Qed.

Lemma at_read_eip_others (ebp parent directory new_proc q : Z) (rec : process_t)
    (st1 : kstate) :
  q <> new_proc ->
  proc_at (at_read_eip ebp parent directory new_proc rec st1) q = proc_at st1 q.
Proof.
  intros Hq. unfold at_read_eip, set_process_environment. kst.
  rewrite proc_at_wr_proc_ne by congruence. kst. rewrite proc_at_with_procs.
  rewrite lookup_insert_ne by congruence. reflexivity.
Qed.

Opaque at_read_eip.

Lemma fork_before_read_eip_inv (ebp : Z) (st st_f : kstate) :
  fork_before_read_eip ebp st = Ok st_f ->
  exists directory st1 new_proc rec,
    clone_directory (current_directory st) (IRQ_OFF st) = (directory, st1) /\
    spawn_process_record (current_process st) st1 = (new_proc, rec) /\
    current_process st1 = current_process st /\
    current_process st <> 0 /\ directory <> 0 /\ new_proc <> 0 /\
    st_f = at_read_eip ebp (current_process st) directory new_proc rec st1.
Proof.
  unfold fork_before_read_eip, spawn_process.
  assert (Hc : current_process (IRQ_OFF st) = current_process st)
    by (unfold IRQ_OFF; kst; reflexivity).
  assert (Hd0 : current_directory (IRQ_OFF st) = current_directory st)
    by (unfold IRQ_OFF; kst; reflexivity).
  rewrite Hc, Hd0.
  destruct (Z.eqb_spec (current_process st) 0) as [|Hp]; [discriminate|].
  pose proof (clone_directory_sched (current_directory st) (IRQ_OFF st)) as Hs.
  destruct (clone_directory _ _) as [directory st1] eqn:Hcd. simpl in Hs.
  apply sched_part_fields in Hs. destruct Hs as [Hcur _].
  rewrite Hc in Hcur.
  destruct (Z.eqb_spec directory 0) as [|Hd]; [discriminate|].
  rewrite Hcur.
  destruct (spawn_process_record _ _) as [new_proc rec] eqn:Hsp.
  destruct (Z.eqb_spec new_proc 0) as [|Hn]; [discriminate|].
  intros H. injection H as <-.
  exists directory, st1, new_proc, rec.
  repeat split; assumption.
Qed.

Lemma clone_before_read_eip_inv (stack_top stack_old ebp : Z)
    (st st_f : kstate) :
  clone_before_read_eip stack_top stack_old ebp st = Ok st_f ->
  exists new_proc rec st1,
    st1 = emit (EvKprintf
                  (regs_esp (syscall_registers (proc_at st (current_process st)))
                     st)) st /\
    spawn_process_record (current_process st) st1 = (new_proc, rec) /\
    current_process st <> 0 /\ new_proc <> 0 /\
    st_f = at_read_eip ebp (current_process st) (current_directory st) new_proc
             rec st1.
Proof.
  unfold clone_before_read_eip, spawn_process.
  destruct (Z.eqb_spec (current_process st) 0) as [|Hp]; [discriminate|].
  destruct (syscall_registers (proc_at st (current_process st)) =? 0);
    [discriminate|].
  set (st1 := emit _ st).
  assert (Hc : current_process st1 = current_process st)
    by (subst st1; kst; reflexivity).
  assert (Hd0 : current_directory st1 = current_directory st)
    by (subst st1; kst; reflexivity).
  rewrite Hc, Hd0.
  destruct (Z.eqb_spec (current_process st) 0) as [|_]; [contradiction|].
  destruct (spawn_process_record _ _) as [new_proc rec] eqn:Hsp.
  destruct (Z.eqb_spec new_proc 0) as [|Hn]; [discriminate|].
  intros H. injection H as <-.
  exists new_proc, rec, st1. repeat split; assumption.
Qed.

(** From a state in which the caller's stack holds its own locals, the
    discriminator takes the parent branch. *)
Lemma fork_after_read_eip_parent (eip esp ebp : Z) (st : kstate)
    (directory new_proc : Z) :
  kstack_at st ebp
  = mk_frame TASK_MAGIC (current_process st) directory new_proc ->
  fork_after_read_eip eip esp ebp st
  = Ok (id (proc_at (IRQ_RES (prepare_child new_proc eip esp ebp st)) new_proc),
        IRQ_RES (prepare_child new_proc eip esp ebp st)).
Proof.
  intros Hfr. unfold fork_after_read_eip. rewrite Hfr. simpl.
  rewrite Z.eqb_refl. reflexivity.
Qed.

Lemma clone_after_read_eip_parent (eip esp ebp : Z) (st : kstate)
    (directory new_proc : Z) :
  kstack_at st ebp
  = mk_frame TASK_MAGIC (current_process st) directory new_proc ->
  clone_after_read_eip eip esp ebp st
  = Ok (id (proc_at (prepare_child new_proc eip esp ebp st) new_proc),
        prepare_child new_proc eip esp ebp st).
Proof.
  intros Hfr. unfold clone_after_read_eip. rewrite Hfr. simpl.
  rewrite Z.eqb_refl. reflexivity.
Qed.

(** Resumed on a stack whose saved [parent] is another process, the
    discriminator takes the child branch. *)
Lemma fork_after_read_eip_child (eip esp ebp : Z) (st : kstate)
    (parent directory new_proc : Z) :
  kstack_at st ebp
  = mk_frame TASK_MAGIC parent directory new_proc ->
  current_process st <> parent ->
  fork_after_read_eip eip esp ebp st = Ok (0, st).
Proof.
  intros Hfr Hne. unfold fork_after_read_eip. rewrite Hfr. simpl.
  destruct (Z.eqb_spec (current_process st) parent); [contradiction|].
  reflexivity.
Qed.

Lemma clone_after_read_eip_child (eip esp ebp : Z) (st : kstate)
    (parent directory new_proc : Z) :
  kstack_at st ebp
  = mk_frame TASK_MAGIC parent directory new_proc ->
  current_process st <> parent ->
  clone_after_read_eip eip esp ebp st = Ok (0, st).
Proof.
  intros Hfr Hne. unfold clone_after_read_eip. rewrite Hfr. simpl.
  destruct (Z.eqb_spec (current_process st) parent); [contradiction|].
  reflexivity.
Qed.

(** Reads through [IRQ_RES] *)
Lemma proc_at_IRQ_RES (st : kstate) (p : Z) :
  proc_at (IRQ_RES st) p = proc_at st p.
Proof. unfold IRQ_RES. kst. reflexivity. Qed.
Lemma current_process_IRQ_RES (st : kstate) :
  current_process (IRQ_RES st) = current_process st.
Proof. unfold IRQ_RES. kst. reflexivity. Qed.
Lemma process_queue_IRQ_RES (st : kstate) :
  process_queue (IRQ_RES st) = process_queue st.
Proof. unfold IRQ_RES. kst. reflexivity. Qed.
Lemma kstack_at_IRQ_RES (st : kstate) (s : Z) :
  kstack_at (IRQ_RES st) s = kstack_at st s.
Proof. unfold IRQ_RES. kst. reflexivity. Qed.
Lemma irq_IRQ_RES (st : kstate) : irq (IRQ_RES st) = true.
Proof. unfold IRQ_RES. kst. reflexivity. Qed.
Lemma trace_IRQ_RES (st : kstate) :
  trace (IRQ_RES st) = (irq st, EvIrqRes) :: trace st.
Proof. unfold IRQ_RES. kst. reflexivity. Qed.
Lemma irq_IRQ_OFF (st : kstate) : irq (IRQ_OFF st) = false.
Proof. unfold IRQ_OFF. kst. reflexivity. Qed.
Lemma trace_IRQ_OFF (st : kstate) :
  trace (IRQ_OFF st) = (irq st, EvIrqOff) :: trace st.
Proof. unfold IRQ_OFF. kst. reflexivity. Qed.
Lemma process_queue_IRQ_OFF (st : kstate) :
  process_queue (IRQ_OFF st) = process_queue st.
Proof. unfold IRQ_OFF. kst. reflexivity. Qed.
Lemma current_process_IRQ_OFF (st : kstate) :
  current_process (IRQ_OFF st) = current_process st.
Proof. unfold IRQ_OFF. kst. reflexivity. Qed.
Lemma proc_at_IRQ_OFF (st : kstate) (p : Z) :
  proc_at (IRQ_OFF st) p = proc_at st p.
Proof. unfold IRQ_OFF. kst. reflexivity. Qed.

Opaque IRQ_RES IRQ_OFF.

(** What a successful call leaves behind, for [fork] and for [clone]: the
    state at [read_eip] and the child the parent branch prepared. *)
Lemma fork_ok_inv (eip esp ebp : Z) (st : kstate) (pid : Z) (st' : kstate) :
  fork eip esp ebp st = Ok (pid, st') ->
  exists st_f directory new_proc,
    fork_before_read_eip ebp st = Ok st_f /\
    kstack_at st_f ebp
    = mk_frame TASK_MAGIC (current_process st_f) directory new_proc /\
    st' = IRQ_RES (prepare_child new_proc eip esp ebp st_f) /\
    pid = id (proc_at st' new_proc).
Proof.
  unfold fork. destruct (fork_before_read_eip ebp st) as [st_f|] eqn:Hb;
    [|discriminate].
  destruct (fork_before_read_eip_inv _ _ _ Hb)
    as (directory & st1 & new_proc & rec & Hcd & Hsp & Hcur & Hp & Hd & Hn & ->).
  pose proof (at_read_eip_own_frame ebp _ directory new_proc rec _ Hcur) as Hfr.
  cbv zeta in Hfr.
  rewrite (fork_after_read_eip_parent _ _ _ _ _ _ Hfr).
  intros H. injection H as <- <-.
  eexists _, directory, new_proc. repeat split; try reflexivity. exact Hfr.
Qed.

Lemma clone_ok_inv (stack_top stack_old eip esp ebp : Z) (st : kstate)
    (pid : Z) (st' : kstate) :
  clone stack_top stack_old eip esp ebp st = Ok (pid, st') ->
  exists st_f directory new_proc,
    clone_before_read_eip stack_top stack_old ebp st = Ok st_f /\
    kstack_at st_f ebp
    = mk_frame TASK_MAGIC (current_process st_f) directory new_proc /\
    st' = prepare_child new_proc eip esp ebp st_f /\
    pid = id (proc_at st' new_proc).
Proof.
  unfold clone.
  destruct (clone_before_read_eip stack_top stack_old ebp st) as [st_f|] eqn:Hb;
    [|discriminate].
  destruct (clone_before_read_eip_inv _ _ _ _ _ Hb)
    as (new_proc & rec & st1 & Hst1 & Hsp & Hp & Hn & ->).
  assert (Hcur : current_process st1 = current_process st)
    by (rewrite Hst1; kst; reflexivity).
  pose proof (at_read_eip_own_frame ebp _ (current_directory st) new_proc rec _
                Hcur) as Hfr.
  cbv zeta in Hfr.
  rewrite (clone_after_read_eip_parent _ _ _ _ _ _ Hfr).
  intros H. injection H as <- <-.
  eexists _, (current_directory st), new_proc.
  repeat split; try reflexivity. exact Hfr.
Qed.

(** ** Stack relocation *)

Lemma prepare_child_registers (new_proc eip esp ebp : Z) (st : kstate) :
  process_queue (prepare_child new_proc eip esp ebp st)
  = process_queue st ++ [new_proc] /\
  thread_esp (proc_at (prepare_child new_proc eip esp ebp st) new_proc)
  = wrap32 (esp + (image_stack (proc_at st new_proc)
                   - image_stack (proc_at st (current_process st)))) /\
  thread_ebp (proc_at (prepare_child new_proc eip esp ebp st) new_proc)
  = wrap32 (ebp + (image_stack (proc_at st new_proc)
                   - image_stack (proc_at st (current_process st)))).
Proof.
  rewrite prepare_child_queue, prepare_child_record. simpl.
  rewrite fixup_esp_offset, fixup_ebp_offset. auto.
Qed.

Lemma fork_before_read_eip_queue (ebp : Z) (st st_f : kstate) :
  fork_before_read_eip ebp st = Ok st_f -> process_queue st_f = process_queue st.
Proof.
  intros Hb. destruct (fork_before_read_eip_inv _ _ _ Hb)
    as (d & st1 & np & rec & Hcd & _ & _ & _ & _ & _ & ->).
  pose proof (clone_directory_sched (current_directory st) (IRQ_OFF st)) as Hs.
  rewrite Hcd in Hs. simpl in Hs. apply sched_part_fields in Hs.
  destruct Hs as (_ & _ & _ & _ & _ & Hq & _).
  rewrite at_read_eip_queue, Hq. apply process_queue_IRQ_OFF.
Qed.

Lemma clone_before_read_eip_queue (stack_top stack_old ebp : Z)
    (st st_f : kstate) :
  clone_before_read_eip stack_top stack_old ebp st = Ok st_f ->
  process_queue st_f = process_queue st.
Proof.
  intros Hb. destruct (clone_before_read_eip_inv _ _ _ _ _ Hb)
    as (np & rec & st1 & -> & _ & _ & _ & ->).
  rewrite at_read_eip_queue. kst. reflexivity.
Qed.

(** C1: in [fork] and in [clone], for either ordering of the two stack tops,
    both branches of the fixup yield the register plus the one offset
    [new.stack - parent.stack] modulo 2^32 (so the two branches agree on
    [ebp]), and the child enqueued as ready has its saved [thread.esp] and
    [thread.ebp] set to the parent's live [esp] and [ebp] translated by that
    offset. *)
Theorem fork_clone_translate_esp_ebp :
  (forall cur new esp ebp : Z,
      fixup_esp cur new esp = wrap32 (esp + (new - cur)) /\
      fixup_ebp cur new ebp = wrap32 (ebp + (new - cur)) /\
      wrap32 (ebp - wrap32 (cur - new)) = wrap32 (ebp + wrap32 (new - cur))) /\
  (forall (stack_top stack_old eip esp ebp : Z) (st : kstate) (pid : Z)
          (st' : kstate),
      fork eip esp ebp st = Ok (pid, st') \/
      clone stack_top stack_old eip esp ebp st = Ok (pid, st') ->
      exists child : Z,
        process_queue st' = process_queue st ++ [child] /\
        pid = id (proc_at st' child) /\
        thread_esp (proc_at st' child)
        = wrap32 (esp + (image_stack (proc_at st' child)
                         - image_stack (proc_at st' (current_process st')))) /\
        thread_ebp (proc_at st' child)
        = wrap32 (ebp + (image_stack (proc_at st' child)
                         - image_stack (proc_at st' (current_process st'))))).
Proof.
  split.
  - intros cur new esp ebp. rewrite fixup_esp_offset, fixup_ebp_offset.
    rewrite wrap32_sub_wrap, wrap32_add_wrap.
    repeat split. f_equal. lia.
  - intros stack_top stack_old eip esp ebp st pid st' [H|H].
    + destruct (fork_ok_inv _ _ _ _ _ _ H)
        as (st_f & directory & child & Hb & Hfr & -> & ->).
      exists child.
      destruct (prepare_child_registers child eip esp ebp st_f)
        as (Hq & Hesp & Hebp).
      rewrite process_queue_IRQ_RES, current_process_IRQ_RES, !proc_at_IRQ_RES.
      rewrite !prepare_child_image_stack, prepare_child_current.
      rewrite Hq, (fork_before_read_eip_queue _ _ _ Hb). auto.
    + destruct (clone_ok_inv _ _ _ _ _ _ _ _ H)
        as (st_f & directory & child & Hb & Hfr & -> & ->).
      exists child.
      destruct (prepare_child_registers child eip esp ebp st_f)
        as (Hq & Hesp & Hebp).
      rewrite !prepare_child_image_stack, prepare_child_current.
      rewrite Hq, (clone_before_read_eip_queue _ _ _ _ _ Hb). auto.
Qed.

(** ** The trap-frame pointer *)

Lemma move_syscall_registers_offset (cur new regs : Z) :
  KERNEL_STACK_SIZE <= new < 2 ^ 32 ->
  in_kernel_stack cur regs ->
  move_syscall_registers cur new regs
  = new - KERNEL_STACK_SIZE + (regs - (cur - KERNEL_STACK_SIZE)).
Proof.
  unfold in_kernel_stack, move_syscall_registers. intros Hnew Hregs.
  rewrite wrap32_sub_wrap, wrap32_add_wrap, wrap32_wrap_add.
  apply wrap32_small. lia.
Qed.

Lemma fork_before_read_eip_records (ebp : Z) (st st_f : kstate) :
  (forall parent s, (spawn_process_record parent s).1 <> parent) ->
  fork_before_read_eip ebp st = Ok st_f ->
  exists directory new_proc rec s,
    spawn_process_record (current_process st) s = (new_proc, rec) /\
    current_process st_f = current_process st /\
    kstack_at st_f ebp
    = mk_frame TASK_MAGIC (current_process st) directory new_proc /\
    proc_at st_f new_proc = set_thread_page_directory directory rec /\
    proc_at st_f (current_process st) = proc_at st (current_process st).
Proof.
  intros Hfresh Hb. destruct (fork_before_read_eip_inv _ _ _ Hb)
    as (d & st1 & np & rec & Hcd & Hsp & Hcur & _ & _ & _ & ->).
  exists d, np, rec, st1. split; [exact Hsp|].
  rewrite at_read_eip_current. split; [exact Hcur|].
  split; [apply at_read_eip_frame|].
  split; [apply at_read_eip_child|].
  pose proof (Hfresh (current_process st) st1) as Hne. rewrite Hsp in Hne.
  simpl in Hne.
  rewrite at_read_eip_others by congruence.
  pose proof (clone_directory_sched (current_directory st) (IRQ_OFF st)) as Hs.
  rewrite Hcd in Hs. simpl in Hs.
  rewrite (sched_part_proc_at _ _ _ Hs). apply proc_at_IRQ_OFF.
Qed.

Lemma clone_before_read_eip_records (stack_top stack_old ebp : Z)
    (st st_f : kstate) :
  (forall parent s, (spawn_process_record parent s).1 <> parent) ->
  clone_before_read_eip stack_top stack_old ebp st = Ok st_f ->
  exists directory new_proc rec s,
    spawn_process_record (current_process st) s = (new_proc, rec) /\
    current_process st_f = current_process st /\
    kstack_at st_f ebp
    = mk_frame TASK_MAGIC (current_process st) directory new_proc /\
    proc_at st_f new_proc = set_thread_page_directory directory rec /\
    proc_at st_f (current_process st) = proc_at st (current_process st).
Proof.
  intros Hfresh Hb. destruct (clone_before_read_eip_inv _ _ _ _ _ Hb)
    as (np & rec & st1 & Hst1 & Hsp & _ & _ & ->).
  exists (current_directory st), np, rec, st1. split; [exact Hsp|].
  rewrite at_read_eip_current. split; [rewrite Hst1; kst; reflexivity|].
  split; [apply at_read_eip_frame|].
  split; [apply at_read_eip_child|].
  pose proof (Hfresh (current_process st) st1) as Hne. rewrite Hsp in Hne.
  simpl in Hne.
  rewrite at_read_eip_others by congruence.
  rewrite Hst1. kst. reflexivity.
Qed.

(** The child prepared from a state at [read_eip]. *)
Lemma prepare_child_syscall_registers (new_proc eip esp ebp : Z)
    (st_f : kstate) (parent : process_t) (rec : process_t) (directory : Z) :
  proc_at st_f new_proc = set_thread_page_directory directory rec ->
  proc_at st_f (current_process st_f) = parent ->
  KERNEL_STACK_SIZE <= image_stack rec < 2 ^ 32 ->
  in_kernel_stack (image_stack parent) (syscall_registers parent) ->
  let c := proc_at (prepare_child new_proc eip esp ebp st_f) new_proc in
  image_stack c = image_stack rec /\
  syscall_registers c
  = image_stack c - KERNEL_STACK_SIZE
    + (syscall_registers parent - (image_stack parent - KERNEL_STACK_SIZE)) /\
  in_kernel_stack (image_stack c) (syscall_registers c).
Proof.
  intros Hchild Hparent Hwf Hin c. subst c.
  rewrite prepare_child_record, Hchild, Hparent. simpl.
  rewrite move_syscall_registers_offset by assumption.
  repeat split; unfold in_kernel_stack in *; lia.
Qed.

(** C7: when the parent's [syscall_registers] points into the parent's
    kernel stack region, [fork] and [clone] leave the child's
    [syscall_registers] at the same offset from the base of the child's
    kernel stack, hence inside the child's region.  The process record
    handed out by [spawn_process] is a new one and its [image.stack] is the
    top of a [KERNEL_STACK_SIZE] region of the 32-bit address space. *)
Theorem fork_clone_relocate_syscall_registers
    (stack_top stack_old eip esp ebp : Z) (st : kstate) (pid : Z)
    (st' : kstate) :
  (forall parent s, (spawn_process_record parent s).1 <> parent) ->
  (forall parent s,
      KERNEL_STACK_SIZE <= image_stack (spawn_process_record parent s).2
      < 2 ^ 32) ->
  fork eip esp ebp st = Ok (pid, st') \/
  clone stack_top stack_old eip esp ebp st = Ok (pid, st') ->
  in_kernel_stack (image_stack (proc_at st (current_process st)))
    (syscall_registers (proc_at st (current_process st))) ->
  exists child : Z,
    process_queue st' = process_queue st ++ [child] /\
    pid = id (proc_at st' child) /\
    syscall_registers (proc_at st' child)
    = image_stack (proc_at st' child) - KERNEL_STACK_SIZE
      + (syscall_registers (proc_at st (current_process st))
         - (image_stack (proc_at st (current_process st))
            - KERNEL_STACK_SIZE)) /\
    in_kernel_stack (image_stack (proc_at st' child))
      (syscall_registers (proc_at st' child)).
Proof.
  intros Hfresh Hwf [H|H] Hin.
  - destruct (fork_ok_inv _ _ _ _ _ _ H)
      as (st_f & directory & child & Hb & Hfr & -> & ->).
    destruct (fork_before_read_eip_records _ _ _ Hfresh Hb)
      as (d & np & rec & s & Hsp & Hcur & Hfr' & Hchild & Hparent).
    rewrite Hfr' in Hfr. injection Hfr as _ <- <-.
    exists np. rewrite process_queue_IRQ_RES, !proc_at_IRQ_RES.
    rewrite prepare_child_queue, (fork_before_read_eip_queue _ _ _ Hb).
    rewrite <- Hcur in Hparent at 1.
    pose proof (Hwf (current_process st) s) as Hrec. rewrite Hsp in Hrec.
    destruct (prepare_child_syscall_registers np eip esp ebp st_f _ rec d
                Hchild Hparent Hrec Hin) as (_ & Hsr & Hreg).
    auto.
  - destruct (clone_ok_inv _ _ _ _ _ _ _ _ H)
      as (st_f & directory & child & Hb & Hfr & -> & ->).
    destruct (clone_before_read_eip_records _ _ _ _ _ Hfresh Hb)
      as (d & np & rec & s & Hsp & Hcur & Hfr' & Hchild & Hparent).
    rewrite Hfr' in Hfr. injection Hfr as _ <- <-.
    exists np.
    rewrite prepare_child_queue, (clone_before_read_eip_queue _ _ _ _ _ Hb).
    rewrite <- Hcur in Hparent at 1.
    pose proof (Hwf (current_process st) s) as Hrec. rewrite Hsp in Hrec.
    destruct (prepare_child_syscall_registers np eip esp ebp st_f _ rec d
                Hchild Hparent Hrec Hin) as (_ & Hsr & Hreg).
    auto.
Qed.

(** ** Traces *)

Lemma extends_refl (P : bool * event -> Prop) (st : kstate) : extends P st st.
Proof. exists []. split; [reflexivity | constructor]. Qed.

Lemma extends_trans (P : bool * event -> Prop) (st1 st2 st3 : kstate) :
  extends P st1 st2 -> extends P st2 st3 -> extends P st1 st3.
Proof.
  intros (e1 & H1 & F1) (e2 & H2 & F2). exists (e2 ++ e1). split.
  - rewrite H2, H1. apply app_assoc.
  - apply Forall_app. split; assumption.
Qed.

Lemma extends_emit (P : bool * event -> Prop) (e : event) (st : kstate) :
  P (irq st, e) -> extends P st (emit e st).
Proof.
  intros H. exists [(irq st, e)]. split; [apply trace_emit|].
  constructor; [exact H | constructor].
Qed.

Lemma extends_same_trace (P : bool * event -> Prop) (st st' : kstate) :
  trace st' = trace st -> extends P st st'.
Proof. intros H. exists []. split; [exact H | constructor]. Qed.

Lemma extends_for_loop (P : bool * event -> Prop) (n : nat)
    (body : nat -> kstate -> kstate) (st : kstate) :
  (forall i x, extends P x (body i x)) ->
  extends P st (for_loop n body st).
Proof.
  intros Hbody. apply (for_loop_inv (fun _ x => extends P st x)).
  - apply extends_refl.
  - intros i x _ Hx. eapply extends_trans; [exact Hx | apply Hbody].
Qed.

(** ** Reaping *)

Lemma free_directory_releases (dir : Z) (st : kstate) :
  extends is_release st (free_directory dir st).
Proof.
  unfold free_directory, free.
  eapply extends_trans; [|apply extends_emit; exact I].
  apply extends_for_loop. intros i x. unfold free_directory_body.
  destruct (_ || _); [apply extends_refl|].
  destruct (_ =? _); [apply extends_refl|].
  unfold free. eapply extends_trans; [|apply extends_emit; exact I].
  apply extends_for_loop. intros j y. unfold free_table_body, free_frame.
  destruct (_ =? _); [apply extends_refl | apply extends_emit; exact I].
Qed.

Lemma reap_process_releases (proc : Z) (st : kstate) :
  extends is_release st (reap_process proc st).
Proof.
  unfold reap_process, free, list_free.
  eapply extends_trans; [|apply extends_emit; exact I].
  eapply extends_trans; [|apply free_directory_releases].
  eapply extends_trans; [|apply extends_emit; exact I].
  eapply extends_trans; [|apply extends_emit; exact I].
  apply extends_emit. exact I.
Qed.

Lemma reap_each_frame (q : list Z) (st : kstate) :
  current_process (reap_each q st) = current_process st /\
  current_directory (reap_each q st) = current_directory st /\
  mem_procs (reap_each q st) = mem_procs st /\
  mem_kstacks (reap_each q st) = mem_kstacks st /\
  process_queue (reap_each q st) = process_queue st /\
  irq (reap_each q st) = irq st /\
  reap_queue (reap_each q st) = match q with [] => reap_queue st | _ => [] end /\
  extends is_release st (reap_each q st).
Proof.
  revert st. induction q as [|p q IH]; intros st.
  - simpl. repeat split; try reflexivity. apply extends_refl.
  - simpl.
    set (st1 := if p =? 0 then with_reap_queue q st
                else reap_process p (with_reap_queue q st)).
    assert (H1 : sched_part st1 = sched_part (with_reap_queue q st) /\
                 extends is_release st st1).
    { subst st1. destruct (p =? 0).
      - split; [reflexivity|]. apply extends_same_trace. kst. reflexivity.
      - split; [apply reap_process_frame|].
        eapply extends_trans; [|apply reap_process_releases].
        apply extends_same_trace. kst. reflexivity. }
    destruct H1 as [Hs He]. apply sched_part_fields in Hs.
    destruct Hs as (Hcp & Hcd & _ & Hmp & Hmk & Hpq & Hrq & Hirq).
    destruct (IH st1) as (I1 & I2 & I3 & I4 & I5 & I6 & I7 & I8).
    rewrite I1, I2, I3, I4, I5, I6, I7, Hcp, Hcd, Hmp, Hmk, Hpq, Hirq, Hrq.
    kst. repeat split; try reflexivity.
    + destruct q; reflexivity.
    + eapply extends_trans; eassumption.
Qed.

(** The loop of the resumption arm ends once the queue is drained: any fuel
    above the length of the queue is enough. *)
Lemma reap_while_drains (fuel : nat) (st : kstate) :
  (length (reap_queue st) < fuel)%nat ->
  reap_while fuel st = Some (reap_each (reap_queue st) st).
Proof.
  revert st. induction fuel as [|fuel IH]; intros st Hlen; [lia|].
  simpl. unfold should_reap, next_reapable_process.
  destruct (reap_queue st) as [|p q] eqn:Hq; [reflexivity|].
  simpl in Hlen.
  set (st1 := if p =? 0 then with_reap_queue q st
              else reap_process p (with_reap_queue q st)).
  assert (Hq1 : reap_queue st1 = q).
  { subst st1. destruct (p =? 0).
    - apply reap_queue_with_reap_queue.
    - destruct (reap_process_frame p (with_reap_queue q st)) as [Hs _].
      apply sched_part_fields in Hs.
      destruct Hs as (_ & _ & _ & _ & _ & _ & Hrq & _).
      rewrite Hrq. apply reap_queue_with_reap_queue. }
  rewrite IH by (rewrite Hq1; lia). rewrite Hq1. reflexivity.
Qed.

(** C9: [switch_task] called before tasking is installed, or when no other
    process is runnable, returns with the state as it was: nothing is saved,
    nothing is enqueued, [switch_next] is not reached. *)
Theorem switch_task_noop (fuel : nat) (reschedule eip esp ebp : Z)
    (st : kstate) :
  current_process st = 0 \/ process_available st = false ->
  switch_task fuel reschedule eip esp ebp st = Returned st.
Proof.
  intros [H|H]; unfold switch_task.
  - rewrite H. reflexivity.
  - rewrite H. destruct (current_process st =? 0); reflexivity.
Qed.

(** C5: when [read_eip] hands [0x10000] to [switch_task], the code from
    there on is the resumption arm, whatever the ready queue holds and
    whoever the current process is: it drains the reapable queue, calling
    [reap_process] on each process it takes from it, and returns.  No record
    is written (so no [esp]/[ebp]/[eip] is stored), the ready queue and the
    current process are as before, and the only calls made are releases (no
    [make_process_ready], nothing of [switch_next]). *)
Theorem switch_task_resumption_arm (fuel : nat) (reschedule esp ebp : Z)
    (st : kstate) :
  (length (reap_queue st) < fuel)%nat ->
  switch_task_after_read_eip fuel reschedule 0x10000 esp ebp st
  = Returned (reap_each (reap_queue st) st) /\
  reap_queue (reap_each (reap_queue st) st) = [] /\
  mem_procs (reap_each (reap_queue st) st) = mem_procs st /\
  process_queue (reap_each (reap_queue st) st) = process_queue st /\
  current_process (reap_each (reap_queue st) st) = current_process st /\
  current_directory (reap_each (reap_queue st) st) = current_directory st /\
  extends is_release st (reap_each (reap_queue st) st).
Proof.
  intros Hfuel.
  destruct (reap_each_frame (reap_queue st) st)
    as (I1 & I2 & I3 & I4 & I5 & I6 & I7 & I8).
  split.
  - unfold switch_task_after_read_eip. simpl.
    rewrite reap_while_drains by assumption. reflexivity.
  - repeat split; try assumption.
    rewrite I7. destruct (reap_queue st); reflexivity.
Qed.

(** C10: [clone] never reads [stack_top] and [stack_old]: two calls from the
    same state that differ in these arguments only end in the same state
    with the same return value. *)
Theorem clone_ignores_stack_arguments
    (stack_top stack_old stack_top' stack_old' eip esp ebp : Z) (st : kstate) :
  clone stack_top stack_old eip esp ebp st
  = clone stack_top' stack_old' eip esp ebp st.
Proof. reflexivity. Qed.

(** ** clone_table *)

Section CloneTableBody.

Variables (src table : Z) (i : nat).
Hypothesis Hsrc : src <> table.

Lemma mirror_bit_src (get : page_t -> bool) (set : page_t -> page_t)
    (st : kstate) (j : nat) :
  rd_page (mirror_bit get set src table i st) src j = rd_page st src j.
Proof using Hsrc.
  unfold mirror_bit. destruct (get _); [|reflexivity].
  apply rd_page_wr_page_other_table. congruence.
Qed.

Lemma mirror_bit_entry (get : page_t -> bool) (set : page_t -> page_t)
    (st : kstate) :
  (i < length (pages (table_at st table)))%nat ->
  rd_page (mirror_bit get set src table i st) table i
  = if get (rd_page st src i) then set (rd_page st table i)
    else rd_page st table i.
Proof using Hsrc.
  intros Hi. unfold mirror_bit. destruct (get _); [|reflexivity].
  apply rd_page_wr_page_same. exact Hi.
Qed.

Lemma mirror_bit_length (get : page_t -> bool) (set : page_t -> page_t)
    (st : kstate) (t' : Z) :
  length (pages (table_at (mirror_bit get set src table i st) t'))
  = length (pages (table_at st t')).
Proof using Hsrc.
  unfold mirror_bit. destruct (get _); [|reflexivity].
  apply length_pages_wr_page.
Qed.

Lemma mirror_bit_others (get : page_t -> bool) (set : page_t -> page_t)
    (st : kstate) (t' : Z) (j : nat) :
  t' <> table \/ j <> i ->
  rd_page (mirror_bit get set src table i st) t' j = rd_page st t' j.
Proof using Hsrc.
  intros H. unfold mirror_bit. destruct (get _); [|reflexivity].
  destruct (decide (table = t')) as [<-|Hne].
  - apply rd_page_wr_page_other_index. destruct H; congruence.
  - apply rd_page_wr_page_other_table. exact Hne.
Qed.

Lemma mirror_bit_lookup (get : page_t -> bool) (set : page_t -> page_t)
    (st : kstate) (t' : Z) :
  t' <> table ->
  mem_tables (mirror_bit get set src table i st) !! t' = mem_tables st !! t'.
Proof using Hsrc.
  intros H. unfold mirror_bit. destruct (get _); [|reflexivity].
  rewrite mem_tables_wr_page. apply lookup_insert_ne. congruence.
Qed.

Lemma mirror_bit_dom (get : page_t -> bool) (set : page_t -> page_t)
    (st : kstate) :
  table ∈ dom (mem_tables st) ->
  dom (mem_tables (mirror_bit get set src table i st)) = dom (mem_tables st).
Proof using Hsrc.
  intros H. unfold mirror_bit. destruct (get _); [|reflexivity].
  apply dom_wr_page_in. exact H.
Qed.

(** One turn of the loop on an entry whose source frame is not zero. *)
Lemma clone_table_body_entry (st : kstate) :
  frame (rd_page st src i) <> 0 ->
  (i < length (pages (table_at st table)))%nat ->
  table ∈ dom (mem_tables st) ->
  let pg := alloc_frame (rd_page st table i) 0 0 st in
  let st' := clone_table_body src table i st in
  rd_page st' table i = mirrored pg (rd_page st src i) /\
  (forall t' j, t' <> table \/ j <> i -> rd_page st' t' j = rd_page st t' j) /\
  (forall t', t' <> table -> mem_tables st' !! t' = mem_tables st !! t') /\
  (forall t', length (pages (table_at st' t')) = length (pages (table_at st t'))) /\
  dom (mem_tables st') = dom (mem_tables st) /\
  trace st'
  = (irq st, EvCopyPage (wrap32 (frame (rd_page st src i) * 0x1000))
                        (wrap32 (frame pg * 0x1000)))
      :: (irq st, EvAllocFrame table i (frame pg)) :: trace st.
Proof using Hsrc.
  intros Hfr Hi Hdom pg st'. subst st'. unfold clone_table_body.
  destruct (Z.eqb_spec (frame (rd_page st src i)) 0) as [|_]; [contradiction|].
  fold pg. cbv zeta.
  set (s0 := emit (EvAllocFrame table i (frame pg)) (wr_page table i pg st)).
  set (s1 := mirror_bit present set_present src table i s0).
  set (s2 := mirror_bit rw set_rw src table i s1).
  set (s3 := mirror_bit user set_user src table i s2).
  set (s4 := mirror_bit accessed set_accessed src table i s3).
  set (s5 := mirror_bit dirty set_dirty src table i s4).
  assert (L0 : forall t', length (pages (table_at s0 t'))
                          = length (pages (table_at st t'))).
  { intros t'. subst s0. kst. reflexivity. }
  assert (L1 : forall t', length (pages (table_at s1 t'))
                          = length (pages (table_at st t'))).
  { intros t'. subst s1. rewrite mirror_bit_length. apply L0. }
  assert (L2 : forall t', length (pages (table_at s2 t'))
                          = length (pages (table_at st t'))).
  { intros t'. subst s2. rewrite mirror_bit_length. apply L1. }
  assert (L3 : forall t', length (pages (table_at s3 t'))
                          = length (pages (table_at st t'))).
  { intros t'. subst s3. rewrite mirror_bit_length. apply L2. }
  assert (L4 : forall t', length (pages (table_at s4 t'))
                          = length (pages (table_at st t'))).
  { intros t'. subst s4. rewrite mirror_bit_length. apply L3. }
  assert (L5 : forall t', length (pages (table_at s5 t'))
                          = length (pages (table_at st t'))).
  { intros t'. subst s5. rewrite mirror_bit_length. apply L4. }
  assert (S0 : forall j, rd_page s0 src j = rd_page st src j).
  { intros j. subst s0. kst. apply rd_page_wr_page_other_table. congruence. }
  assert (S1 : forall j, rd_page s1 src j = rd_page st src j).
  { intros j. subst s1. rewrite mirror_bit_src. apply S0. }
  assert (S2 : forall j, rd_page s2 src j = rd_page st src j).
  { intros j. subst s2. rewrite mirror_bit_src. apply S1. }
  assert (S3 : forall j, rd_page s3 src j = rd_page st src j).
  { intros j. subst s3. rewrite mirror_bit_src. apply S2. }
  assert (S4 : forall j, rd_page s4 src j = rd_page st src j).
  { intros j. subst s4. rewrite mirror_bit_src. apply S3. }
  assert (S5 : forall j, rd_page s5 src j = rd_page st src j).
  { intros j. subst s5. rewrite mirror_bit_src. apply S4. }
  assert (E0 : rd_page s0 table i = pg).
  { subst s0. kst. apply rd_page_wr_page_same. exact Hi. }
  assert (E5 : rd_page s5 table i = mirrored pg (rd_page st src i)).
  { subst s5. rewrite mirror_bit_entry by (rewrite L4; exact Hi).
    subst s4. rewrite mirror_bit_entry by (rewrite L3; exact Hi).
    subst s3. rewrite mirror_bit_entry by (rewrite L2; exact Hi).
    subst s2. rewrite mirror_bit_entry by (rewrite L1; exact Hi).
    subst s1. rewrite mirror_bit_entry by (rewrite L0; exact Hi).
    rewrite ?mirror_bit_src, !S0, E0.
    unfold mirrored, set_present, set_rw, set_user, set_accessed, set_dirty.
    destruct (rd_page st src i) as [a b c d e f], pg as [a' b' c' d' e' f'].
    simpl. destruct a, b, c, d, e; simpl; rewrite ?orb_true_r, ?orb_false_r;
      reflexivity. }
  split; [kst; exact E5|].
  split.
  { intros t' j H. kst. subst s5 s4 s3 s2 s1.
    rewrite !mirror_bit_others by exact H. subst s0. kst.
    destruct (decide (table = t')) as [<-|Hne].
    - apply rd_page_wr_page_other_index. destruct H; congruence.
    - apply rd_page_wr_page_other_table. exact Hne. }
  split.
  { intros t' H. kst. subst s5 s4 s3 s2 s1.
    rewrite !mirror_bit_lookup by exact H. subst s0. kst.
    rewrite mem_tables_wr_page. apply lookup_insert_ne. congruence. }
  split; [intros t'; kst; apply L5|].
  split.
  { assert (D0 : dom (mem_tables s0) = dom (mem_tables st)).
    { subst s0. kst. apply dom_wr_page_in. exact Hdom. }
    assert (D1 : dom (mem_tables s1) = dom (mem_tables st)).
    { subst s1. rewrite mirror_bit_dom; rewrite D0; auto. }
    assert (D2 : dom (mem_tables s2) = dom (mem_tables st)).
    { subst s2. rewrite mirror_bit_dom; rewrite D1; auto. }
    assert (D3 : dom (mem_tables s3) = dom (mem_tables st)).
    { subst s3. rewrite mirror_bit_dom; rewrite D2; auto. }
    assert (D4 : dom (mem_tables s4) = dom (mem_tables st)).
    { subst s4. rewrite mirror_bit_dom; rewrite D3; auto. }
    kst. subst s5. rewrite mirror_bit_dom; rewrite D4; auto. }
  kst. rewrite S5, E5. subst s5 s4 s3 s2 s1.
  rewrite !mirror_bit_trace, !mirror_bit_irq. subst s0. kst. reflexivity.
Qed.

End CloneTableBody.

Lemma rd_page_lookup (st st' : kstate) (t : Z) (j : nat) :
  mem_tables st' !! t = mem_tables st !! t -> rd_page st' t j = rd_page st t j.
Proof. intros H. unfold rd_page, table_at. rewrite H. reflexivity. Qed.

Lemma table_calls_ext (b : bool) (t : Z) (src new new' : nat -> page_t)
    (n : nat) :
  (forall j, (j < n)%nat -> new' j = new j) ->
  table_calls b t src new' n = table_calls b t src new n.
Proof.
  induction n as [|n IH]; intros H; [reflexivity|].
  simpl. rewrite (H n) by lia. rewrite IH by (intros j Hj; apply H; lia).
  reflexivity.
Qed.

Lemma default_lookup_replicate {A : Type} (d : A) (n j : nat) :
  default d (replicate n d !! j) = d.
Proof.
  destruct (replicate n d !! j) as [p|] eqn:Hp; [|reflexivity].
  apply lookup_replicate in Hp. destruct Hp as [-> _]. reflexivity.
Qed.

Lemma rd_page_zero_table (st : kstate) (t : Z) (j : nat) :
  mem_tables st !! t = Some zero_table -> rd_page st t j = zero_page.
Proof.
  intros H. unfold rd_page, table_at. rewrite H.
  apply default_lookup_replicate.
Qed.

Lemma clone_table_inv_start (src t phys : Z) (st : kstate) :
  clone_table_inv src t phys st 0
    (with_tables (<[t := zero_table]> (mem_tables st))
       (emit (EvKvmalloc sizeof_page_table t phys) st)).
Proof.
  constructor.
  - kst. reflexivity.
  - kst. reflexivity.
  - kst. apply dom_insert_L.
  - intros t' H. rewrite mem_tables_with_tables.
    apply lookup_insert_ne. congruence.
  - rewrite table_at_with_tables, lookup_insert_eq.
    apply length_replicate.
  - intros j _. apply rd_page_zero_table.
    rewrite mem_tables_with_tables. apply lookup_insert_eq.
  - intros j Hj. lia.
  - kst. reflexivity.
Qed.

Lemma clone_table_inv_step (src t phys : Z) (st : kstate) (n : nat)
    (x : kstate) :
  src <> t -> (n < 1024)%nat ->
  clone_table_inv src t phys st n x ->
  clone_table_inv src t phys st (S n) (clone_table_body src t n x).
Proof.
  intros Hsrc Hn [Hsched Hdirs Hdom Hoth Hlen Hrest Hdone Htr].
  assert (Hsrcpg : forall j, rd_page x src j = rd_page st src j).
  { intros j. apply rd_page_lookup. apply Hoth. exact Hsrc. }
  assert (Hirq : irq x = irq st).
  { apply sched_part_irq. exact Hsched. }
  destruct (Z.eq_dec (frame (rd_page st src n)) 0) as [Hz|Hnz].
  - (* skipped *)
    assert (Hbody : clone_table_body src t n x = x).
    { unfold clone_table_body. rewrite Hsrcpg, Hz. reflexivity. }
    rewrite Hbody. constructor; try assumption.
    + intros j Hj. apply Hrest. lia.
    + intros j Hj. destruct (decide (j = n)) as [->|Hne].
      * unfold cloned_entry. rewrite Hz. simpl. apply Hrest. lia.
      * apply Hdone. lia.
    + rewrite Htr. simpl. rewrite Hz. reflexivity.
  - (* cloned *)
    assert (Hin : t ∈ dom (mem_tables x)).
    { rewrite Hdom. apply elem_of_union. left. apply elem_of_singleton.
      reflexivity. }
    assert (Hnz' : frame (rd_page x src n) <> 0) by (rewrite Hsrcpg; exact Hnz).
    assert (Hlt : (n < length (pages (table_at x t)))%nat)
      by (rewrite Hlen; exact Hn).
    destruct (clone_table_body_entry src t n Hsrc x Hnz' Hlt Hin)
      as (He & Hothers & Hlook & Hlens & Hd & Ht).
    rewrite (Hrest n) in He, Ht by lia. rewrite Hsrcpg in He, Ht.
    constructor.
    + rewrite clone_table_body_sched. exact Hsched.
    + rewrite clone_table_body_dirs. exact Hdirs.
    + rewrite Hd. exact Hdom.
    + intros t' H. rewrite Hlook by exact H. apply Hoth. exact H.
    + rewrite Hlens. exact Hlen.
    + intros j Hj. rewrite Hothers by (right; lia). apply Hrest. lia.
    + intros j Hj. destruct (decide (j = n)) as [->|Hne].
      * unfold cloned_entry.
        destruct (Z.eqb_spec (frame (rd_page st src n)) 0); [contradiction|].
        exists x. exact He.
      * rewrite Hothers by (right; exact Hne). apply Hdone. lia.
    + rewrite Ht, Htr, Hirq. simpl.
      destruct (Z.eqb_spec (frame (rd_page st src n)) 0); [contradiction|].
      rewrite He. simpl.
      rewrite (table_calls_ext _ _ _ (rd_page x t)
                 (rd_page (clone_table_body src t n x) t)).
      * reflexivity.
      * intros j Hj. apply Hothers. right. lia.
Qed.

Lemma clone_table_spec (src : Z) (st : kstate) :
  src <> (kvmalloc_p sizeof_page_table st).1 ->
  (clone_table src st).1
  = ((kvmalloc_p sizeof_page_table st).1, (kvmalloc_p sizeof_page_table st).2)
  /\
  clone_table_inv src (kvmalloc_p sizeof_page_table st).1
    (kvmalloc_p sizeof_page_table st).2 st 1024 (clone_table src st).2.
Proof.
  unfold clone_table. destruct (kvmalloc_p sizeof_page_table st) as [t phys].
  simpl. intros Hsrc. split; [reflexivity|]. rewrite mem_tables_emit.
  apply (for_loop_inv (clone_table_inv src t phys st)).
  - apply clone_table_inv_start.
  - intros i x Hi Hx. apply clone_table_inv_step; assumption.
Qed.

Lemma table_calls_made (b : bool) (t : Z) (src new : nat -> page_t)
    (n i : nat) :
  (i < n)%nat -> frame (src i) <> 0 ->
  In (b, EvAllocFrame t i (frame (new i))) (table_calls b t src new n) /\
  In (b, EvCopyPage (wrap32 (frame (src i) * 0x1000))
                    (wrap32 (frame (new i) * 0x1000)))
     (table_calls b t src new n).
Proof.
  induction n as [|n IH]; intros Hi Hnz; [lia|].
  simpl. destruct (decide (i = n)) as [->|Hne].
  - destruct (Z.eqb_spec (frame (src n)) 0); [contradiction|].
    simpl. auto.
  - destruct IH as [IH1 IH2]; [lia | exact Hnz |].
    split; apply in_or_app; right; assumption.
Qed.

Lemma table_calls_alloc_only (b b' : bool) (t t' : Z) (src new : nat -> page_t)
    (n i : nat) (f : Z) :
  In (b', EvAllocFrame t' i f) (table_calls b t src new n) ->
  (i < n)%nat /\ frame (src i) <> 0 /\ f = frame (new i) /\ t' = t.
Proof.
  induction n as [|n IH]; simpl; [contradiction|].
  intros H. apply in_app_or in H. destruct H as [H|H].
  - destruct (Z.eqb_spec (frame (src n)) 0) as [|Hnz]; [contradiction|].
    simpl in H. destruct H as [H|[H|[]]]; [discriminate|].
    injection H as _ <- <- <-. repeat split; [lia | exact Hnz].
  - destruct (IH H) as (H1 & H2 & H3 & H4). repeat split; [lia | assumption..].
Qed.

Lemma table_calls_none (b : bool) (t : Z) (src new : nat -> page_t) (n : nat) :
  (forall i, (i < n)%nat -> frame (src i) = 0) ->
  table_calls b t src new n = [].
Proof.
  induction n as [|n IH]; intros H; [reflexivity|].
  simpl. rewrite (H n) by lia. simpl. apply IH. intros i Hi. apply H. lia.
Qed.

(** C8: [clone_table] calls the frame allocator exactly for the entries
    whose source frame is not zero and asks for a copy of the source frame
    into the new one.  On each such entry it sets every one of the access
    bits [present], [rw], [user], [accessed] and [dirty] that is set in the
    source entry and clears none: a bit of the new entry is set when the
    source has it or when [alloc_frame(entry, 0, 0)] set it on the cleared
    entry, so the bits are those of the source exactly when the allocator
    sets none the source lacks.  An entry whose source frame is zero stays
    cleared, so a source table without frames yields a cleared table and no
    call to the frame allocator.  The heap hands out a block other than the
    source table. *)
Theorem clone_table_sets_access_bits (src : Z) (st : kstate) :
  src <> (kvmalloc_p sizeof_page_table st).1 ->
  exists t phys calls,
    (clone_table src st).1 = (t, phys) /\
    trace (clone_table src st).2
    = calls ++ (irq st, EvKvmalloc sizeof_page_table t phys) :: trace st /\
    (forall i : nat, (i < 1024)%nat ->
       let s := rd_page st src i in
       let n := rd_page (clone_table src st).2 t i in
       (frame s = 0 -> n = zero_page) /\
       (frame s <> 0 ->
        (exists x : kstate,
           let pg := alloc_frame zero_page 0 0 x in
           present n = present pg || present s /\
           rw n = rw pg || rw s /\
           user n = user pg || user s /\
           accessed n = accessed pg || accessed s /\
           dirty n = dirty pg || dirty s /\
           frame n = frame pg) /\
        (present s = true -> present n = true) /\
        (rw s = true -> rw n = true) /\
        (user s = true -> user n = true) /\
        (accessed s = true -> accessed n = true) /\
        (dirty s = true -> dirty n = true) /\
        In (irq st, EvAllocFrame t i (frame n)) calls /\
        In (irq st, EvCopyPage (wrap32 (frame s * 0x1000))
                               (wrap32 (frame n * 0x1000))) calls)) /\
    (forall (b : bool) (t' : Z) (i : nat) (f : Z),
       In (b, EvAllocFrame t' i f) calls ->
       (i < 1024)%nat /\ frame (rd_page st src i) <> 0) /\
    ((forall i : nat, (i < 1024)%nat -> frame (rd_page st src i) = 0) ->
     table_at (clone_table src st).2 t = zero_table /\ calls = []).
Proof.
  intros Hsrc.
  destruct (clone_table_spec src st Hsrc) as [Hfst Hinv].
  set (t := (kvmalloc_p sizeof_page_table st).1) in *.
  set (phys := (kvmalloc_p sizeof_page_table st).2) in *.
  destruct Hinv as [Hsched Hdirs Hdom Hoth Hlen Hrest Hdone Htr].
  exists t, phys,
    (table_calls (irq st) t (rd_page st src)
       (rd_page (clone_table src st).2 t) 1024).
  split; [exact Hfst|]. split; [exact Htr|]. split; [|split].
  - intros i Hi s n. pose proof (Hdone i Hi) as He. unfold cloned_entry in He.
    fold s n in He. split.
    + intros Hz. rewrite Hz in He. exact He.
    + intros Hnz. destruct (Z.eqb_spec (frame s) 0); [contradiction|].
      destruct He as [x He].
      split; [exists x; cbv zeta; rewrite He; unfold mirrored; cbn;
              repeat split|].
      split; [intros Hb; rewrite He; cbn; rewrite Hb; apply orb_true_r|].
      split; [intros Hb; rewrite He; cbn; rewrite Hb; apply orb_true_r|].
      split; [intros Hb; rewrite He; cbn; rewrite Hb; apply orb_true_r|].
      split; [intros Hb; rewrite He; cbn; rewrite Hb; apply orb_true_r|].
      split; [intros Hb; rewrite He; cbn; rewrite Hb; apply orb_true_r|].
      split.
      * exact (proj1 (table_calls_made (irq st) t (rd_page st src)
                        (rd_page (clone_table src st).2 t) 1024 i Hi Hnz)).
      * exact (proj2 (table_calls_made (irq st) t (rd_page st src)
                        (rd_page (clone_table src st).2 t) 1024 i Hi Hnz)).
  - intros b t' i f Hin. apply table_calls_alloc_only in Hin.
    destruct Hin as (H1 & H2 & _). auto.
  - intros Hall. split; [|apply table_calls_none; exact Hall].
    assert (Hz : forall j, rd_page (clone_table src st).2 t j = zero_page).
    { intros j. destruct (Nat.lt_ge_cases j 1024) as [Hj|Hj].
      - pose proof (Hdone j Hj) as He. unfold cloned_entry in He.
        rewrite (Hall j Hj) in He. exact He.
      - apply Hrest. exact Hj. }
    unfold rd_page in Hz.
    destruct (table_at (clone_table src st).2 t) as [l].
    cbn [pages] in Hz, Hlen |- *.
    unfold zero_table. f_equal.
    apply (list_eq_same_length _ _ 1024%nat);
      [apply length_replicate | exact Hlen |].
    intros i x y Hi Hx Hy. apply lookup_replicate in Hy. destruct Hy as [-> _].
    specialize (Hz i). rewrite Hx in Hz. exact Hz.
Qed.

(** ** clone_directory *)

Lemma rd_tables_lookup (st st' : kstate) (d : Z) (j : nat) :
  mem_dirs st' !! d = mem_dirs st !! d -> rd_tables st' d j = rd_tables st d j.
Proof. intros H. unfold rd_tables, dir_at. rewrite H. reflexivity. Qed.

Lemma rd_physical_tables_lookup (st st' : kstate) (d : Z) (j : nat) :
  mem_dirs st' !! d = mem_dirs st !! d ->
  rd_physical_tables st' d j = rd_physical_tables st d j.
Proof. intros H. unfold rd_physical_tables, dir_at. rewrite H. reflexivity. Qed.

Lemma dir_at_lookup (st st' : kstate) (d : Z) :
  mem_dirs st' !! d = mem_dirs st !! d -> dir_at st' d = dir_at st d.
Proof. intros H. unfold dir_at. rewrite H. reflexivity. Qed.

Lemma mem_dirs_wr_tables_ne (d d' : Z) (i : nat) (v : Z) (st : kstate) :
  d' <> d -> mem_dirs (wr_tables d i v st) !! d' = mem_dirs st !! d'.
Proof.
  intros H. with_strategy transparent [wr_tables] (unfold wr_tables).
  rewrite mem_dirs_with_dirs. apply lookup_insert_ne. congruence.
Qed.

Lemma mem_dirs_wr_physical_tables_ne (d d' : Z) (i : nat) (v : Z)
    (st : kstate) :
  d' <> d -> mem_dirs (wr_physical_tables d i v st) !! d' = mem_dirs st !! d'.
Proof.
  intros H.
  with_strategy transparent [wr_physical_tables] (unfold wr_physical_tables).
  rewrite mem_dirs_with_dirs. apply lookup_insert_ne. congruence.
Qed.

Lemma mem_dirs_wr_physical_address_ne (d d' : Z) (v : Z) (st : kstate) :
  d' <> d -> mem_dirs (wr_physical_address d v st) !! d' = mem_dirs st !! d'.
Proof.
  intros H.
  with_strategy transparent [wr_physical_address] (unfold wr_physical_address).
  rewrite mem_dirs_with_dirs. apply lookup_insert_ne. congruence.
Qed.

Lemma dom_mem_dirs_wr_physical_address (d : Z) (v : Z) (st : kstate) :
  dom (mem_dirs (wr_physical_address d v st)) = {[d]} ∪ dom (mem_dirs st).
Proof.
  with_strategy transparent [wr_physical_address] (unfold wr_physical_address).
  rewrite mem_dirs_with_dirs. apply dom_insert_L.
Qed.

(** Writing one entry of a directory: the entry itself, the lengths, the
    other entries. *)
Lemma write_entry (dir : Z) (i : nat) (a b : Z) (st : kstate) :
  (i < length (tables (dir_at st dir)))%nat ->
  (i < length (physical_tables (dir_at st dir)))%nat ->
  let st' := wr_physical_tables dir i b (wr_tables dir i a st) in
  rd_tables st' dir i = a /\ rd_physical_tables st' dir i = b /\
  length (tables (dir_at st' dir)) = length (tables (dir_at st dir)) /\
  length (physical_tables (dir_at st' dir))
  = length (physical_tables (dir_at st dir)) /\
  (forall j, j <> i ->
     rd_tables st' dir j = rd_tables st dir j /\
     rd_physical_tables st' dir j = rd_physical_tables st dir j) /\
  (forall d', d' <> dir -> mem_dirs st' !! d' = mem_dirs st !! d').
Proof.
  intros H1 H2 st'. subst st'.
  rewrite rd_tables_wr_physical_tables, rd_tables_wr_tables.
  rewrite rd_physical_tables_wr_physical_tables.
  rewrite dir_at_wr_physical_tables, !dir_at_wr_tables.
  destruct (decide (dir = dir)) as [_|]; [|congruence]. cbn [tables physical_tables].
  rewrite !list_lookup_insert_eq by assumption.
  rewrite !length_insert.
  repeat split; try reflexivity.
  - rewrite rd_tables_wr_physical_tables, rd_tables_wr_tables.
    destruct (decide (dir = dir)) as [_|]; [|congruence].
    rewrite list_lookup_insert_ne by congruence. reflexivity.
  - rewrite rd_physical_tables_wr_physical_tables, dir_at_wr_tables.
    destruct (decide (dir = dir)) as [_|]; [|congruence].
    cbn [physical_tables].
    rewrite list_lookup_insert_ne by congruence. reflexivity.
  - intros d' Hd. rewrite mem_dirs_wr_physical_tables_ne by exact Hd.
    apply mem_dirs_wr_tables_ne. exact Hd.
Qed.

Lemma clone_directory_alloc_spec (st : kstate) :
  let dir := (kvmalloc_p sizeof_page_directory st).1 in
  let phys := (kvmalloc_p sizeof_page_directory st).2 in
  let st0 := (clone_directory_alloc st).2 in
  (clone_directory_alloc st).1 = dir /\
  sched_part st0 = sched_part st /\
  mem_tables st0 = mem_tables st /\
  (forall d', d' <> dir -> mem_dirs st0 !! d' = mem_dirs st !! d') /\
  dom (mem_dirs st0) = {[dir]} ∪ dom (mem_dirs st) /\
  dir_at st0 dir
  = mk_dir (replicate 1024 0) (replicate 1024 0)
      (wrap32 (phys + offsetof_physical_tables)) /\
  trace st0 = (irq st, EvKvmalloc sizeof_page_directory dir phys) :: trace st.
Proof.
  unfold clone_directory_alloc.
  destruct (kvmalloc_p sizeof_page_directory st) as [dir phys]. simpl.
  split; [reflexivity|]. split; [kst; reflexivity|].
  split; [kst; reflexivity|]. split.
  { intros d' Hd. rewrite mem_dirs_wr_physical_address_ne by exact Hd.
    kst. apply lookup_insert_ne. congruence. }
  split.
  { rewrite dom_mem_dirs_wr_physical_address. kst. rewrite dom_insert_L.
    apply set_eq. intros z. rewrite !elem_of_union.
    split; [intros [H|[H|H]]; auto | intros [H|H]; auto]. }
  split.
  { rewrite dir_at_wr_physical_address.
    destruct (decide (dir = dir)) as [_|]; [|congruence].
    rewrite dir_at_with_dirs, lookup_insert_eq. reflexivity. }
  kst. reflexivity.
Qed.

Lemma clone_directory_inv_start (src : Z) (st : kstate) :
  clone_directory_inv src (kvmalloc_p sizeof_page_directory st).1
    (clone_directory_alloc st).2 0 (clone_directory_alloc st).2.
Proof.
  destruct (clone_directory_alloc_spec st) as (_ & _ & _ & _ & _ & Hdir & _).
  constructor.
  - reflexivity.
  - reflexivity.
  - reflexivity.
  - rewrite Hdir. cbn [tables physical_tables]. rewrite !length_replicate. auto.
  - intros j _. unfold rd_tables, rd_physical_tables. rewrite Hdir.
    cbn [tables physical_tables]. rewrite !default_lookup_replicate. auto.
  - intros j Hj. lia.
Qed.

Lemma clone_directory_inv_step (src dir : Z) (st0 : kstate) (n : nat)
    (x : kstate) :
  dir <> src -> dir <> kernel_directory st0 -> (n < 1024)%nat ->
  clone_directory_inv src dir st0 n x ->
  clone_directory_inv src dir st0 (S n) (clone_directory_body src dir n x).
Proof.
  intros Hsrc Hker Hn [Hstate Hsched Hoth [Hl1 Hl2] Hrest Hdone].
  assert (Hk : kernel_directory x = kernel_directory st0).
  { apply sched_part_kernel_directory. exact Hsched. }
  assert (Hs : rd_tables x src n = rd_tables st0 src n).
  { apply rd_tables_lookup, Hoth. congruence. }
  assert (Hp : rd_physical_tables x src n = rd_physical_tables st0 src n).
  { apply rd_physical_tables_lookup, Hoth. congruence. }
  assert (Hkt : rd_tables x (kernel_directory x) n
                = rd_tables st0 (kernel_directory st0) n).
  { rewrite Hk. apply rd_tables_lookup, Hoth. congruence. }
  assert (Hkeep : forall y : kstate,
             (forall j, j <> n ->
                rd_tables y dir j = rd_tables x dir j /\
                rd_physical_tables y dir j = rd_physical_tables x dir j) ->
             directory_entry src dir st0 n (rd_tables y dir n)
               (rd_physical_tables y dir n) ->
             (forall j, (S n <= j)%nat ->
                rd_tables y dir j = 0 /\ rd_physical_tables y dir j = 0) /\
             (forall j, (j < S n)%nat ->
                directory_entry src dir st0 j (rd_tables y dir j)
                  (rd_physical_tables y dir j))).
  { intros y Hy He. split.
    - intros j Hj. destruct (Hy j) as [-> ->]; [lia|]. apply Hrest. lia.
    - intros j Hj. destruct (decide (j = n)) as [->|Hne]; [exact He|].
      destruct (Hy j Hne) as [-> ->]. apply Hdone. lia. }
  unfold clone_directory_body. rewrite Hs, Hkt.
  destruct ((rd_tables st0 src n =? 0) || (rd_tables st0 src n =? 0xFFFFFFFF))
    eqn:Hskip.
  - (* skipped *)
    destruct (Hkeep x) as [K1 K2]; [auto | |].
    { unfold directory_entry. rewrite Hskip. apply Hrest. lia. }
    constructor; [|exact Hsched|exact Hoth|auto|exact K1|exact K2].
    rewrite for_loop_S, <- Hstate. unfold clone_directory_body.
    rewrite Hs, Hskip. reflexivity.
  - destruct (rd_tables st0 (kernel_directory st0) n =? rd_tables st0 src n)
      eqn:Hshared.
    + (* linked *)
      rewrite rd_physical_tables_wr_tables, Hp.
      destruct (write_entry dir n (rd_tables st0 src n)
                  (rd_physical_tables st0 src n) x)
        as (E1 & E2 & L1 & L2 & Ho & Hd); [lia | lia |].
      destruct (Hkeep _ Ho) as [K1 K2].
      { unfold directory_entry. rewrite Hskip, Hshared. auto. }
      constructor; [| | | |exact K1|exact K2].
      * rewrite for_loop_S, <- Hstate. unfold clone_directory_body.
        rewrite Hs, Hkt, Hskip, Hshared, rd_physical_tables_wr_tables, Hp.
        reflexivity.
      * kst. exact Hsched.
      * intros d' H. rewrite Hd by exact H. apply Hoth. exact H.
      * rewrite L1, L2. auto.
    + (* cloned *)
      pose proof (clone_table_sched (rd_tables st0 src n) x) as Tsched.
      pose proof (clone_table_dirs (rd_tables st0 src n) x) as Tdirs.
      assert (Hbody : clone_directory_body src dir n x
                = wr_physical_tables dir n
                    (Z.lor (clone_table (rd_tables st0 src n) x).1.2 0x07)
                    (wr_tables dir n (clone_table (rd_tables st0 src n) x).1.1
                       (clone_table (rd_tables st0 src n) x).2)).
      { unfold clone_directory_body. rewrite Hs, Hkt, Hskip, Hshared.
        destruct (clone_table _ _) as [[t phys] x1]. reflexivity. }
      destruct (clone_table (rd_tables st0 src n) x) as [[t phys] x1] eqn:Hct.
      cbn [fst snd] in *.
      assert (Hdx : dir_at x1 dir = dir_at x dir)
        by (apply dir_at_lookup; rewrite Tdirs; reflexivity).
      destruct (write_entry dir n t (Z.lor phys 0x07) x1)
        as (E1 & E2 & L1 & L2 & Ho & Hd); [rewrite Hdx; lia..|].
      assert (Ho' : forall j, j <> n ->
                rd_tables (wr_physical_tables dir n (Z.lor phys 7)
                             (wr_tables dir n t x1)) dir j
                = rd_tables x dir j /\
                rd_physical_tables (wr_physical_tables dir n (Z.lor phys 7)
                                      (wr_tables dir n t x1)) dir j
                = rd_physical_tables x dir j).
      { intros j Hj. destruct (Ho j Hj) as [-> ->]. split.
        - apply rd_tables_lookup. rewrite Tdirs. reflexivity.
        - apply rd_physical_tables_lookup. rewrite Tdirs. reflexivity. }
      destruct (Hkeep _ Ho') as [K1 K2].
      { unfold directory_entry. rewrite Hskip, Hshared, <- Hstate, Hct.
        cbn [fst snd]. auto. }
      constructor; [| | | |exact K1|exact K2].
      * rewrite for_loop_S, <- Hstate. exact (eq_sym Hbody).
      * kst. rewrite Tsched. exact Hsched.
      * intros d' H. rewrite Hd by exact H. rewrite Tdirs. apply Hoth. exact H.
      * rewrite L1, L2, Hdx. auto.
Qed.

Lemma clone_directory_spec (src : Z) (st : kstate) :
  (kvmalloc_p sizeof_page_directory st).1 <> src ->
  (kvmalloc_p sizeof_page_directory st).1 <> kernel_directory st ->
  (clone_directory src st).1 = (kvmalloc_p sizeof_page_directory st).1 /\
  clone_directory_inv src (kvmalloc_p sizeof_page_directory st).1
    (clone_directory_alloc st).2 1024 (clone_directory src st).2.
Proof.
  intros Hsrc Hker. unfold clone_directory.
  pose proof (clone_directory_inv_start src st) as Hstart.
  destruct (clone_directory_alloc_spec st) as (Hfst & Hsched & _).
  destruct (clone_directory_alloc st) as [dir st0]. cbn [fst snd] in *.
  split; [exact Hfst|]. rewrite Hfst.
  assert (Hk : kernel_directory st0 = kernel_directory st).
  { apply sched_part_kernel_directory. exact Hsched. }
  apply (for_loop_inv (clone_directory_inv src _ st0)).
  - exact Hstart.
  - intros i x Hi Hx. apply clone_directory_inv_step; try assumption.
    rewrite Hk. exact Hker.
Qed.

(** C3: entry by entry, [clone_directory] leaves the new entry empty where
    the source has NULL or the sentinel [0xFFFFFFFF]; where the kernel
    directory holds the same table pointer as the source it copies
    [tables[i]] and [physical_tables[i]] as they are; otherwise it stores
    the table [clone_table] returns for the source table, called in the
    state the loop has reached, and that table's physical address with the
    flags [0x07].  The directory the heap hands out is neither the source
    nor the kernel directory. *)
Theorem clone_directory_entry_cases (src : Z) (st : kstate) (i : nat) :
  (kvmalloc_p sizeof_page_directory st).1 <> src ->
  (kvmalloc_p sizeof_page_directory st).1 <> kernel_directory st ->
  (i < 1024)%nat ->
  let dir := (clone_directory src st).1 in
  let st' := (clone_directory src st).2 in
  let s := rd_tables st src i in
  let before := for_loop i (clone_directory_body src dir)
                  (clone_directory_alloc st).2 in
  if (s =? 0) || (s =? 0xFFFFFFFF)
  then rd_tables st' dir i = 0 /\ rd_physical_tables st' dir i = 0
  else if rd_tables st (kernel_directory st) i =? s
  then rd_tables st' dir i = s /\
       rd_physical_tables st' dir i = rd_physical_tables st src i
  else rd_tables st' dir i = (clone_table s before).1.1 /\
       rd_physical_tables st' dir i = Z.lor (clone_table s before).1.2 0x07.
Proof.
  intros Hsrc Hker Hi dir st' s before. subst dir st' s before.
  destruct (clone_directory_spec src st Hsrc Hker) as [-> Hinv].
  destruct (clone_directory_alloc_spec st)
    as (_ & Hsched & _ & Hoth & _ & _ & _).
  pose proof (cdi_done _ _ _ _ _ Hinv i Hi) as He.
  unfold directory_entry in He.
  assert (Hk : kernel_directory (clone_directory_alloc st).2
               = kernel_directory st).
  { apply sched_part_kernel_directory. exact Hsched. }
  rewrite Hk in He.
  rewrite !(rd_tables_lookup st (clone_directory_alloc st).2) in He
    by (apply Hoth; congruence).
  rewrite (rd_physical_tables_lookup st (clone_directory_alloc st).2) in He
    by (apply Hoth; congruence).
  exact He.
Qed.

(** ** What [free_directory] gives back *)

Lemma freed_frames_app (a b : list (bool * event)) :
  freed_frames (a ++ b) = freed_frames a ++ freed_frames b.
Proof. apply flat_map_app. Qed.
Lemma freed_blocks_app (a b : list (bool * event)) :
  freed_blocks (a ++ b) = freed_blocks a ++ freed_blocks b.
Proof. apply flat_map_app. Qed.
Lemma allocated_frames_app (a b : list (bool * event)) :
  allocated_frames (a ++ b) = allocated_frames a ++ allocated_frames b.
Proof. apply flat_map_app. Qed.
Lemma allocated_blocks_app (a b : list (bool * event)) :
  allocated_blocks (a ++ b) = allocated_blocks a ++ allocated_blocks b.
Proof. apply flat_map_app. Qed.

Lemma free_table_calls (t : Z) (n : nat) (st : kstate) :
  heap_part (for_loop n (free_table_body t) st) = heap_part st /\
  exists evs,
    trace (for_loop n (free_table_body t) st) = evs ++ trace st /\
    freed_frames evs = table_frames (rd_page st t) n /\
    freed_blocks evs = [].
Proof.
  apply (for_loop_inv
           (fun k x => heap_part x = heap_part st /\
                       exists evs, trace x = evs ++ trace st /\
                                   freed_frames evs = table_frames (rd_page st t) k /\
                                   freed_blocks evs = [])).
  - split; [reflexivity|]. exists []. auto.
  - intros i x _ [Hh (evs & Ht & Hf & Hb)].
    destruct (free_table_body_frame t i x) as [_ Hh'].
    split; [rewrite Hh'; exact Hh|].
    unfold free_table_body, free_frame.
    rewrite (heap_part_rd_page st x t i Hh).
    cbn [table_frames].
    destruct (frame (rd_page st t i) =? 0).
    + exists evs. auto.
    + exists ((irq x, EvFreeFrame t i (frame (rd_page st t i))) :: evs).
      rewrite trace_emit, Ht. split; [reflexivity|].
      split; [|exact Hb].
      change (freed_frames (?a :: evs)) with
        ([frame (rd_page st t i)] ++ freed_frames evs).
      rewrite Hf. reflexivity.
Qed.

Lemma owned_heap_part (st x : kstate) (d : Z) (i : nat) :
  heap_part x = heap_part st -> kernel_directory x = kernel_directory st ->
  owned x d i = owned st d i.
Proof.
  intros Hh Hk. unfold owned. rewrite Hk.
  rewrite !(heap_part_rd_tables st x) by exact Hh. reflexivity.
Qed.

Lemma free_directory_calls (dir : Z) (st : kstate) :
  exists evs,
    trace (free_directory dir st) = evs ++ trace st /\
    freed_frames evs = dir_frames st dir 1024 /\
    freed_blocks evs = dir :: dir_blocks st dir 1024.
Proof.
  unfold free_directory, free.
  assert (Hloop :
    sched_part (for_loop 1024 (free_directory_body dir) st) = sched_part st /\
    heap_part (for_loop 1024 (free_directory_body dir) st) = heap_part st /\
    exists evs,
      trace (for_loop 1024 (free_directory_body dir) st) = evs ++ trace st /\
      freed_frames evs = dir_frames st dir 1024 /\
      freed_blocks evs = dir_blocks st dir 1024).
  { apply (for_loop_inv
             (fun k x => sched_part x = sched_part st /\
                         heap_part x = heap_part st /\
                         exists evs, trace x = evs ++ trace st /\
                                     freed_frames evs = dir_frames st dir k /\
                                     freed_blocks evs = dir_blocks st dir k)).
    - split; [reflexivity|]. split; [reflexivity|]. exists []. auto.
    - intros i x _ (Hs & Hh & evs & Ht & Hf & Hb).
      destruct (free_directory_body_frame dir i x) as [Hs' Hh'].
      split; [rewrite Hs'; exact Hs|]. split; [rewrite Hh'; exact Hh|].
      assert (Hk : kernel_directory x = kernel_directory st)
        by (apply sched_part_kernel_directory; exact Hs).
      unfold free_directory_body.
      cbn [dir_frames dir_blocks]. rewrite <- (owned_heap_part st x dir i Hh Hk).
      unfold owned.
      destruct ((rd_tables x dir i =? 0) || (rd_tables x dir i =? 0xFFFFFFFF)).
      + exists evs. auto.
      + cbn [negb andb].
        destruct (rd_tables x (kernel_directory x) i =? rd_tables x dir i).
        * exists evs. auto.
        * cbn [negb].
          destruct (free_table_calls (rd_tables x dir i) 1024 x)
            as (Hh2 & evs2 & Ht2 & Hf2 & Hb2).
          unfold free.
          rewrite (heap_part_rd_tables x _ dir i Hh2).
          exists ((irq (for_loop 1024 (free_table_body (rd_tables x dir i)) x),
                   EvFree (rd_tables x dir i)) :: evs2 ++ evs).
          rewrite trace_emit, Ht2, Ht. split.
          { rewrite <- app_comm_cons, <- app_assoc. reflexivity. }
          rewrite (heap_part_rd_tables st x dir i Hh).
          split.
          { change (freed_frames (?a :: evs2 ++ evs))
              with (freed_frames (evs2 ++ evs)).
            rewrite freed_frames_app, Hf2, Hf.
            rewrite ?(heap_part_rd_tables st x dir i Hh).
            f_equal. clear -Hh.
            generalize 1024%nat. intros n.
            induction n as [|n IH]; [reflexivity|]. cbn [table_frames].
            rewrite IH, (heap_part_rd_page st x _ n Hh). reflexivity. }
          { change (freed_blocks (?a :: evs2 ++ evs))
              with ([rd_tables st dir i] ++ freed_blocks (evs2 ++ evs)).
            rewrite freed_blocks_app, Hb2, Hb. reflexivity. } }
  destruct Hloop as (_ & _ & evs & Ht & Hf & Hb).
  exists ((irq (for_loop 1024 (free_directory_body dir) st), EvFree dir) :: evs).
  rewrite trace_emit, Ht. split; [reflexivity|]. split.
  - exact Hf.
  - change (freed_blocks (?a :: evs)) with ([dir] ++ freed_blocks evs).
    rewrite Hb. reflexivity.
Qed.

(** ** What [clone_directory] takes *)

Lemma table_frames_ext (pg pg' : nat -> page_t) (n : nat) :
  (forall k, (k < n)%nat -> pg' k = pg k) ->
  table_frames pg' n = table_frames pg n.
Proof.
  induction n as [|n IH]; intros H; [reflexivity|].
  cbn [table_frames]. rewrite (H n) by lia.
  rewrite IH by (intros k Hk; apply H; lia). reflexivity.
Qed.

Lemma table_calls_frames (b : bool) (t : Z) (src new : nat -> page_t)
    (n : nat) :
  (forall k, (k < n)%nat -> frame (src k) = 0 <-> frame (new k) = 0) ->
  allocated_frames (table_calls b t src new n) = table_frames new n /\
  allocated_blocks (table_calls b t src new n) = [].
Proof.
  induction n as [|n IH]; intros H; [split; reflexivity|].
  destruct IH as [IH1 IH2]; [intros k Hk; apply H; lia|].
  cbn [table_calls table_frames].
  rewrite allocated_frames_app, allocated_blocks_app, IH1, IH2.
  pose proof (H n (Nat.lt_succ_diag_r n)) as Hn.
  destruct (Z.eqb_spec (frame (src n)) 0) as [Hz|Hnz];
    destruct (Z.eqb_spec (frame (new n)) 0) as [Hz'|Hnz'];
    try (exfalso; apply Hnz'; apply Hn; assumption);
    try (exfalso; apply Hnz; apply Hn; assumption);
    split; reflexivity.
Qed.

Lemma owned_agree (x y : kstate) (d : Z) (n j : nat) :
  agree_below x y d n -> (j < n)%nat -> owned y d j = owned x d j.
Proof.
  intros H Hj. destruct (H j Hj) as (H1 & H2 & _).
  unfold owned. rewrite H1, H2. reflexivity.
Qed.

Lemma agree_below_weaken (x y : kstate) (d : Z) (n : nat) :
  agree_below x y d (S n) -> agree_below x y d n.
Proof. intros H j Hj. apply H. lia. Qed.

Lemma dir_summary_agree (x y : kstate) (d : Z) (n : nat) :
  agree_below x y d n ->
  dir_frames y d n = dir_frames x d n /\ dir_blocks y d n = dir_blocks x d n.
Proof.
  induction n as [|n IH]; intros H; [split; reflexivity|].
  destruct IH as [IH1 IH2]; [apply agree_below_weaken; exact H|].
  cbn [dir_frames dir_blocks]. rewrite IH1, IH2.
  rewrite (owned_agree x y d (S n) n H) by lia.
  destruct (H n) as (H1 & _ & H3); [lia|]. rewrite H1.
  destruct (owned x d n); [|split; reflexivity].
  rewrite (table_frames_ext (rd_page x (rd_tables x d n))
             (rd_page y (rd_tables x d n))) by (intros k _; apply H3; reflexivity).
  split; reflexivity.
Qed.

Lemma owned_empty (x : kstate) (d : Z) (i : nat) :
  rd_tables x d i = 0 -> owned x d i = false.
Proof. intros H. unfold owned. rewrite H. reflexivity. Qed.

Lemma owned_shared (x : kstate) (d : Z) (i : nat) :
  rd_tables x (kernel_directory x) i = rd_tables x d i -> owned x d i = false.
Proof.
  intros H. unfold owned. rewrite H, Z.eqb_refl. apply andb_false_r.
Qed.

Lemma owned_true (x : kstate) (d : Z) (i : nat) :
  rd_tables x d i <> 0 -> rd_tables x d i <> 0xFFFFFFFF ->
  rd_tables x (kernel_directory x) i <> rd_tables x d i ->
  owned x d i = true.
Proof.
  intros H1 H2 H3. unfold owned.
  destruct (Z.eqb_spec (rd_tables x d i) 0); [contradiction|].
  destruct (Z.eqb_spec (rd_tables x d i) 0xFFFFFFFF); [contradiction|].
  destruct (Z.eqb_spec (rd_tables x (kernel_directory x) i) (rd_tables x d i));
    [contradiction|].
  reflexivity.
Qed.

Lemma owned_true_inv (x : kstate) (d : Z) (i : nat) :
  owned x d i = true ->
  rd_tables x d i <> 0 /\ rd_tables x d i <> 0xFFFFFFFF /\
  rd_tables x (kernel_directory x) i <> rd_tables x d i.
Proof.
  unfold owned.
  destruct (Z.eqb_spec (rd_tables x d i) 0); [discriminate|].
  destruct (Z.eqb_spec (rd_tables x d i) 0xFFFFFFFF); [discriminate|].
  destruct (Z.eqb_spec (rd_tables x (kernel_directory x) i) (rd_tables x d i));
    [discriminate|].
  auto.
Qed.

(** The three ways one turn of the loop of [clone_directory] ends. *)
Lemma clone_directory_body_cases (src dir : Z) (i : nat) (x : kstate) :
  let s := rd_tables x src i in
  clone_directory_body src dir i x
  = if (s =? 0) || (s =? 0xFFFFFFFF) then x
    else if rd_tables x (kernel_directory x) i =? s
    then wr_physical_tables dir i (rd_physical_tables x src i)
           (wr_tables dir i s x)
    else wr_physical_tables dir i (Z.lor (clone_table s x).1.2 0x07)
           (wr_tables dir i (clone_table s x).1.1 (clone_table s x).2).
Proof.
  intros s. unfold clone_directory_body. fold s.
  destruct (_ || _); [reflexivity|].
  destruct (_ =? _); [rewrite rd_physical_tables_wr_tables; reflexivity|].
  destruct (clone_table s x) as [[t phys] x1]. reflexivity.
Qed.

Lemma clone_directory_heap_next (src dir : Z) (st0 : kstate) (n : nat)
    (x y : kstate) (calls : list (bool * event)) :
  dir <> kernel_directory st0 ->
  clone_directory_heap_inv src dir st0 n x ->
  clone_directory_inv src dir st0 (S n) y ->
  (forall j, j <> n -> rd_tables y dir j = rd_tables x dir j) ->
  dom (mem_tables x) ⊆ dom (mem_tables y) ->
  (forall t k, t ∈ dom (mem_tables x) -> rd_page y t k = rd_page x t k) ->
  trace y = calls ++ trace x ->
  (owned y dir n = true ->
   (rd_tables y dir n ∈ dom (mem_tables y)) /\
   (rd_tables y dir n ∉ dom (mem_tables st0))) ->
  allocated_frames calls
  = (if owned y dir n then table_frames (rd_page y (rd_tables y dir n)) 1024
     else []) ->
  allocated_blocks calls = (if owned y dir n then [rd_tables y dir n] else []) ->
  clone_directory_heap_inv src dir st0 (S n) y.
Proof.
  intros Hker [Hbase Hdom Hfr (evs & Htr & Haf & Hab)] Hbase'
    Hent Hsub Hpages Hcalls Hnew Hcf Hcb.
  assert (Hkx : kernel_directory x = kernel_directory st0).
  { apply sched_part_kernel_directory. apply (cdi_sched _ _ _ _ _ Hbase). }
  assert (Hky : kernel_directory y = kernel_directory st0).
  { apply sched_part_kernel_directory. apply (cdi_sched _ _ _ _ _ Hbase'). }
  assert (Hkent : forall j, rd_tables y (kernel_directory y) j
                            = rd_tables x (kernel_directory x) j).
  { intros j. rewrite Hky, Hkx.
    transitivity (rd_tables st0 (kernel_directory st0) j).
    - apply rd_tables_lookup. apply (cdi_others _ _ _ _ _ Hbase'). congruence.
    - symmetry. apply rd_tables_lookup.
      apply (cdi_others _ _ _ _ _ Hbase). congruence. }
  assert (Hag : agree_below x y dir n).
  { intros j Hj. split; [apply Hent; lia|]. split; [apply Hkent|].
    intros Ho k. apply Hpages. apply (Hfr j Hj Ho). }
  destruct (dir_summary_agree x y dir n Hag) as [Df Db].
  constructor.
  - exact Hbase'.
  - etransitivity; eassumption.
  - intros j Hj Ho. destruct (decide (j = n)) as [->|Hne]; [auto|].
    rewrite (owned_agree x y dir n j Hag) in Ho by lia.
    destruct (Hfr j ltac:(lia) Ho) as [F1 F2]. rewrite (Hent j Hne).
    split; [apply Hsub; exact F1 | exact F2].
  - exists (calls ++ evs). rewrite Hcalls, Htr, app_assoc.
    split; [reflexivity|].
    rewrite allocated_frames_app, allocated_blocks_app, Hcf, Hcb, Haf, Hab.
    cbn [dir_frames dir_blocks]. rewrite Df, Db. split; reflexivity.
Qed.

Lemma cloned_entry_frame (s new : page_t) :
  alloc_frame_nonzero -> cloned_entry s new -> frame s = 0 <-> frame new = 0.
Proof.
  intros Hframe. unfold cloned_entry.
  destruct (Z.eqb_spec (frame s) 0) as [Hz|Hnz].
  - intros ->. split; auto.
  - intros [x ->]. unfold mirrored. cbn [frame].
    pose proof (Hframe zero_page 0 0 x). split; intros; contradiction.
Qed.

Lemma clone_directory_heap_step (src dir : Z) (st0 : kstate) (n : nat)
    (x : kstate) :
  kvmalloc_fresh -> alloc_frame_nonzero ->
  dir <> src -> dir <> kernel_directory st0 -> (n < 1024)%nat ->
  (forall i, (i < 1024)%nat -> live_table st0 (rd_tables st0 src i)) ->
  (forall i, (i < 1024)%nat ->
     live_table st0 (rd_tables st0 (kernel_directory st0) i)) ->
  clone_directory_heap_inv src dir st0 n x ->
  clone_directory_heap_inv src dir st0 (S n) (clone_directory_body src dir n x).
Proof.
  intros Hfresh Hframe Hsrc Hker Hn Hlive_src Hlive_ker Hinv.
  pose proof (chi_base _ _ _ _ _ Hinv) as Hbase.
  pose proof (clone_directory_inv_step src dir st0 n x Hsrc Hker Hn Hbase)
    as Hbase'.
  pose proof (chi_dom _ _ _ _ _ Hinv) as Hdom.
  destruct Hbase as [Hstate Hsched Hoth [Hl1 Hl2] Hrest Hdone].
  assert (Hk : kernel_directory x = kernel_directory st0).
  { apply sched_part_kernel_directory. exact Hsched. }
  assert (Hs : rd_tables x src n = rd_tables st0 src n).
  { apply rd_tables_lookup, Hoth. congruence. }
  assert (Hkt : rd_tables x (kernel_directory x) n
                = rd_tables st0 (kernel_directory st0) n).
  { rewrite Hk. apply rd_tables_lookup, Hoth. congruence. }
  pose proof (clone_directory_body_cases src dir n x) as Hy. cbv zeta in Hy.
  rewrite Hs, Hkt in Hy.
  destruct (Z.eqb_spec (rd_tables st0 src n) 0) as [Hz|Hnz].
  { (* skipped: NULL *)
    cbn [orb] in Hy.
    apply (clone_directory_heap_next src dir st0 n x _ [] Hker Hinv Hbase');
      rewrite Hy.
    - auto.
    - reflexivity.
    - auto.
    - reflexivity.
    - rewrite owned_empty by (apply Hrest; lia). discriminate.
    - rewrite owned_empty by (apply Hrest; lia). reflexivity.
    - rewrite owned_empty by (apply Hrest; lia). reflexivity. }
  destruct (Z.eqb_spec (rd_tables st0 src n) 0xFFFFFFFF) as [Hz|Hns].
  { (* skipped: sentinel *)
    cbn [orb] in Hy.
    apply (clone_directory_heap_next src dir st0 n x _ [] Hker Hinv Hbase');
      rewrite Hy.
    - auto.
    - reflexivity.
    - auto.
    - reflexivity.
    - rewrite owned_empty by (apply Hrest; lia). discriminate.
    - rewrite owned_empty by (apply Hrest; lia). reflexivity.
    - rewrite owned_empty by (apply Hrest; lia). reflexivity. }
  cbn [orb] in Hy.
  assert (Hkent : rd_tables (clone_directory_body src dir n x)
                    (kernel_directory (clone_directory_body src dir n x)) n
                  = rd_tables st0 (kernel_directory st0) n).
  { pose proof (cdi_sched _ _ _ _ _ Hbase') as H.
    apply sched_part_fields in H. destruct H as (_ & _ & -> & _).
    apply rd_tables_lookup. apply (cdi_others _ _ _ _ _ Hbase'). congruence. }
  destruct (Z.eqb_spec (rd_tables st0 (kernel_directory st0) n)
              (rd_tables st0 src n)) as [Hsh|Hnsh].
  { (* linked *)
    destruct (write_entry dir n (rd_tables st0 src n)
                (rd_physical_tables x src n) x)
      as (E1 & E2 & L1 & L2 & Ho & Hd); [lia | lia |].
    assert (Hown : owned (clone_directory_body src dir n x) dir n = false).
    { apply owned_shared. rewrite Hkent, Hy, E1. exact Hsh. }
    apply (clone_directory_heap_next src dir st0 n x _ [] Hker Hinv Hbase');
      rewrite ?Hown; try reflexivity; try discriminate; rewrite Hy.
    - intros j Hj. apply Ho. exact Hj.
    - kst. reflexivity.
    - intros t k _. kst. reflexivity.
    - kst. reflexivity. }
  (* cloned *)
  set (s := rd_tables st0 src n) in *.
  assert (Hs_dom : s ∈ dom (mem_tables x)).
  { apply Hdom. destruct (Hlive_src n Hn) as [H|[H|H]]; fold s in H;
      [contradiction | contradiction | exact H]. }
  destruct (Hfresh sizeof_page_table x) as (F0 & F1 & F2 & _).
  assert (Hst : s <> (kvmalloc_p sizeof_page_table x).1).
  { intros Heq. apply F2. rewrite <- Heq. exact Hs_dom. }
  destruct (clone_table_spec s x Hst) as [Hfst Hcti].
  set (t := (kvmalloc_p sizeof_page_table x).1) in *.
  set (phys := (kvmalloc_p sizeof_page_table x).2) in *.
  destruct (clone_table s x) as [[t' phys'] x1] eqn:Hct.
  cbn [fst snd] in Hfst, Hcti, Hy. injection Hfst as -> ->.
  destruct Hcti as [Csched Cdirs Cdom Coth Clen Crest Cdone Ctr].
  assert (Hdx : dir_at x1 dir = dir_at x dir)
    by (apply dir_at_lookup; rewrite Cdirs; reflexivity).
  destruct (write_entry dir n t (Z.lor phys 0x07) x1)
    as (E1 & E2 & L1 & L2 & Ho & Hd); [rewrite Hdx; lia..|].
  assert (Hown : owned (clone_directory_body src dir n x) dir n = true).
  { apply owned_true; rewrite ?Hkent; rewrite Hy, E1; try assumption.
    intros Heq. destruct (Hlive_ker n Hn) as [H|[H|H]].
    - congruence.
    - congruence.
    - apply F2. fold t. rewrite <- Heq. apply Hdom. exact H. }
  assert (Hpages : forall k, rd_page
                     (wr_physical_tables dir n (Z.lor phys 7)
                        (wr_tables dir n t x1)) t k = rd_page x1 t k).
  { intros k. kst. reflexivity. }
  assert (Hcf : forall k, (k < 1024)%nat ->
                  frame (rd_page x s k) = 0 <-> frame (rd_page x1 t k) = 0).
  { intros k Hk1. apply cloned_entry_frame; [exact Hframe | apply Cdone, Hk1]. }
  destruct (table_calls_frames (irq x) t (rd_page x s) (rd_page x1 t) 1024 Hcf)
    as [Tf Tb].
  apply (clone_directory_heap_next src dir st0 n x _
           (table_calls (irq x) t (rd_page x s) (rd_page x1 t) 1024
            ++ [(irq x, EvKvmalloc sizeof_page_table t phys)])
           Hker Hinv Hbase');
    rewrite ?Hown; rewrite Hy.
  - intros j Hj. destruct (Ho j Hj) as [-> _].
    apply rd_tables_lookup. rewrite Cdirs. reflexivity.
  - kst. rewrite Cdom. apply union_subseteq_r.
  - intros t' k Ht'. kst. apply rd_page_lookup. apply Coth.
    intros ->. apply F2. exact Ht'.
  - kst. rewrite Ctr, <- app_assoc. reflexivity.
  - intros _. rewrite E1. split.
    + kst. rewrite Cdom. apply elem_of_union. left. apply elem_of_singleton.
      reflexivity.
    + intros Hin. apply F2. apply Hdom. exact Hin.
  - rewrite allocated_frames_app, Tf, E1. cbn [allocated_frames flat_map snd].
    rewrite app_nil_r. apply table_frames_ext. intros k _.
    symmetry. apply Hpages.
  - rewrite allocated_blocks_app, Tb, E1. reflexivity.
Qed.

Lemma dir_blocks_owned (x : kstate) (d : Z) (n : nat) (p : Z) :
  In p (dir_blocks x d n) ->
  exists j, (j < n)%nat /\ owned x d j = true /\ p = rd_tables x d j.
Proof.
  induction n as [|n IH]; cbn [dir_blocks]; [contradiction|].
  intros H. apply in_app_or in H. destruct H as [H|H].
  - destruct (owned x d n) eqn:Ho; [|contradiction].
    destruct H as [<-|[]]. exists n. auto.
  - destruct (IH H) as (j & Hj & Ho & Hp). exists j. auto.
Qed.

Lemma clone_directory_heap_spec (src : Z) (st : kstate) :
  kvmalloc_fresh -> alloc_frame_nonzero ->
  src ∈ dom (mem_dirs st) -> kernel_directory st ∈ dom (mem_dirs st) ->
  (forall i, (i < 1024)%nat -> live_table st (rd_tables st src i)) ->
  (forall i, (i < 1024)%nat ->
     live_table st (rd_tables st (kernel_directory st) i)) ->
  (clone_directory src st).1 = (kvmalloc_p sizeof_page_directory st).1 /\
  clone_directory_heap_inv src (kvmalloc_p sizeof_page_directory st).1
    (clone_directory_alloc st).2 1024 (clone_directory src st).2.
Proof.
  intros Hfresh Hframe Hsrc Hker Hlive_src Hlive_ker.
  destruct (Hfresh sizeof_page_directory st) as (_ & _ & _ & Fd).
  assert (Hds : (kvmalloc_p sizeof_page_directory st).1 <> src)
    by (intros Heq; apply Fd; rewrite Heq; exact Hsrc).
  assert (Hdk : (kvmalloc_p sizeof_page_directory st).1 <> kernel_directory st)
    by (intros Heq; apply Fd; rewrite Heq; exact Hker).
  pose proof (clone_directory_inv_start src st) as Hstart.
  destruct (clone_directory_alloc_spec st)
    as (Hfst & Hsched & Htabs & Hoth & _ & _ & _).
  unfold clone_directory.
  destruct (clone_directory_alloc st) as [dir st0]. cbn [fst snd] in *.
  split; [exact Hfst|]. rewrite Hfst in *.
  assert (Hk : kernel_directory st0 = kernel_directory st).
  { apply sched_part_kernel_directory. exact Hsched. }
  assert (Hlive0 : forall t, live_table st t -> live_table st0 t).
  { unfold live_table. rewrite Htabs. auto. }
  apply (for_loop_inv (clone_directory_heap_inv src _ st0)).
  - constructor.
    + exact Hstart.
    + reflexivity.
    + intros j Hj. lia.
    + exists []. auto.
  - intros i x Hi Hx.
    apply clone_directory_heap_step; try assumption.
    + rewrite Hk. exact Hdk.
    + intros j Hj. apply Hlive0.
      rewrite (rd_tables_lookup st st0) by (apply Hoth; congruence).
      apply Hlive_src. exact Hj.
    + intros j Hj. apply Hlive0. rewrite Hk.
      rewrite (rd_tables_lookup st st0) by (apply Hoth; congruence).
      apply Hlive_ker. exact Hj.
Qed.

(** C4: [free_directory] run on the directory [clone_directory] has just
    built gives back what the clone took: the frames passed to [free_frame]
    are the frames [alloc_frame] handed out, in the same order; the blocks
    passed to [free] are the cloned tables and the directory itself; and no
    table the new directory shares with the kernel directory is passed to
    [free].  Memory is well formed (the two directories and the tables they
    reference are in memory), and the allocators honour their contracts
    ([kvmalloc_fresh], [alloc_frame_nonzero]). *)
Theorem free_directory_returns_clone (src : Z) (st : kstate) :
  kvmalloc_fresh -> alloc_frame_nonzero ->
  src ∈ dom (mem_dirs st) -> kernel_directory st ∈ dom (mem_dirs st) ->
  (forall i, (i < 1024)%nat -> live_table st (rd_tables st src i)) ->
  (forall i, (i < 1024)%nat ->
     live_table st (rd_tables st (kernel_directory st) i)) ->
  exists (taken given : list (bool * event)) (cloned : list Z),
    trace (clone_directory src st).2 = taken ++ trace st /\
    trace (free_directory (clone_directory src st).1 (clone_directory src st).2)
    = given ++ trace (clone_directory src st).2 /\
    freed_frames given = allocated_frames taken /\
    allocated_blocks taken = cloned ++ [(clone_directory src st).1] /\
    freed_blocks given = (clone_directory src st).1 :: cloned /\
    (forall i, (i < 1024)%nat ->
       rd_tables (clone_directory src st).2
         (kernel_directory (clone_directory src st).2) i
       = rd_tables (clone_directory src st).2 (clone_directory src st).1 i ->
       ~ In (rd_tables (clone_directory src st).2 (clone_directory src st).1 i)
            (freed_blocks given)).
Proof.
  intros Hfresh Hframe Hsrc Hker Hlive_src Hlive_ker.
  destruct (clone_directory_heap_spec src st Hfresh Hframe Hsrc Hker
              Hlive_src Hlive_ker) as [Hfst Hinv].
  destruct (Hfresh sizeof_page_directory st) as (Fn & Fs & Ft & Fd).
  destruct (clone_directory_alloc_spec st)
    as (_ & Hsched0 & Htabs & Hoth0 & _ & _ & Htr0).
  cbv zeta in Hsched0, Htabs, Hoth0, Htr0.
  rewrite Hfst.
  set (dir := (kvmalloc_p sizeof_page_directory st).1) in *.
  set (st0 := (clone_directory_alloc st).2) in *.
  set (st1 := (clone_directory src st).2) in *.
  destruct Hinv as [Hbase Hdom Hfr (evs & Htr & Haf & Hab)].
  destruct (free_directory_calls dir st1) as (given & Hg & Hgf & Hgb).
  exists (evs ++ [(irq st, EvKvmalloc sizeof_page_directory dir
                             (kvmalloc_p sizeof_page_directory st).2)]),
    given, (dir_blocks st1 dir 1024).
  split; [rewrite Htr, Htr0, <- app_assoc; reflexivity|].
  split; [exact Hg|].
  split.
  { rewrite allocated_frames_app, Haf, Hgf. cbn [allocated_frames flat_map snd].
    rewrite app_nil_r. reflexivity. }
  split.
  { rewrite allocated_blocks_app, Hab. reflexivity. }
  split; [exact Hgb|].
  intros i Hi Heq. rewrite Hgb.
  assert (Hk1 : kernel_directory st1 = kernel_directory st).
  { pose proof (cdi_sched _ _ _ _ _ Hbase) as H.
    apply sched_part_fields in H. destruct H as (_ & _ & -> & _).
    apply sched_part_kernel_directory. exact Hsched0. }
  assert (Hdk : dir <> kernel_directory st)
    by (intros E; apply Fd; fold dir; rewrite E; exact Hker).
  assert (Hkent : rd_tables st1 (kernel_directory st1) i
                  = rd_tables st (kernel_directory st) i).
  { rewrite Hk1. transitivity (rd_tables st0 (kernel_directory st) i).
    - apply rd_tables_lookup. apply (cdi_others _ _ _ _ _ Hbase). congruence.
    - apply rd_tables_lookup. apply Hoth0. congruence. }
  pose proof (Hlive_ker i Hi) as Hlive. rewrite <- Hkent, Heq in Hlive.
  intros [Hd|Hin].
  - (* the directory itself is not a table of the kernel directory *)
    rewrite <- Hd in Hlive. destruct Hlive as [H|[H|H]]; auto.
  - destruct (dir_blocks_owned _ _ _ _ Hin) as (j & Hj & Ho & Hp).
    destruct (owned_true_inv _ _ _ Ho) as (O1 & O2 & _).
    destruct (Hfr j Hj Ho) as [_ Hnew].
    rewrite <- Hp in O1, O2, Hnew. rewrite Htabs in Hnew.
    destruct Hlive as [H|[H|H]]; auto.
Qed.

(** ** fork returns twice *)

Lemma clone_directory_fst (src : Z) (st : kstate) :
  (clone_directory src st).1 = (kvmalloc_p sizeof_page_directory st).1.
Proof.
  unfold clone_directory, clone_directory_alloc.
  destruct (kvmalloc_p sizeof_page_directory st) as [dir phys]. reflexivity.
Qed.

Lemma fork_before_read_eip_ok (ebp : Z) (st : kstate) :
  (forall parent s, (spawn_process_record parent s).1 <> 0) ->
  (forall size s, (kvmalloc_p size s).1 <> 0) ->
  current_process st <> 0 ->
  exists directory st1 new_proc rec,
    clone_directory (current_directory st) (IRQ_OFF st) = (directory, st1) /\
    spawn_process_record (current_process st) st1 = (new_proc, rec) /\
    current_process st1 = current_process st /\
    fork_before_read_eip ebp st
    = Ok (at_read_eip ebp (current_process st) directory new_proc rec st1).
Proof.
  intros Hspawn Hheap Hcur.
  destruct (clone_directory (current_directory st) (IRQ_OFF st))
    as [directory st1] eqn:Hcd.
  destruct (spawn_process_record (current_process st) st1)
    as [new_proc rec] eqn:Hsp.
  exists directory, st1, new_proc, rec.
  pose proof (clone_directory_sched (current_directory st) (IRQ_OFF st)) as Hs.
  rewrite Hcd in Hs. cbn [snd] in Hs. apply sched_part_fields in Hs.
  destruct Hs as (Hc & _). rewrite current_process_IRQ_OFF in Hc.
  split; [reflexivity|]. split; [exact Hsp|]. split; [exact Hc|].
  unfold fork_before_read_eip, spawn_process.
  rewrite current_process_IRQ_OFF.
  assert (Hd0 : current_directory (IRQ_OFF st) = current_directory st).
  { with_strategy transparent [IRQ_OFF] (unfold IRQ_OFF). kst. reflexivity. }
  rewrite Hd0, Hcd.
  destruct (Z.eqb_spec (current_process st) 0); [contradiction|].
  assert (Hdir : directory <> 0).
  { pose proof (clone_directory_fst (current_directory st) (IRQ_OFF st)) as H.
    rewrite Hcd in H. cbn [fst] in H. rewrite H. apply Hheap. }
  destruct (Z.eqb_spec directory 0); [contradiction|].
  rewrite Hc, Hsp.
  assert (Hnp : new_proc <> 0).
  { pose proof (Hspawn (current_process st) st1) as H. rewrite Hsp in H.
    exact H. }
  destruct (Z.eqb_spec new_proc 0); [contradiction|].
  with_strategy transparent [at_read_eip] (unfold at_read_eip). reflexivity.
Qed.

(** [switch_next] when the head of the ready queue is [p]. *)
Lemma switch_next_head (p : Z) (q : list Z) (st : kstate) :
  process_queue st = p :: q ->
  code_addr < thread_eip (proc_at st p) < end_addr ->
  exists j st',
    switch_next st = Ok (j, st') /\
    j_eip j = thread_eip (proc_at st p) /\
    j_esp j = thread_esp (proc_at st p) /\
    j_ebp j = thread_ebp (proc_at st p) /\
    j_eax j = 0x10000 /\
    current_process st' = p /\
    process_queue st' = q /\
    (forall r, proc_at st' r = proc_at st r) /\
    (forall s, kstack_at st' s = kstack_at st s).
Proof.
  intros Hq Hcode. unfold switch_next, next_ready_process, set_kernel_stack.
  rewrite Hq. kst.
  destruct (Z.gtb_spec (thread_eip (proc_at st p)) code_addr); [|lia].
  destruct (Z.ltb_spec (thread_eip (proc_at st p)) end_addr); [|lia].
  cbn [andb negb].
  eexists _, _. split; [reflexivity|]. cbn [j_eip j_esp j_ebp j_eax].
  kst. repeat split; reflexivity.
Qed.

(** C2: a call of [fork] by a running process returns the pid of the process
    record [spawn_process] handed out (the child), with the caller still the
    current process, the child's [thread.eip] set to what [read_eip]
    returned and the child enqueued as ready.  When [switch_next] later
    picks the child, its kernel stack being as [fork] left it, it jumps to
    that address with [0x10000] in [eax] and with the caller's [esp] and
    [ebp] moved by the distance between the two stacks, hence inside the
    child's kernel stack; the code after [read_eip], run there on these
    registers, reads the locals through the relocated frame pointer, finds
    the saved [parent] different from [current_process] and returns 0.
    Nothing is assumed of the parent's stack at that time.  The heap does
    not return NULL; [spawn_process] hands out a record that is neither NULL
    nor the parent's, with the top of a kernel stack in [image.stack]; the
    caller runs on its own kernel stack. *)
Theorem fork_returns_twice (eip esp ebp : Z) (st : kstate) :
  (forall parent s,
      (spawn_process_record parent s).1 <> 0 /\
      (spawn_process_record parent s).1 <> parent) ->
  (forall parent s,
      KERNEL_STACK_SIZE <= image_stack (spawn_process_record parent s).2
      < 2 ^ 32) ->
  (forall size s, (kvmalloc_p size s).1 <> 0) ->
  current_process st <> 0 ->
  KERNEL_STACK_SIZE <= current_stack st < 2 ^ 32 ->
  in_kernel_stack (current_stack st) esp ->
  in_kernel_stack (current_stack st) ebp ->
  exists (child : Z) (st1 : kstate),
    fork eip esp ebp st = Ok (id (proc_at st1 child), st1) /\
    In (false, EvSpawn (current_process st) child) (trace st1) /\
    current_process st1 = current_process st /\
    thread_eip (proc_at st1 child) = eip /\
    process_queue st1 = process_queue st ++ [child] /\
    forall (st2 : kstate) (q : list Z),
      process_queue st2 = child :: q ->
      proc_at st2 child = proc_at st1 child ->
      (forall a, in_kernel_stack (image_stack (proc_at st1 child)) a ->
                 kstack_at st2 a = kstack_at st1 a) ->
      code_addr < eip < end_addr ->
      exists (j : jump_t) (st3 : kstate),
        switch_next st2 = Ok (j, st3) /\
        j_eip j = eip /\ j_eax j = 0x10000 /\
        j_esp j = esp + (image_stack (proc_at st1 child) - current_stack st) /\
        j_ebp j = ebp + (image_stack (proc_at st1 child) - current_stack st) /\
        in_kernel_stack (image_stack (proc_at st1 child)) (j_esp j) /\
        in_kernel_stack (image_stack (proc_at st1 child)) (j_ebp j) /\
        current_process st3 = child /\
        fr_parent (kstack_at st3 (j_ebp j)) = current_process st /\
        fork_after_read_eip (j_eax j) (j_esp j) (j_ebp j) st3 = Ok (0, st3).
Proof.
  intros Hspawn Hstk Hheap Hcur Hwf Hesp Hebp.
  destruct (fork_before_read_eip_ok ebp st (fun p s => proj1 (Hspawn p s)) Hheap
              Hcur)
    as (directory & st1 & child & rec & Hcd & Hsp & Hc1 & Hb).
  set (st_f := at_read_eip ebp (current_process st) directory child rec st1) in *.
  pose proof (at_read_eip_own_frame ebp _ directory child rec _ Hc1) as Hfr.
  cbv zeta in Hfr. fold st_f in Hfr.
  assert (Hcf : current_process st_f = current_process st).
  { subst st_f. rewrite at_read_eip_current. exact Hc1. }
  pose proof (clone_directory_sched (current_directory st) (IRQ_OFF st)) as Hs.
  rewrite Hcd in Hs. cbn [snd] in Hs.
  assert (Hirq1 : irq st1 = false).
  { rewrite (sched_part_irq _ _ Hs). apply irq_IRQ_OFF. }
  assert (Hne : child <> current_process st).
  { pose proof (proj2 (Hspawn (current_process st) st1)) as H.
    rewrite Hsp in H. exact H. }
  assert (Hcs : current_stack st_f = current_stack st).
  { unfold current_stack. rewrite Hcf. subst st_f.
    rewrite at_read_eip_others by congruence.
    rewrite (sched_part_proc_at _ _ _ Hs), proc_at_IRQ_OFF. reflexivity. }
  assert (Hns : image_stack (proc_at st_f child) = image_stack rec).
  { subst st_f. rewrite at_read_eip_child. reflexivity. }
  assert (Hrs : KERNEL_STACK_SIZE <= image_stack rec < 2 ^ 32).
  { pose proof (Hstk (current_process st) st1) as H. rewrite Hsp in H.
    exact H. }
  destruct (prepare_child_registers child eip esp ebp st_f)
    as (_ & Tesp & Tebp).
  fold (current_stack st_f) in Tesp, Tebp. rewrite Hns, Hcs in Tesp, Tebp.
  unfold in_kernel_stack in Hesp, Hebp.
  rewrite wrap32_small in Tesp by lia. rewrite wrap32_small in Tebp by lia.
  exists child, (IRQ_RES (prepare_child child eip esp ebp st_f)).
  split.
  { unfold fork. rewrite Hb.
    rewrite (fork_after_read_eip_parent _ _ _ _ _ _ Hfr). reflexivity. }
  split.
  { rewrite trace_IRQ_RES, prepare_child_trace. subst st_f.
    rewrite at_read_eip_trace, Hirq1. cbn [In]. auto. }
  split.
  { rewrite current_process_IRQ_RES, prepare_child_current. exact Hcf. }
  split.
  { rewrite proc_at_IRQ_RES, prepare_child_record. reflexivity. }
  split.
  { rewrite process_queue_IRQ_RES, prepare_child_queue.
    rewrite (fork_before_read_eip_queue ebp st st_f Hb). reflexivity. }
  intros st2 q Hq Hrec Hstack Hcode.
  rewrite proc_at_IRQ_RES in Hrec, Hstack |- *.
  rewrite prepare_child_image_stack in Hstack |- *. rewrite Hns in Hstack |- *.
  assert (Heip : thread_eip (proc_at st2 child) = eip).
  { rewrite Hrec, prepare_child_record. reflexivity. }
  destruct (switch_next_head child q st2 Hq) as
    (j & st3 & Hsw & J1 & J2 & J3 & J4 & Hc3 & _ & Hp3 & Hk3);
    [rewrite Heip; exact Hcode|].
  rewrite Hrec, Tesp in J2. rewrite Hrec, Tebp in J3.
  assert (Hin : in_kernel_stack (image_stack rec) (j_ebp j)).
  { unfold in_kernel_stack. rewrite J3. lia. }
  assert (Hfr3 : kstack_at st3 (j_ebp j)
                 = mk_frame TASK_MAGIC (current_process st) directory child).
  { rewrite Hk3, (Hstack _ Hin), kstack_at_IRQ_RES, J3, <- Hns, <- Hcs.
    rewrite prepare_child_kstack; [rewrite Hfr, Hcf; reflexivity|..].
    - rewrite Hcs. exact Hwf.
    - rewrite Hns. exact Hrs.
    - rewrite Hcs. exact Hebp. }
  exists j, st3. split; [exact Hsw|]. split; [rewrite J1; exact Heip|].
  split; [exact J4|]. split; [exact J2|]. split; [exact J3|].
  split; [unfold in_kernel_stack; rewrite J2; lia|].
  split; [exact Hin|]. split; [exact Hc3|].
  split; [rewrite Hfr3; reflexivity|].
  apply (fork_after_read_eip_child _ _ _ _ (current_process st) directory
           child); [exact Hfr3|].
  rewrite Hc3. exact Hne.
Qed.

(** ** Interrupts *)

Lemma for_loop_calls (Q : bool -> bool * event -> Prop) (n : nat)
    (body : nat -> kstate -> kstate) (x : kstate) :
  (forall i z, irq (body i z) = irq z /\ extends (Q (irq z)) z (body i z)) ->
  irq (for_loop n body x) = irq x /\
  extends (Q (irq x)) x (for_loop n body x).
Proof.
  intros Hbody.
  apply (for_loop_inv (fun _ z => irq z = irq x /\ extends (Q (irq x)) x z)).
  - split; [reflexivity | apply extends_refl].
  - intros i z _ [Hi He]. destruct (Hbody i z) as [Hi' He'].
    rewrite Hi in He'. split; [rewrite Hi'; exact Hi|].
    eapply extends_trans; eassumption.
Qed.

Lemma clone_table_body_calls (src table : Z) (i : nat) (z : kstate) :
  irq (clone_table_body src table i z) = irq z /\
  extends (paging_call_at (irq z)) z (clone_table_body src table i z).
Proof.
  split; [apply sched_part_irq, clone_table_body_sched|].
  unfold clone_table_body. destruct (_ =? _); [apply extends_refl|].
  cbv zeta. eexists [_; _]. split.
  - kst. rewrite !mirror_bit_trace, !mirror_bit_irq. kst. reflexivity.
  - repeat constructor.
Qed.

Lemma clone_table_calls (src : Z) (z : kstate) :
  irq (clone_table src z).2 = irq z /\
  extends (paging_call_at (irq z)) z (clone_table src z).2.
Proof.
  split; [apply sched_part_irq, clone_table_sched|].
  unfold clone_table. destruct (kvmalloc_p sizeof_page_table z) as [t phys].
  cbn [snd].
  set (z0 := with_tables _ _).
  assert (H0 : irq z0 = irq z /\ extends (paging_call_at (irq z)) z z0).
  { subst z0. split; [kst; reflexivity|].
    exists [(irq z, EvKvmalloc sizeof_page_table t phys)]. split.
    - kst. reflexivity.
    - repeat constructor. }
  destruct H0 as [Hi He].
  destruct (for_loop_calls paging_call_at 1024 (clone_table_body src t) z0
              (clone_table_body_calls src t)) as [_ Hl].
  rewrite Hi in Hl. eapply extends_trans; eassumption.
Qed.

Lemma clone_directory_body_calls (src dir : Z) (i : nat) (z : kstate) :
  irq (clone_directory_body src dir i z) = irq z /\
  extends (paging_call_at (irq z)) z (clone_directory_body src dir i z).
Proof.
  split; [apply sched_part_irq, clone_directory_body_sched|].
  rewrite clone_directory_body_cases. cbv zeta.
  destruct (_ || _); [apply extends_refl|].
  destruct (_ =? _).
  - apply extends_same_trace. kst. reflexivity.
  - destruct (clone_table_calls (rd_tables z src i) z) as [_ He].
    eapply extends_trans; [exact He|].
    apply extends_same_trace. kst. reflexivity.
Qed.

Lemma clone_directory_calls (src : Z) (z : kstate) :
  irq (clone_directory src z).2 = irq z /\
  extends (paging_call_at (irq z)) z (clone_directory src z).2.
Proof.
  split; [apply sched_part_irq, clone_directory_sched|].
  unfold clone_directory, clone_directory_alloc.
  destruct (kvmalloc_p sizeof_page_directory z) as [dir phys]. cbn [snd].
  set (z0 := wr_physical_address _ _ _).
  assert (H0 : irq z0 = irq z /\ extends (paging_call_at (irq z)) z z0).
  { subst z0. split; [kst; reflexivity|].
    exists [(irq z, EvKvmalloc sizeof_page_directory dir phys)]. split.
    - kst. reflexivity.
    - repeat constructor. }
  destruct H0 as [Hi He].
  destruct (for_loop_calls paging_call_at 1024 (clone_directory_body src dir)
              z0 (clone_directory_body_calls src dir)) as [_ Hl].
  rewrite Hi in Hl. eapply extends_trans; eassumption.
Qed.

(** [fork] runs from [IRQ_OFF] to [IRQ_RES] with interrupts disabled: every
    call in between is made with the flag off, the child is made ready
    before the flag is set again, and the call returns with interrupts
    enabled. *)
Lemma fork_keeps_interrupts_off (eip esp ebp : Z) (st : kstate) (pid : Z)
    (st' : kstate) :
  fork eip esp ebp st = Ok (pid, st') ->
  exists (child directory : Z) (paging : list (bool * event)),
    trace st'
    = (false, EvIrqRes) :: (false, EvMakeReady child)
        :: (false, EvSetEnv child directory)
        :: (false, EvSpawn (current_process st) child)
        :: paging ++ (irq st, EvIrqOff) :: trace st /\
    Forall (paging_call_at false) paging /\
    irq st' = true.
Proof.
  intros H. destruct (fork_ok_inv _ _ _ _ _ _ H)
    as (st_f & directory & child & Hb & Hfr & -> & _).
  destruct (fork_before_read_eip_inv _ _ _ Hb)
    as (d & st1 & np & rec & Hcd & _ & _ & _ & _ & _ & ->).
  rewrite at_read_eip_frame in Hfr.
  pose proof (f_equal fr_directory Hfr) as Hdir.
  apply (f_equal fr_new_proc) in Hfr. cbn in Hfr, Hdir. subst child directory.
  destruct (clone_directory_calls (current_directory st) (IRQ_OFF st))
    as [Hi (paging & Ht & Hp)].
  rewrite Hcd in Hi, Ht. cbn [snd] in Hi, Ht.
  rewrite irq_IRQ_OFF in Hi, Hp. rewrite trace_IRQ_OFF in Ht.
  exists np, d, paging.
  rewrite trace_IRQ_RES, irq_IRQ_RES, prepare_child_irq, prepare_child_trace.
  rewrite at_read_eip_irq, at_read_eip_trace, Hi, Ht. auto.
Qed.

(** [clone] never touches the interrupt flag: it returns with the flag as
    it found it, and each of its calls is made under that flag. *)
Lemma clone_leaves_interrupts (stack_top stack_old eip esp ebp : Z)
    (st : kstate) (pid : Z) (st' : kstate) :
  clone stack_top stack_old eip esp ebp st = Ok (pid, st') ->
  irq st' = irq st /\
  exists child r,
    trace st'
    = (irq st, EvMakeReady child)
        :: (irq st, EvSetEnv child (current_directory st))
        :: (irq st, EvSpawn (current_process st) child)
        :: (irq st, EvKprintf r) :: trace st.
Proof.
  intros H. destruct (clone_ok_inv _ _ _ _ _ _ _ _ H)
    as (st_f & directory & child & Hb & Hfr & -> & _).
  destruct (clone_before_read_eip_inv _ _ _ _ _ Hb)
    as (np & rec & st1 & -> & _ & _ & _ & ->).
  rewrite at_read_eip_frame in Hfr.
  apply (f_equal fr_new_proc) in Hfr. cbn in Hfr. subst child.
  rewrite prepare_child_irq, prepare_child_trace.
  rewrite at_read_eip_irq, at_read_eip_trace. kst.
  split; [reflexivity|]. eexists _, _. reflexivity.
Qed.

(** Under the contracts of the heap and of [spawn_process], and called by a
    running process, [fork] and [clone] return. *)
Lemma fork_succeeds (eip esp ebp : Z) (st : kstate) :
  (forall parent s, (spawn_process_record parent s).1 <> 0) ->
  (forall size s, (kvmalloc_p size s).1 <> 0) ->
  current_process st <> 0 ->
  exists pid st', fork eip esp ebp st = Ok (pid, st').
Proof.
  intros Hspawn Hheap Hcur.
  destruct (fork_before_read_eip_ok ebp st Hspawn Hheap Hcur)
    as (directory & st1 & child & rec & _ & _ & Hc1 & Hb).
  pose proof (at_read_eip_own_frame ebp _ directory child rec _ Hc1) as Hfr.
  cbv zeta in Hfr.
  unfold fork. rewrite Hb.
  rewrite (fork_after_read_eip_parent _ _ _ _ _ _ Hfr). eauto.
Qed.

Lemma clone_succeeds (stack_top stack_old eip esp ebp : Z) (st : kstate) :
  (forall parent s, (spawn_process_record parent s).1 <> 0) ->
  current_process st <> 0 ->
  syscall_registers (proc_at st (current_process st)) <> 0 ->
  exists pid st', clone stack_top stack_old eip esp ebp st = Ok (pid, st').
Proof.
  intros Hspawn Hcur Hregs. unfold clone, clone_before_read_eip, spawn_process.
  destruct (Z.eqb_spec (current_process st) 0); [contradiction|].
  destruct (Z.eqb_spec (syscall_registers (proc_at st (current_process st))) 0);
    [contradiction|].
  set (st1 := emit _ st).
  assert (Hc : current_process st1 = current_process st)
    by (subst st1; kst; reflexivity).
  rewrite Hc.
  destruct (Z.eqb_spec (current_process st) 0); [contradiction|].
  destruct (spawn_process_record (current_process st) st1)
    as [child rec] eqn:Hsp.
  pose proof (Hspawn (current_process st) st1) as Hn. rewrite Hsp in Hn.
  destruct (Z.eqb_spec child 0); [contradiction|].
  pose proof (at_read_eip_own_frame ebp (current_process st)
                (current_directory st1) child rec st1 Hc) as Hfr.
  cbv zeta in Hfr.
  with_strategy transparent [at_read_eip] (unfold at_read_eip in Hfr).
  cbv zeta in Hfr.
  rewrite (clone_after_read_eip_parent _ _ _ _ _ _ Hfr). eauto.
Qed.

(** * Beyond the call sites above

    What the scheduler, the reaper, the cloner and the trampoline do on
    their other paths. *)

(** ** More reads that do not meet a write *)

#[local] Transparent emit with_current_process with_current_directory
  with_procs with_dirs with_tables with_kstacks with_process_queue
  with_reap_queue with_irq wr_tables wr_physical_tables wr_physical_address
  wr_page wr_proc prepare_child at_read_eip IRQ_RES IRQ_OFF.

Lemma prepare_child_paging (new_proc eip esp ebp : Z) (st : kstate) :
  heap_part (prepare_child new_proc eip esp ebp st) = heap_part st /\
  kernel_directory (prepare_child new_proc eip esp ebp st)
  = kernel_directory st /\
  current_directory (prepare_child new_proc eip esp ebp st)
  = current_directory st /\
  reap_queue (prepare_child new_proc eip esp ebp st) = reap_queue st.
Proof. repeat split. Qed.

Lemma at_read_eip_paging (ebp parent directory new_proc : Z) (rec : process_t)
    (st1 : kstate) :
  heap_part (at_read_eip ebp parent directory new_proc rec st1) = heap_part st1 /\
  kernel_directory (at_read_eip ebp parent directory new_proc rec st1)
  = kernel_directory st1 /\
  current_directory (at_read_eip ebp parent directory new_proc rec st1)
  = current_directory st1 /\
  reap_queue (at_read_eip ebp parent directory new_proc rec st1) = reap_queue st1.
Proof. repeat split. Qed.

Lemma IRQ_OFF_frame (st : kstate) :
  heap_part (IRQ_OFF st) = heap_part st /\
  kernel_directory (IRQ_OFF st) = kernel_directory st /\
  current_directory (IRQ_OFF st) = current_directory st /\
  mem_procs (IRQ_OFF st) = mem_procs st /\
  reap_queue (IRQ_OFF st) = reap_queue st.
Proof. repeat split. Qed.

Lemma IRQ_RES_frame (st : kstate) :
  heap_part (IRQ_RES st) = heap_part st /\
  kernel_directory (IRQ_RES st) = kernel_directory st /\
  current_directory (IRQ_RES st) = current_directory st /\
  mem_procs (IRQ_RES st) = mem_procs st /\
  reap_queue (IRQ_RES st) = reap_queue st.
Proof. repeat split. Qed.

Lemma switched_to_fields (p : Z) (q : list Z) (st : kstate) :
  current_process (switched_to p q st) = p /\
  current_directory (switched_to p q st)
  = thread_page_directory (proc_at st p) /\
  process_queue (switched_to p q st) = q /\
  reap_queue (switched_to p q st) = reap_queue st /\
  mem_procs (switched_to p q st) = mem_procs st /\
  mem_kstacks (switched_to p q st) = mem_kstacks st /\
  heap_part (switched_to p q st) = heap_part st /\
  kernel_directory (switched_to p q st) = kernel_directory st /\
  irq (switched_to p q st) = irq st /\
  trace (switched_to p q st)
  = (irq st, EvSetKernelStack (image_stack (proc_at st p))) :: trace st.
Proof. repeat split. Qed.

Lemma switch_next_jump (p : Z) (q : list Z) (st : kstate) :
  process_queue st = p :: q ->
  code_addr < thread_eip (proc_at st p) < end_addr ->
  switch_next st
  = Ok (mk_jump (thread_eip (proc_at st p)) (thread_esp (proc_at st p))
          (thread_ebp (proc_at st p))
          (physical_address (dir_at st (thread_page_directory (proc_at st p))))
          0x10000,
        switched_to p q st).
Proof.
  intros Hq Hcode. unfold switch_next, next_ready_process. rewrite Hq.
  change (thread_eip (proc_at (with_current_process p (with_process_queue q st))
                        (current_process
                           (with_current_process p (with_process_queue q st)))))
    with (thread_eip (proc_at st p)).
  destruct (Z.gtb_spec (thread_eip (proc_at st p)) code_addr); [|lia].
  destruct (Z.ltb_spec (thread_eip (proc_at st p)) end_addr); [|lia].
  reflexivity.
Qed.

Lemma switch_next_halt (p : Z) (q : list Z) (st : kstate) :
  process_queue st = p :: q ->
  ~ code_addr < thread_eip (proc_at st p) < end_addr ->
  switch_next st = Halt.
Proof.
  intros Hq Hcode. unfold switch_next, next_ready_process. rewrite Hq.
  change (thread_eip (proc_at (with_current_process p (with_process_queue q st))
                        (current_process
                           (with_current_process p (with_process_queue q st)))))
    with (thread_eip (proc_at st p)).
  destruct (Z.gtb_spec (thread_eip (proc_at st p)) code_addr);
    destruct (Z.ltb_spec (thread_eip (proc_at st p)) end_addr);
    try reflexivity.
  lia.
Qed.

Lemma yielded_fields (reschedule eip esp ebp : Z) (st : kstate) :
  current_process (yielded reschedule eip esp ebp st) = current_process st /\
  process_queue (yielded reschedule eip esp ebp st)
  = (if reschedule =? 0 then process_queue st
     else process_queue st ++ [current_process st]) /\
  reap_queue (yielded reschedule eip esp ebp st) = reap_queue st /\
  heap_part (yielded reschedule eip esp ebp st) = heap_part st /\
  mem_kstacks (yielded reschedule eip esp ebp st) = mem_kstacks st /\
  irq (yielded reschedule eip esp ebp st) = irq st.
Proof. unfold yielded. destruct (reschedule =? 0); repeat split. Qed.

Lemma yielded_record (reschedule eip esp ebp : Z) (st : kstate) (r : Z) :
  proc_at (yielded reschedule eip esp ebp st) r
  = if decide (r = current_process st)
    then set_thread_ebp ebp
           (set_thread_esp esp (set_thread_eip eip (proc_at st r)))
    else proc_at st r.
Proof.
  assert (H : proc_at (wr_proc (current_process st) (set_thread_ebp ebp)
                         (wr_proc (current_process st) (set_thread_esp esp)
                            (wr_proc (current_process st) (set_thread_eip eip)
                               st))) r
              = if decide (r = current_process st)
                then set_thread_ebp ebp
                       (set_thread_esp esp (set_thread_eip eip (proc_at st r)))
                else proc_at st r).
  { rewrite !proc_at_wr_proc.
    destruct (decide (current_process st = r)) as [->|Hne].
    - destruct (decide (r = r)); [reflexivity | congruence].
    - destruct (decide (r = current_process st)); [congruence | reflexivity]. }
  unfold yielded. destruct (reschedule =? 0); exact H.
Qed.

Lemma switch_task_yields (fuel : nat) (reschedule eip esp ebp : Z)
    (st : kstate) :
  current_process st <> 0 ->
  process_available st = true ->
  eip <> 0x10000 ->
  switch_task fuel reschedule eip esp ebp st
  = match switch_next (yielded reschedule eip esp ebp st) with
    | Ok (j, st') => Switched j st'
    | Halt => Halted
    end.
Proof.
  intros Hcur Hav Heip. unfold switch_task, switch_task_after_read_eip.
  rewrite Hav.
  destruct (Z.eqb_spec (current_process st) 0); [contradiction|].
  destruct (Z.eqb_spec eip 0x10000); [contradiction|].
  reflexivity.
Qed.


Lemma make_process_reapable_fields (proc : Z) (st : kstate) :
  reap_queue (make_process_reapable proc st) = reap_queue st ++ [proc] /\
  current_process (make_process_reapable proc st) = current_process st /\
  mem_procs (make_process_reapable proc st) = mem_procs st /\
  process_queue (make_process_reapable proc st) = process_queue st.
Proof. repeat split. Qed.

Lemma with_reap_queue_frame (v : list Z) (st : kstate) :
  reap_queue (with_reap_queue v st) = v /\
  kernel_directory (with_reap_queue v st) = kernel_directory st /\
  mem_procs (with_reap_queue v st) = mem_procs st /\
  irq (with_reap_queue v st) = irq st /\
  heap_part (with_reap_queue v st) = heap_part st /\
  trace (with_reap_queue v st) = trace st.
Proof. repeat split. Qed.

Lemma wr_proc_queues (a : Z) (f : process_t -> process_t) (st : kstate) :
  reap_queue (wr_proc a f st) = reap_queue st /\
  process_queue (wr_proc a f st) = process_queue st.
Proof. repeat split. Qed.

Lemma switch_next_empty (st : kstate) :
  process_queue st = [] -> switch_next st = Halt.
Proof.
  intros Hq. unfold switch_next, next_ready_process. rewrite Hq. reflexivity.
Qed.

Lemma task_exit_exited (retval : Z) (st : kstate) :
  task_exit retval st = switch_next (exited retval st).
Proof. reflexivity. Qed.

Opaque emit with_current_process with_current_directory with_procs with_dirs
  with_tables with_kstacks with_process_queue with_reap_queue with_irq
  wr_tables wr_physical_tables wr_physical_address wr_page wr_proc
  prepare_child at_read_eip IRQ_RES IRQ_OFF.
Opaque switched_to yielded.

(** ** The scheduler *)

(** X13: [switch_next] hands the processor to the head of the ready queue: it
    becomes the current process, its page directory the current directory,
    [cr3] is loaded with that directory's physical address and the TSS is
    given its kernel stack.  Nothing of the process that was running is
    saved: no process record is written. *)
Theorem switch_next_installs_process (p : Z) (q : list Z) (st : kstate) :
  process_queue st = p :: q ->
  code_addr < thread_eip (proc_at st p) < end_addr ->
  exists (j : jump_t) (st' : kstate),
    switch_next st = Ok (j, st') /\
    j_cr3 j
    = physical_address (dir_at st (thread_page_directory (proc_at st p))) /\
    current_process st' = p /\
    current_directory st' = thread_page_directory (proc_at st p) /\
    process_queue st' = q /\
    trace st'
    = (irq st, EvSetKernelStack (image_stack (proc_at st p))) :: trace st /\
    mem_procs st' = mem_procs st /\
    mem_kstacks st' = mem_kstacks st /\
    heap_part st' = heap_part st /\
    reap_queue st' = reap_queue st /\
    irq st' = irq st.
Proof.
  intros Hq Hcode. eexists _, _.
  split; [exact (switch_next_jump p q st Hq Hcode)|].
  destruct (switched_to_fields p q st)
    as (F1 & F2 & F3 & F4 & F5 & F6 & F7 & F8 & F9 & F10).
  cbn [j_cr3]. auto 12.
Qed.

(** X14: The assertion of [switch_next]: with a process at the head of the ready
    queue, the kernel halts exactly when the saved [eip] of that process is
    not strictly between [code] and [end]. *)
Theorem switch_next_asserts_kernel_text (p : Z) (q : list Z) (st : kstate) :
  process_queue st = p :: q ->
  (switch_next st = Halt <->
   ~ code_addr < thread_eip (proc_at st p) < end_addr).
Proof.
  intros Hq. split.
  - intros Hhalt Hcode. rewrite (switch_next_jump p q st Hq Hcode) in Hhalt.
    discriminate.
  - exact (switch_next_halt p q st Hq).
Qed.

(** What a yielding [switch_task] does, the head of the ready queue being
    another process [p]. *)
Lemma switch_task_switches (fuel : nat) (reschedule eip esp ebp : Z)
    (st : kstate) (p : Z) (q : list Z) :
  current_process st <> 0 ->
  process_queue st = p :: q ->
  eip <> 0x10000 ->
  p <> current_process st ->
  code_addr < thread_eip (proc_at st p) < end_addr ->
  switch_task fuel reschedule eip esp ebp st
  = Switched
      (mk_jump (thread_eip (proc_at st p)) (thread_esp (proc_at st p))
         (thread_ebp (proc_at st p))
         (physical_address (dir_at st (thread_page_directory (proc_at st p))))
         0x10000)
      (switched_to p (if reschedule =? 0 then q else q ++ [current_process st])
         (yielded reschedule eip esp ebp st)).
Proof.
  intros Hcur Hq Heip Hp Hcode.
  rewrite switch_task_yields;
    [|exact Hcur|unfold process_available; rewrite Hq; reflexivity|exact Heip].
  destruct (yielded_fields reschedule eip esp ebp st)
    as (Y1 & Y2 & _ & Y4 & _).
  assert (Hrec : proc_at (yielded reschedule eip esp ebp st) p = proc_at st p).
  { rewrite yielded_record. destruct (decide (p = current_process st));
      [contradiction | reflexivity]. }
  assert (Hq' : process_queue (yielded reschedule eip esp ebp st)
                = p :: (if reschedule =? 0 then q
                        else q ++ [current_process st])).
  { rewrite Y2, Hq. destruct (reschedule =? 0); reflexivity. }
  rewrite (switch_next_jump p _ _ Hq') by (rewrite Hrec; exact Hcode).
  rewrite Hrec. apply heap_part_fields in Y4. destruct Y4 as [Y4 _].
  unfold dir_at. rewrite Y4. reflexivity.
Qed.

(** X15: A [switch_task] that yields to another process [p] at the head of the
    ready queue stores the captured [eip], [esp] and [ebp] in the record of
    the caller and in no other record, puts the caller at the tail of the
    ready queue when [reschedule] is set and leaves it out otherwise, and
    jumps to what [p] had saved, with [0x10000] in [eax]. *)
Theorem switch_task_saves_and_requeues (fuel : nat)
    (reschedule eip esp ebp : Z) (st : kstate) (p : Z) (q : list Z) :
  current_process st <> 0 ->
  process_queue st = p :: q ->
  eip <> 0x10000 ->
  p <> current_process st ->
  code_addr < thread_eip (proc_at st p) < end_addr ->
  exists (j : jump_t) (st' : kstate),
    switch_task fuel reschedule eip esp ebp st = Switched j st' /\
    current_process st' = p /\
    process_queue st'
    = (if reschedule =? 0 then q else q ++ [current_process st]) /\
    proc_at st' (current_process st)
    = set_thread_ebp ebp
        (set_thread_esp esp
           (set_thread_eip eip (proc_at st (current_process st)))) /\
    (forall r, r <> current_process st -> proc_at st' r = proc_at st r) /\
    j_eip j = thread_eip (proc_at st p) /\
    j_esp j = thread_esp (proc_at st p) /\
    j_ebp j = thread_ebp (proc_at st p) /\
    j_eax j = 0x10000.
Proof.
  intros Hcur Hq Heip Hp Hcode. eexists _, _.
  split; [exact (switch_task_switches fuel reschedule eip esp ebp st p q
                   Hcur Hq Heip Hp Hcode)|].
  match goal with
  | |- context [switched_to ?a ?b ?c] =>
    destruct (switched_to_fields a b c) as (F1 & _ & F3 & _ & F5 & _)
  end.
  assert (Hproc : forall r,
             proc_at (switched_to p (if reschedule =? 0 then q
                                     else q ++ [current_process st])
                        (yielded reschedule eip esp ebp st)) r
             = proc_at (yielded reschedule eip esp ebp st) r).
  { intros r. unfold proc_at. rewrite F5. reflexivity. }
  split; [exact F1|]. split; [exact F3|]. split.
  { rewrite Hproc, yielded_record.
    destruct (decide (current_process st = current_process st));
      [reflexivity | congruence]. }
  split.
  { intros r Hr. rewrite Hproc, yielded_record.
    destruct (decide (r = current_process st)); [contradiction | reflexivity]. }
  cbn [j_eip j_esp j_ebp j_eax]. auto.
Qed.

(** X16: Save and restore: what [switch_task] stored for a process that yielded
    with [reschedule] set is what the processor is loaded with when the
    process it yielded to yields in turn, and the sentinel [0x10000] is in
    [eax]. *)
Theorem switch_task_resumes_saved_registers (fuel fuel' : nat)
    (reschedule eip esp ebp reschedule' eip' esp' ebp' : Z) (st : kstate)
    (p : Z) :
  current_process st <> 0 ->
  process_queue st = [p] ->
  p <> 0 ->
  p <> current_process st ->
  reschedule <> 0 ->
  eip <> 0x10000 ->
  eip' <> 0x10000 ->
  code_addr < thread_eip (proc_at st p) < end_addr ->
  code_addr < eip < end_addr ->
  exists (j1 : jump_t) (st1 : kstate) (j2 : jump_t) (st2 : kstate),
    switch_task fuel reschedule eip esp ebp st = Switched j1 st1 /\
    current_process st1 = p /\
    switch_task fuel' reschedule' eip' esp' ebp' st1 = Switched j2 st2 /\
    current_process st2 = current_process st /\
    j_eip j2 = eip /\ j_esp j2 = esp /\ j_ebp j2 = ebp /\ j_eax j2 = 0x10000.
Proof.
  intros Hcur Hq Hp0 Hp Hres Heip Heip' Hcode Hcode'.
  pose proof (switch_task_switches fuel reschedule eip esp ebp st p []
                Hcur Hq Heip Hp Hcode) as H1.
  destruct (Z.eqb_spec reschedule 0) as [|_]; [contradiction|].
  cbn [app] in H1.
  set (st1 := switched_to p [current_process st]
                (yielded reschedule eip esp ebp st)) in *.
  destruct (switched_to_fields p [current_process st]
              (yielded reschedule eip esp ebp st))
    as (F1 & _ & F3 & _ & F5 & _).
  fold st1 in F1, F3, F5.
  assert (Hrec : proc_at st1 (current_process st)
                 = set_thread_ebp ebp
                     (set_thread_esp esp
                        (set_thread_eip eip (proc_at st (current_process st))))).
  { unfold proc_at at 1. rewrite F5.
    change (proc_at (yielded reschedule eip esp ebp st) (current_process st)
            = set_thread_ebp ebp
                (set_thread_esp esp
                   (set_thread_eip eip (proc_at st (current_process st))))).
    rewrite yielded_record.
    destruct (decide (current_process st = current_process st));
      [reflexivity | congruence]. }
  assert (H2 := switch_task_switches fuel' reschedule' eip' esp' ebp' st1
                  (current_process st) []).
  rewrite F1, Hrec in H2. cbn [thread_eip thread_esp thread_ebp
                                 set_thread_ebp set_thread_esp set_thread_eip]
    in H2.
  specialize (H2 Hp0 F3 Heip' (not_eq_sym Hp) Hcode').
  eexists _, st1, _, _.
  split; [exact H1|]. split; [exact F1|]. split; [exact H2|].
  match goal with
  | |- context [switched_to ?a ?b ?c] =>
    destruct (switched_to_fields a b c) as (G1 & _)
  end.
  cbn [j_eip j_esp j_ebp j_eax]. auto.
Qed.

(** ** The cloner and the rest of memory *)

Lemma mirror_bit_keeps (get : page_t -> bool) (set : page_t -> page_t)
    (src table : Z) (i : nat) (st : kstate) (t' : Z) :
  t' <> table ->
  mem_tables (mirror_bit get set src table i st) !! t' = mem_tables st !! t'.
Proof.
  intros H. unfold mirror_bit. destruct (get _); [|reflexivity].
  rewrite mem_tables_wr_page. apply lookup_insert_ne. congruence.
Qed.

Lemma clone_table_body_keeps (src table : Z) (i : nat) (st : kstate) (t' : Z) :
  t' <> table ->
  mem_tables (clone_table_body src table i st) !! t' = mem_tables st !! t'.
Proof.
  intros H. unfold clone_table_body. destruct (_ =? _); [reflexivity|].
  cbv zeta. rewrite mem_tables_emit.
  rewrite !mirror_bit_keeps by exact H.
  rewrite mem_tables_emit, mem_tables_wr_page.
  apply lookup_insert_ne. congruence.
Qed.

(** [clone_table] writes the block the heap hands out and no other table. *)
Lemma clone_table_keeps (src : Z) (st : kstate) (t' : Z) :
  t' <> (kvmalloc_p sizeof_page_table st).1 ->
  mem_tables (clone_table src st).2 !! t' = mem_tables st !! t'.
Proof.
  unfold clone_table. destruct (kvmalloc_p sizeof_page_table st) as [t phys].
  cbn [fst snd]. intros H.
  apply (for_loop_inv (fun _ x => mem_tables x !! t' = mem_tables st !! t')).
  - rewrite mem_tables_with_tables, mem_tables_emit.
    apply lookup_insert_ne. congruence.
  - intros i x _ Hx. rewrite clone_table_body_keeps by exact H. exact Hx.
Qed.

Lemma clone_directory_body_physical_address (src dir : Z) (i : nat)
    (x : kstate) :
  physical_address (dir_at (clone_directory_body src dir i x) dir)
  = physical_address (dir_at x dir).
Proof.
  unfold clone_directory_body.
  destruct (_ || _); [reflexivity|].
  destruct (_ =? _).
  - rewrite dir_at_wr_physical_tables, dir_at_wr_tables.
    destruct (decide (dir = dir)); reflexivity.
  - pose proof (clone_table_dirs (rd_tables x src i) x) as Hd.
    destruct (clone_table _ _) as [[t phys] st1]. cbn [snd] in Hd.
    rewrite dir_at_wr_physical_tables, dir_at_wr_tables.
    destruct (decide (dir = dir)); cbn [physical_address];
      unfold dir_at; rewrite Hd; reflexivity.
Qed.

Lemma clone_directory_records_physical_address (src : Z) (st : kstate) :
  (clone_directory src st).1 = (kvmalloc_p sizeof_page_directory st).1 /\
  physical_address (dir_at (clone_directory src st).2 (clone_directory src st).1)
  = wrap32 ((kvmalloc_p sizeof_page_directory st).2 + offsetof_physical_tables).
Proof.
  destruct (clone_directory_alloc_spec st) as (Hfst & _ & _ & _ & _ & Hdir & _).
  cbv zeta in Hfst, Hdir.
  unfold clone_directory.
  destruct (clone_directory_alloc st) as [dir st0]. cbn [fst snd] in *.
  split; [exact Hfst|]. subst dir.
  transitivity (physical_address
                  (dir_at st0 (kvmalloc_p sizeof_page_directory st).1));
    [|rewrite Hdir; reflexivity].
  apply (for_loop_inv
           (fun _ x =>
              physical_address
                (dir_at x (kvmalloc_p sizeof_page_directory st).1)
              = physical_address
                  (dir_at st0 (kvmalloc_p sizeof_page_directory st).1))).
  - reflexivity.
  - intros i x _ Hx. rewrite clone_directory_body_physical_address. exact Hx.
Qed.

(** X1: The new directory records where its [physical_tables] array lies in
    physical memory: the physical address of the block the heap handed out
    plus the offset of the field, modulo 2^32.  The loop that fills the
    entries does not touch it. *)
Theorem clone_directory_physical_address (src : Z) (st : kstate) :
  (clone_directory src st).1 = (kvmalloc_p sizeof_page_directory st).1 /\
  physical_address (dir_at (clone_directory src st).2 (clone_directory src st).1)
  = wrap32 ((kvmalloc_p sizeof_page_directory st).2 + offsetof_physical_tables).
Proof. apply clone_directory_records_physical_address. Qed.

Lemma clone_directory_body_keeps (src dir : Z) (i : nat) (x : kstate) :
  kvmalloc_fresh ->
  (forall d', d' <> dir ->
     mem_dirs (clone_directory_body src dir i x) !! d' = mem_dirs x !! d') /\
  (forall t, t ∈ dom (mem_tables x) ->
     mem_tables (clone_directory_body src dir i x) !! t = mem_tables x !! t).
Proof.
  intros Hfresh. unfold clone_directory_body.
  destruct (_ || _); [split; reflexivity|].
  destruct (_ =? _).
  - split.
    + intros d' Hd. rewrite mem_dirs_wr_physical_tables_ne by exact Hd.
      apply mem_dirs_wr_tables_ne. exact Hd.
    + intros t _. rewrite mem_tables_wr_physical_tables, mem_tables_wr_tables.
      reflexivity.
  - pose proof (clone_table_dirs (rd_tables x src i) x) as Hd.
    pose proof (clone_table_keeps (rd_tables x src i) x) as Ht.
    destruct (Hfresh sizeof_page_table x) as (_ & _ & Hnew & _).
    destruct (clone_table _ _) as [[t phys] st1]. cbn [snd] in Hd, Ht.
    split.
    + intros d' Hd'. rewrite mem_dirs_wr_physical_tables_ne by exact Hd'.
      rewrite mem_dirs_wr_tables_ne by exact Hd'. rewrite Hd. reflexivity.
    + intros t' Hin.
      rewrite mem_tables_wr_physical_tables, mem_tables_wr_tables.
      apply Ht. intros E. apply Hnew. rewrite <- E. exact Hin.
Qed.

(** X2: [clone_directory] writes to the blocks the heap hands it and to nothing
    else: every directory and every table that was in memory is as it was,
    the source included, and so is the scheduler's part of the state.  The
    heap hands out blocks that are not in use. *)
Theorem clone_directory_writes_fresh_blocks_only (src : Z) (st : kstate) :
  kvmalloc_fresh ->
  sched_part (clone_directory src st).2 = sched_part st /\
  (forall d, d ∈ dom (mem_dirs st) ->
     mem_dirs (clone_directory src st).2 !! d = mem_dirs st !! d) /\
  (forall t, t ∈ dom (mem_tables st) ->
     mem_tables (clone_directory src st).2 !! t = mem_tables st !! t).
Proof.
  intros Hfresh. split; [apply clone_directory_sched|].
  destruct (Hfresh sizeof_page_directory st) as (_ & _ & _ & Hnew).
  destruct (clone_directory_alloc_spec st) as (Hfst & _ & Htab & Hoth & _).
  cbv zeta in Hfst, Htab, Hoth.
  unfold clone_directory.
  destruct (clone_directory_alloc st) as [dir st0]. cbn [fst snd] in *.
  subst dir.
  set (dir := (kvmalloc_p sizeof_page_directory st).1) in *.
  assert (Hinv :
    (forall d', d' <> dir ->
       mem_dirs (for_loop 1024 (clone_directory_body src dir) st0) !! d'
       = mem_dirs st0 !! d') /\
    (forall t, t ∈ dom (mem_tables st0) ->
       mem_tables (for_loop 1024 (clone_directory_body src dir) st0) !! t
       = mem_tables st0 !! t)).
  { apply (for_loop_inv
             (fun _ x =>
                (forall d', d' <> dir -> mem_dirs x !! d' = mem_dirs st0 !! d') /\
                (forall t, t ∈ dom (mem_tables st0) ->
                   mem_tables x !! t = mem_tables st0 !! t))).
    - split; reflexivity.
    - intros i x _ [Hd Ht].
      destruct (clone_directory_body_keeps src dir i x Hfresh) as [Kd Kt].
      split.
      + intros d' Hd'. rewrite Kd by exact Hd'. apply Hd. exact Hd'.
      + intros t Hin. rewrite Kt; [apply Ht; exact Hin|].
        apply elem_of_dom. rewrite Ht by exact Hin.
        apply elem_of_dom. exact Hin. }
  destruct Hinv as [Hd Ht]. split.
  - intros d Hin.
    assert (Hne : d <> dir) by (intros E; apply Hnew; rewrite <- E; exact Hin).
    rewrite Hd by exact Hne. apply Hoth. exact Hne.
  - intros t Hin. rewrite Htab in Ht. exact (Ht t Hin).
Qed.

(** X3: Cloning the kernel directory itself takes one block from the heap, the
    new directory: every entry is empty, the sentinel or shared, so no table
    is cloned and no frame allocated. *)
Theorem clone_directory_of_kernel_directory (st : kstate) :
  trace (clone_directory (kernel_directory st) st).2
  = (irq st, EvKvmalloc sizeof_page_directory
               (kvmalloc_p sizeof_page_directory st).1
               (kvmalloc_p sizeof_page_directory st).2) :: trace st /\
  mem_tables (clone_directory (kernel_directory st) st).2 = mem_tables st.
Proof.
  destruct (clone_directory_alloc_spec st)
    as (_ & Hsched & Htab & _ & _ & _ & Htr).
  cbv zeta in Hsched, Htab, Htr.
  unfold clone_directory.
  destruct (clone_directory_alloc st) as [dir st0]. cbn [fst snd] in *.
  rewrite <- Htr, <- Htab.
  assert (Hk0 : kernel_directory st0 = kernel_directory st)
    by (apply sched_part_kernel_directory; exact Hsched).
  assert (Hinv :
    trace (for_loop 1024 (clone_directory_body (kernel_directory st) dir) st0)
    = trace st0 /\
    mem_tables (for_loop 1024 (clone_directory_body (kernel_directory st) dir)
                  st0)
    = mem_tables st0 /\
    kernel_directory
      (for_loop 1024 (clone_directory_body (kernel_directory st) dir) st0)
    = kernel_directory st).
  { apply (for_loop_inv
             (fun _ x => trace x = trace st0 /\ mem_tables x = mem_tables st0 /\
                         kernel_directory x = kernel_directory st)).
    - auto.
    - intros i x _ (Ht & Hm & Hk). unfold clone_directory_body.
      destruct (_ || _); [auto|]. rewrite Hk, Z.eqb_refl.
      rewrite trace_wr_physical_tables, trace_wr_tables.
      rewrite mem_tables_wr_physical_tables, mem_tables_wr_tables.
      split; [exact Ht|]. split; [exact Hm|]. rewrite <- Hk.
      apply sched_part_kernel_directory.
      rewrite sched_part_wr_physical_tables, sched_part_wr_tables.
      reflexivity. }
  destruct Hinv as (Ht & Hm & _). auto.
Qed.

(** ** What [free_directory] and [reap_process] release *)

Lemma dir_summary_heap (x y : kstate) (d : Z) (n : nat) :
  heap_part y = heap_part x -> kernel_directory y = kernel_directory x ->
  dir_frames y d n = dir_frames x d n /\ dir_blocks y d n = dir_blocks x d n.
Proof.
  intros Hh Hk. apply dir_summary_agree. intros j _.
  rewrite Hk, !(heap_part_rd_tables x y) by exact Hh.
  split; [reflexivity|]. split; [reflexivity|].
  intros _ k. apply heap_part_rd_page. exact Hh.
Qed.

(** X4: A directory with no table of its own (every entry empty, the sentinel
    or shared with the kernel directory) is freed by freeing its block:
    [free_frame] is not called, and no table is passed to [free]. *)
Theorem free_directory_without_own_tables (dir : Z) (st : kstate) :
  (forall i, (i < 1024)%nat -> owned st dir i = false) ->
  free_directory dir st = free dir st.
Proof.
  intros Hown. unfold free_directory. f_equal.
  apply (for_loop_inv (fun _ x => x = st)); [reflexivity|].
  intros i x Hi ->. specialize (Hown i Hi). unfold owned in Hown.
  unfold free_directory_body.
  destruct (_ || _); [reflexivity|].
  destruct (_ =? _); [reflexivity | discriminate].
Qed.

(** The calls of [reap_process], newest first. *)
Lemma reap_process_trace (proc : Z) (st : kstate) :
  exists given : list (bool * event),
    trace (reap_process proc st)
    = (irq st, EvFree (fds_entries (proc_at st proc))) :: given
      ++ [(irq st, EvFree (wrap32 (image_stack (proc_at st proc)
                                   - KERNEL_STACK_SIZE)));
          (irq st, EvFree (wait_queue (proc_at st proc)));
          (irq st, EvListFree (wait_queue (proc_at st proc)))]
      ++ trace st /\
    freed_frames given
    = dir_frames st (thread_page_directory (proc_at st proc)) 1024 /\
    freed_blocks given
    = thread_page_directory (proc_at st proc)
      :: dir_blocks st (thread_page_directory (proc_at st proc)) 1024.
Proof.
  unfold reap_process, free, list_free. cbv zeta.
  rewrite !proc_at_emit.
  set (wq := wait_queue (proc_at st proc)).
  set (base := wrap32 (image_stack (proc_at st proc) - KERNEL_STACK_SIZE)).
  set (st3 := emit (EvFree base) (emit (EvFree wq) (emit (EvListFree wq) st))).
  assert (Hs3 : sched_part st3 = sched_part st)
    by (subst st3; rewrite !sched_part_emit; reflexivity).
  assert (Hh3 : heap_part st3 = heap_part st)
    by (subst st3; rewrite !heap_part_emit; reflexivity).
  destruct (free_directory_frame (thread_page_directory (proc_at st proc)) st3)
    as [Hsf _].
  rewrite (sched_part_proc_at st3 _ proc Hsf), (sched_part_proc_at st st3 proc Hs3).
  destruct (free_directory_calls (thread_page_directory (proc_at st proc)) st3)
    as (given & T & F & B).
  destruct (dir_summary_heap st st3 (thread_page_directory (proc_at st proc))
              1024 Hh3 (sched_part_kernel_directory _ _ Hs3)) as [D1 D2].
  exists given. rewrite trace_emit, T.
  rewrite (sched_part_irq _ _ Hsf), (sched_part_irq _ _ Hs3).
  split.
  - subst st3. rewrite !trace_emit.
    assert (I1 : irq (emit (EvListFree wq) st) = irq st)
      by (apply sched_part_irq; apply sched_part_emit).
    assert (I2 : irq (emit (EvFree wq) (emit (EvListFree wq) st)) = irq st)
      by (apply sched_part_irq; rewrite !sched_part_emit; reflexivity).
    rewrite I1, I2. reflexivity.
  - rewrite F, B, D1, D2. split; reflexivity.
Qed.

(** X6: [reap_process] reads the process record and writes no memory.  Its
    calls, first to last: [list_free] and [free] on the wait queue, [free]
    on the base of the kernel stack ([image.stack - KERNEL_STACK_SIZE]
    modulo 2^32), the calls of [free_directory] on the page directory
    (the frames and tables the directory owns, then the directory), [free]
    on the descriptor table.  All are made under the interrupt flag of the
    caller. *)
Theorem reap_process_releases_in_order (proc : Z) (st : kstate) :
  sched_part (reap_process proc st) = sched_part st /\
  heap_part (reap_process proc st) = heap_part st /\
  exists given : list (bool * event),
    trace (reap_process proc st)
    = (irq st, EvFree (fds_entries (proc_at st proc))) :: given
      ++ [(irq st, EvFree (wrap32 (image_stack (proc_at st proc)
                                   - KERNEL_STACK_SIZE)));
          (irq st, EvFree (wait_queue (proc_at st proc)));
          (irq st, EvListFree (wait_queue (proc_at st proc)))]
      ++ trace st /\
    freed_frames given
    = dir_frames st (thread_page_directory (proc_at st proc)) 1024 /\
    freed_blocks given
    = thread_page_directory (proc_at st proc)
      :: dir_blocks st (thread_page_directory (proc_at st proc)) 1024.
Proof.
  destruct (reap_process_frame proc st) as [Hs Hh].
  split; [exact Hs|]. split; [exact Hh|]. apply reap_process_trace.
Qed.

(** ** More on [fork] and [clone] *)

(** A call of [fork] that returns, step by step. *)
Lemma fork_ok_shape (eip esp ebp : Z) (st : kstate) (pid : Z) (st' : kstate) :
  fork eip esp ebp st = Ok (pid, st') ->
  exists (directory : Z) (st1 : kstate) (child : Z) (rec : process_t),
    clone_directory (current_directory st) (IRQ_OFF st) = (directory, st1) /\
    spawn_process_record (current_process st) st1 = (child, rec) /\
    st' = IRQ_RES (prepare_child child eip esp ebp
                     (at_read_eip ebp (current_process st) directory child rec
                        st1)) /\
    pid = id (proc_at st' child).
Proof.
  intros H. destruct (fork_ok_inv _ _ _ _ _ _ H)
    as (st_f & directory & child & Hb & Hfr & -> & ->).
  destruct (fork_before_read_eip_inv _ _ _ Hb)
    as (d & st1 & np & rec & Hcd & Hsp & _ & _ & _ & _ & ->).
  rewrite at_read_eip_frame in Hfr.
  apply (f_equal fr_new_proc) in Hfr. cbn in Hfr. subst child.
  exists d, st1, np, rec. auto.
Qed.

Lemma clone_ok_shape (stack_top stack_old eip esp ebp : Z) (st : kstate)
    (pid : Z) (st' : kstate) :
  clone stack_top stack_old eip esp ebp st = Ok (pid, st') ->
  exists (st1 : kstate) (child : Z) (rec : process_t),
    st1 = emit (EvKprintf
                  (regs_esp (syscall_registers (proc_at st (current_process st)))
                     st)) st /\
    spawn_process_record (current_process st) st1 = (child, rec) /\
    st' = prepare_child child eip esp ebp
            (at_read_eip ebp (current_process st) (current_directory st) child rec
               st1) /\
    pid = id (proc_at st' child).
Proof.
  intros H. destruct (clone_ok_inv _ _ _ _ _ _ _ _ H)
    as (st_f & directory & child & Hb & Hfr & -> & ->).
  destruct (clone_before_read_eip_inv _ _ _ _ _ Hb)
    as (np & rec & st1 & Hst1 & Hsp & _ & _ & ->).
  rewrite at_read_eip_frame in Hfr.
  apply (f_equal fr_new_proc) in Hfr. cbn in Hfr. subst child.
  exists st1, np, rec. auto.
Qed.

(** The record of the child as the parent branch leaves it. *)
Lemma child_record (parent directory child eip esp ebp : Z) (rec : process_t)
    (st1 : kstate) :
  let st_f := at_read_eip ebp parent directory child rec st1 in
  let new := proc_at (prepare_child child eip esp ebp st_f) child in
  thread_page_directory new = directory /\
  thread_eip new = eip /\
  id new = id rec /\
  image_stack new = image_stack rec /\
  wait_queue new = wait_queue rec /\
  fds_entries new = fds_entries rec.
Proof.
  cbv zeta. rewrite prepare_child_record. cbv zeta.
  rewrite !at_read_eip_child. repeat split.
Qed.



(** X8: [fork] and [clone] write one process record, the child's: every other
    record is as it was, and so are the current process, the current
    directory, the kernel directory and the reapable queue. *)
Theorem fork_clone_write_child_record_only
    (stack_top stack_old eip esp ebp : Z) (st : kstate) (pid : Z)
    (st' : kstate) :
  fork eip esp ebp st = Ok (pid, st') \/
  clone stack_top stack_old eip esp ebp st = Ok (pid, st') ->
  exists child : Z,
    process_queue st' = process_queue st ++ [child] /\
    (forall r, r <> child -> proc_at st' r = proc_at st r) /\
    current_process st' = current_process st /\
    current_directory st' = current_directory st /\
    kernel_directory st' = kernel_directory st /\
    reap_queue st' = reap_queue st.
Proof.
  intros [H|H].
  - destruct (fork_ok_shape _ _ _ _ _ _ H)
      as (directory & st1 & child & rec & Hcd & Hsp & -> & _).
    pose proof (clone_directory_sched (current_directory st) (IRQ_OFF st)) as Hs.
    rewrite Hcd in Hs. cbn [snd] in Hs.
    pose proof (sched_part_fields _ _ Hs)
      as (S1 & S2 & S3 & S4 & S5 & S6 & S7 & S8).
    destruct (IRQ_OFF_frame st) as (_ & O2 & O3 & O4 & O5).
    rewrite current_process_IRQ_OFF in S1.
    rewrite process_queue_IRQ_OFF in S6.
    match goal with
    | |- context [IRQ_RES ?x] =>
      destruct (IRQ_RES_frame x) as (_ & R2 & R3 & _ & R5)
    end.
    match goal with
    | |- context [prepare_child ?a ?b ?c ?d ?x] =>
      destruct (prepare_child_paging a b c d x) as (_ & P2 & P3 & P4)
    end.
    match goal with
    | |- context [at_read_eip ?e ?a ?b ?c ?d ?x] =>
      destruct (at_read_eip_paging e a b c d x) as (_ & A2 & A3 & A4)
    end.
    exists child.
    rewrite process_queue_IRQ_RES, prepare_child_queue, at_read_eip_queue, S6.
    split; [reflexivity|]. split.
    { intros r Hr. rewrite proc_at_IRQ_RES, prepare_child_others by exact Hr.
      rewrite at_read_eip_others by exact Hr.
      rewrite (sched_part_proc_at _ _ r Hs). apply proc_at_IRQ_OFF. }
    rewrite current_process_IRQ_RES, prepare_child_current, at_read_eip_current.
    rewrite R2, R3, R5, P2, P3, P4, A2, A3, A4, S2, S3, S7, O2, O3, O5.
    auto.
  - destruct (clone_ok_shape _ _ _ _ _ _ _ _ H)
      as (st1 & child & rec & Hst1 & Hsp & -> & _).
    match goal with
    | |- context [prepare_child ?a ?b ?c ?d ?x] =>
      destruct (prepare_child_paging a b c d x) as (_ & P2 & P3 & P4)
    end.
    match goal with
    | |- context [at_read_eip ?e ?a ?b ?c ?d ?x] =>
      destruct (at_read_eip_paging e a b c d x) as (_ & A2 & A3 & A4)
    end.
    assert (Hs : sched_part st1 = sched_part st)
      by (rewrite Hst1; apply sched_part_emit).
    pose proof (sched_part_fields _ _ Hs)
      as (S1 & S2 & S3 & S4 & S5 & S6 & S7 & S8).
    exists child.
    rewrite prepare_child_queue, at_read_eip_queue, S6.
    split; [reflexivity|]. split.
    { intros r Hr. rewrite prepare_child_others by exact Hr.
      rewrite at_read_eip_others by exact Hr.
      apply (sched_part_proc_at _ _ r Hs). }
    rewrite prepare_child_current, at_read_eip_current.
    rewrite P2, P3, P4, A2, A3, A4, S1, S2, S3, S7. auto.
Qed.

(** X10: The child of [clone] is a thread of the caller: its page directory is
    the caller's current directory itself, and no directory or table is
    allocated, written or copied. *)
Theorem clone_shares_address_space (stack_top stack_old eip esp ebp : Z)
    (st : kstate) (pid : Z) (st' : kstate) :
  clone stack_top stack_old eip esp ebp st = Ok (pid, st') ->
  exists child : Z,
    process_queue st' = process_queue st ++ [child] /\
    thread_page_directory (proc_at st' child) = current_directory st /\
    heap_part st' = heap_part st /\
    exists calls : list (bool * event),
      trace st' = calls ++ trace st /\
      Forall (fun e => ~ is_paging_call e) calls.
Proof.
  intros H.
  destruct (clone_leaves_interrupts _ _ _ _ _ _ _ _ H) as (_ & c & r & Htr).
  destruct (clone_ok_shape _ _ _ _ _ _ _ _ H)
    as (st1 & child & rec & Hst1 & Hsp & -> & _).
  exists child.
  destruct (child_record (current_process st) (current_directory st) child
              eip esp ebp rec st1) as (C1 & _).
  cbv zeta in C1.
  match goal with
  | |- context [prepare_child ?a ?b ?c ?d ?x] =>
    destruct (prepare_child_paging a b c d x) as (P1 & _)
  end.
  match goal with
  | |- context [at_read_eip ?e ?a ?b ?c ?d ?x] =>
    destruct (at_read_eip_paging e a b c d x) as (A1 & _)
  end.
  split.
  { rewrite prepare_child_queue, at_read_eip_queue, Hst1. kst. reflexivity. }
  split; [exact C1|]. split.
  { rewrite P1, A1, Hst1. apply heap_part_emit. }
  eexists [_; _; _; _]. split; [exact Htr|].
  repeat constructor; intros E; exact E.
Qed.

(** ** The life of a forked child *)

(** X11: The child of [fork] runs in the clone: forked from a state with an
    empty ready queue, the child is what [switch_next] picks next; it
    resumes at the [eip] its parent read, with [0x10000] in [eax], in the
    directory [clone_directory] built (the current directory, and in [cr3]
    the physical address that directory recorded), and [getpid] there
    returns the pid [fork] returned to the parent. *)
Theorem fork_child_runs_in_clone (eip esp ebp : Z) (st : kstate) (pid : Z)
    (st' : kstate) :
  fork eip esp ebp st = Ok (pid, st') ->
  process_queue st = [] ->
  code_addr < eip < end_addr ->
  exists (child : Z) (j : jump_t) (st3 : kstate),
    switch_next st' = Ok (j, st3) /\
    current_process st3 = child /\
    getpid st3 = pid /\
    current_directory st3 = (kvmalloc_p sizeof_page_directory (IRQ_OFF st)).1 /\
    j_cr3 j = wrap32 ((kvmalloc_p sizeof_page_directory (IRQ_OFF st)).2
                      + offsetof_physical_tables) /\
    j_eip j = eip /\
    j_eax j = 0x10000.
Proof.
  intros H Hq Hcode.
  destruct (fork_ok_shape _ _ _ _ _ _ H)
    as (directory & st1 & child & rec & Hcd & Hsp & Hst' & Hpid).
  destruct (child_record (current_process st) directory child eip esp ebp rec
              st1) as (C1 & C2 & _).
  cbv zeta in C1, C2.
  set (st_f := at_read_eip ebp (current_process st) directory child rec st1) in *.
  assert (Hrec : proc_at st' child
                 = proc_at (prepare_child child eip esp ebp st_f) child)
    by (rewrite Hst'; apply proc_at_IRQ_RES).
  assert (Hq' : process_queue st' = child :: []).
  { rewrite Hst', process_queue_IRQ_RES, prepare_child_queue.
    rewrite (fork_before_read_eip_queue ebp st st_f), Hq; [reflexivity|].
    unfold fork in H.
    destruct (fork_before_read_eip ebp st) as [s|] eqn:Hb; [|discriminate].
    destruct (fork_before_read_eip_inv _ _ _ Hb)
      as (d & s1 & np & r & Hcd' & Hsp' & _ & _ & _ & _ & ->).
    rewrite Hcd in Hcd'. injection Hcd' as <- <-.
    rewrite Hsp in Hsp'. injection Hsp' as <- <-. reflexivity. }
  assert (Heip : code_addr < thread_eip (proc_at st' child) < end_addr)
    by (rewrite Hrec, C2; exact Hcode).
  exists child. eexists _, _.
  split; [exact (switch_next_jump child [] st' Hq' Heip)|].
  destruct (switched_to_fields child [] st')
    as (F1 & F2 & _ & _ & F5 & _).
  assert (Hdir : directory = (kvmalloc_p sizeof_page_directory (IRQ_OFF st)).1).
  { pose proof (clone_directory_fst (current_directory st) (IRQ_OFF st)) as E.
    rewrite Hcd in E. exact E. }
  split; [exact F1|]. split.
  { unfold getpid. rewrite F1. unfold proc_at at 1. rewrite F5.
    symmetry. exact Hpid. }
  split; [rewrite F2, Hrec, C1; exact Hdir|].
  cbn [j_cr3 j_eip j_eax]. rewrite Hrec, C1, C2.
  split; [|auto].
  destruct (clone_directory_records_physical_address (current_directory st)
              (IRQ_OFF st))
    as [_ Hpa].
  rewrite Hcd in Hpa. cbn [fst snd] in Hpa. rewrite <- Hpa.
  assert (Hh : heap_part st' = heap_part st1).
  { rewrite Hst'.
    destruct (IRQ_RES_frame (prepare_child child eip esp ebp st_f)) as (-> & _).
    destruct (prepare_child_paging child eip esp ebp st_f) as (-> & _).
    subst st_f. apply at_read_eip_paging. }
  apply heap_part_fields in Hh. destruct Hh as [Hh _].
  unfold dir_at. rewrite Hh. reflexivity.
Qed.

(** X12: From [fork] to the reaper: the frames [reap_process] hands back for the
    child are the frames [fork] took for it, in the same order, and the
    blocks it hands back from the child's page directory are the directory
    and the tables [fork] took from the heap.  Memory is well formed (the
    current and the kernel directory and the tables they reference are in
    memory) and the allocators honour their contracts. *)
Theorem fork_then_reap_returns_clone (eip esp ebp : Z) (st : kstate) (pid : Z)
    (st' : kstate) :
  kvmalloc_fresh -> alloc_frame_nonzero ->
  current_directory st ∈ dom (mem_dirs st) ->
  kernel_directory st ∈ dom (mem_dirs st) ->
  (forall i, (i < 1024)%nat ->
     live_table st (rd_tables st (current_directory st) i)) ->
  (forall i, (i < 1024)%nat ->
     live_table st (rd_tables st (kernel_directory st) i)) ->
  fork eip esp ebp st = Ok (pid, st') ->
  exists (child : Z) (taken given : list (bool * event)) (cloned : list Z),
    process_queue st' = process_queue st ++ [child] /\
    trace st' = taken ++ trace st /\
    allocated_blocks taken
    = cloned ++ [thread_page_directory (proc_at st' child)] /\
    trace (reap_process child st')
    = (irq st', EvFree (fds_entries (proc_at st' child))) :: given
      ++ [(irq st', EvFree (wrap32 (image_stack (proc_at st' child)
                                    - KERNEL_STACK_SIZE)));
          (irq st', EvFree (wait_queue (proc_at st' child)));
          (irq st', EvListFree (wait_queue (proc_at st' child)))]
      ++ trace st' /\
    freed_frames given = allocated_frames taken /\
    freed_blocks given = thread_page_directory (proc_at st' child) :: cloned.
Proof.
  intros Hfresh Hframe Hsrc Hker Hlive_src Hlive_ker H.
  destruct (fork_ok_shape _ _ _ _ _ _ H)
    as (directory & st1 & child & rec & Hcd & Hsp & Hst' & Hpid).
  destruct (child_record (current_process st) directory child eip esp ebp rec
              st1) as (C1 & _).
  cbv zeta in C1.
  set (st_f := at_read_eip ebp (current_process st) directory child rec st1) in *.
  assert (Hrec : proc_at st' child
                 = proc_at (prepare_child child eip esp ebp st_f) child)
    by (rewrite Hst'; apply proc_at_IRQ_RES).
  (* the paging structures as [IRQ_OFF] leaves them are those of [st] *)
  destruct (IRQ_OFF_frame st) as (O1 & O2 & O3 & _).
  pose proof (heap_part_fields _ _ O1) as [Od Ot].
  assert (Hrd : forall d i, rd_tables (IRQ_OFF st) d i = rd_tables st d i)
    by (intros d i; apply heap_part_rd_tables; exact O1).
  assert (Hlive : forall t, live_table st t -> live_table (IRQ_OFF st) t).
  { intros t. unfold live_table. rewrite Ot. auto. }
  destruct (clone_directory_heap_spec (current_directory st) (IRQ_OFF st)
              Hfresh Hframe) as [Hfst Hinv].
  { rewrite Od. exact Hsrc. }
  { rewrite O2, Od. exact Hker. }
  { intros i Hi. rewrite Hrd. apply Hlive, Hlive_src. exact Hi. }
  { intros i Hi. rewrite O2, Hrd. apply Hlive, Hlive_ker. exact Hi. }
  destruct (clone_directory_alloc_spec (IRQ_OFF st))
    as (_ & _ & _ & _ & _ & _ & Htr0).
  cbv zeta in Htr0.
  rewrite Hcd in Hfst, Hinv. cbn [fst snd] in Hfst, Hinv.
  rewrite <- Hfst in Hinv, Htr0.
  destruct Hinv as [_ _ _ (evs & Htr & Haf & Hab)].
  (* the state [fork] returns in has the paging structures of [st1] *)
  assert (Hh : heap_part st' = heap_part st1).
  { rewrite Hst'.
    destruct (IRQ_RES_frame (prepare_child child eip esp ebp st_f)) as (-> & _).
    destruct (prepare_child_paging child eip esp ebp st_f) as (-> & _).
    subst st_f. apply at_read_eip_paging. }
  assert (Hk : kernel_directory st' = kernel_directory st1).
  { rewrite Hst'.
    destruct (IRQ_RES_frame (prepare_child child eip esp ebp st_f))
      as (_ & -> & _).
    destruct (prepare_child_paging child eip esp ebp st_f) as (_ & -> & _).
    subst st_f. apply at_read_eip_paging. }
  destruct (dir_summary_heap st1 st' directory 1024 Hh Hk) as [D1 D2].
  destruct (reap_process_trace child st') as (given & Tg & Fg & Bg).
  rewrite Hrec, C1 in Fg, Bg.
  pose proof (clone_directory_sched (current_directory st) (IRQ_OFF st)) as Hs.
  rewrite Hcd in Hs. cbn [snd] in Hs.
  pose proof (sched_part_irq _ _ Hs) as Hirq1. rewrite irq_IRQ_OFF in Hirq1.
  exists child,
    ([(false, EvIrqRes); (false, EvMakeReady child);
      (false, EvSetEnv child directory);
      (false, EvSpawn (current_process st) child)]
     ++ evs
     ++ [(false, EvKvmalloc sizeof_page_directory directory
                   (kvmalloc_p sizeof_page_directory (IRQ_OFF st)).2);
         (irq st, EvIrqOff)]),
    given, (dir_blocks st1 directory 1024).
  split.
  { rewrite Hst', process_queue_IRQ_RES, prepare_child_queue.
    subst st_f. rewrite at_read_eip_queue.
    apply sched_part_fields in Hs.
    destruct Hs as (_ & _ & _ & _ & _ & -> & _).
    rewrite process_queue_IRQ_OFF. reflexivity. }
  split.
  { rewrite Hst', trace_IRQ_RES, prepare_child_irq, prepare_child_trace.
    subst st_f. rewrite at_read_eip_irq, at_read_eip_trace, Hirq1.
    rewrite Htr, Htr0, irq_IRQ_OFF, trace_IRQ_OFF.
    cbn [app]. rewrite <- app_assoc. reflexivity. }
  split.
  { rewrite Hrec, C1. cbn [app].
    change (allocated_blocks (?a :: ?b :: ?c :: ?d :: ?l))
      with (allocated_blocks l).
    rewrite allocated_blocks_app, Hab. f_equal. }
  split; [exact Tg|].
  split.
  { rewrite Fg, D1. cbn [app].
    change (allocated_frames (?a :: ?b :: ?c :: ?d :: ?l))
      with (allocated_frames l).
    rewrite allocated_frames_app, Haf.
    change (allocated_frames [_; _]) with (@nil Z).
    rewrite app_nil_r. reflexivity. }
  rewrite Bg, D2, Hrec, C1. reflexivity.
Qed.

(** X9: The critical section of [fork]: interrupts are disabled first, every
    call of the cloner, [spawn_process], [set_process_environment] and
    [make_process_ready] is made with interrupts disabled, in this order,
    and interrupts are enabled last, after the child is on the ready
    queue. *)
Theorem fork_critical_section (eip esp ebp : Z) (st : kstate) (pid : Z)
    (st' : kstate) :
  fork eip esp ebp st = Ok (pid, st') ->
  exists (child directory : Z) (paging : list (bool * event)),
    trace st'
    = (false, EvIrqRes) :: (false, EvMakeReady child)
        :: (false, EvSetEnv child directory)
        :: (false, EvSpawn (current_process st) child)
        :: paging ++ (irq st, EvIrqOff) :: trace st /\
    Forall (paging_call_at false) paging /\
    irq st' = true.
Proof. apply fork_keeps_interrupts_off. Qed.

(** ** Exit and reap *)

Lemma switch_next_ok_inv (st : kstate) (j : jump_t) (st' : kstate) :
  switch_next st = Ok (j, st') ->
  exists (p : Z) (q : list Z),
    process_queue st = p :: q /\
    code_addr < thread_eip (proc_at st p) < end_addr /\
    j = mk_jump (thread_eip (proc_at st p)) (thread_esp (proc_at st p))
          (thread_ebp (proc_at st p))
          (physical_address (dir_at st (thread_page_directory (proc_at st p))))
          0x10000 /\
    st' = switched_to p q st.
Proof.
  intros H. destruct (process_queue st) as [|p q] eqn:Hq.
  { rewrite (switch_next_empty st Hq) in H. discriminate. }
  destruct (decide (code_addr < thread_eip (proc_at st p) < end_addr))
    as [Hcode|Hcode].
  - rewrite (switch_next_jump p q st Hq Hcode) in H. injection H as <- <-.
    exists p, q. auto.
  - rewrite (switch_next_halt p q st Hq Hcode) in H. discriminate.
Qed.

Lemma exited_fields (retval : Z) (st : kstate) :
  wakeup_queue_frame ->
  current_process (exited retval st) = current_process st /\
  reap_queue (exited retval st) = reap_queue st ++ [current_process st] /\
  forall r,
    proc_at (exited retval st) r
    = if decide (r = current_process st)
      then set_finished 1 (set_status retval (proc_at st r))
      else proc_at st r.
Proof.
  intros Hw. unfold exited. cbv zeta.
  rewrite !current_process_wr_proc.
  set (st2 := wr_proc (current_process st) (set_finished 1)
                (wr_proc (current_process st) (set_status retval) st)).
  set (w := wakeup_queue (wait_queue (proc_at st2 (current_process st))) st2).
  destruct (Hw (wait_queue (proc_at st2 (current_process st))) st2)
    as (W1 & W2 & W3).
  fold w in W1, W2, W3.
  assert (Hc2 : current_process st2 = current_process st)
    by (subst st2; rewrite !current_process_wr_proc; reflexivity).
  rewrite W1, Hc2.
  destruct (make_process_reapable_fields (current_process st) w)
    as (M1 & M2 & M3 & _).
  split; [rewrite M2, W1; exact Hc2|].
  split.
  { rewrite M1, W3. subst st2.
    destruct (wr_proc_queues (current_process st) (set_finished 1)
                (wr_proc (current_process st) (set_status retval) st))
      as [-> _].
    destruct (wr_proc_queues (current_process st) (set_status retval) st)
      as [-> _].
    reflexivity. }
  intros r. unfold proc_at at 1. rewrite M3, W2.
  change (proc_at st2 r
          = if decide (r = current_process st)
            then set_finished 1 (set_status retval (proc_at st r))
            else proc_at st r).
  subst st2. rewrite !proc_at_wr_proc.
  destruct (decide (current_process st = r)) as [->|Hne].
  - destruct (decide (r = r)); [reflexivity | congruence].
  - destruct (decide (r = current_process st)); [congruence | reflexivity].
Qed.

Lemma task_exit_record_and_queue (retval : Z) (st : kstate)
    (j : jump_t) (st' : kstate) :
  wakeup_queue_frame ->
  task_exit retval st = Ok (j, st') ->
  proc_at st' (current_process st)
  = set_finished 1 (set_status retval (proc_at st (current_process st))) /\
  reap_queue st' = reap_queue st ++ [current_process st].
Proof.
  intros Hw H. rewrite task_exit_exited in H.
  destruct (switch_next_ok_inv _ _ _ H) as (p & q & Hq & _ & -> & ->).
  destruct (exited_fields retval st Hw) as (E1 & E2 & E3).
  destruct (switched_to_fields p q (exited retval st))
    as (F1 & _ & _ & F4 & F5 & _).
  split; [|rewrite F4; exact E2].
  unfold proc_at at 1. rewrite F5.
  change (proc_at (exited retval st) (current_process st)
          = set_finished 1 (set_status retval (proc_at st (current_process st)))).
  rewrite E3.
  destruct (decide (current_process st = current_process st));
    [reflexivity | congruence].
Qed.

(** X17: [task_exit] records the return value in [status] and sets [finished]
    in the record of the caller, writes no other record, and appends the
    caller to the reapable queue; then it leaves through [switch_next].
    Nothing of the caller is saved: its [thread.eip], [thread.esp] and
    [thread.ebp] are as they were, and the jump goes to what the next
    process had saved.  [wakeup_queue] leaves the current process, the
    process records and the reapable queue alone. *)
Theorem task_exit_marks_finished_and_reapable (retval : Z) (st : kstate)
    (j : jump_t) (st' : kstate) :
  wakeup_queue_frame ->
  task_exit retval st = Ok (j, st') ->
  proc_at st' (current_process st)
  = set_finished 1 (set_status retval (proc_at st (current_process st))) /\
  (forall r, r <> current_process st -> proc_at st' r = proc_at st r) /\
  reap_queue st' = reap_queue st ++ [current_process st] /\
  j_eip j = thread_eip (proc_at st' (current_process st')) /\
  j_esp j = thread_esp (proc_at st' (current_process st')) /\
  j_ebp j = thread_ebp (proc_at st' (current_process st')) /\
  j_eax j = 0x10000.
Proof.
  intros Hw H. rewrite task_exit_exited in H.
  destruct (switch_next_ok_inv _ _ _ H) as (p & q & Hq & _ & -> & ->).
  destruct (exited_fields retval st Hw) as (E1 & E2 & E3).
  destruct (switched_to_fields p q (exited retval st))
    as (F1 & _ & _ & F4 & F5 & _).
  assert (Hproc : forall r, proc_at (switched_to p q (exited retval st)) r
                            = proc_at (exited retval st) r).
  { intros r. unfold proc_at. rewrite F5. reflexivity. }
  split.
  { rewrite Hproc, E3.
    destruct (decide (current_process st = current_process st));
      [reflexivity | congruence]. }
  split.
  { intros r Hr. rewrite Hproc, E3.
    destruct (decide (r = current_process st)); [contradiction | reflexivity]. }
  split; [rewrite F4; exact E2|].
  rewrite F1, Hproc. cbn [j_eip j_esp j_ebp j_eax]. auto.
Qed.

(** X18: Exit, then reap: the drain loop of [switch_task], run in the process
    [task_exit] switched to, takes the exited process from the reapable
    queue and calls [reap_process] on it, which hands back its descriptor
    table, its page directory with the tables it owns, the base of its
    kernel stack and its wait queue; the queue is then empty.  The process
    that exits is not NULL and the reapable queue was empty. *)
Theorem task_exit_then_reaped (retval : Z) (st : kstate) (j : jump_t)
    (st' : kstate) (fuel : nat) :
  wakeup_queue_frame ->
  current_process st <> 0 ->
  reap_queue st = [] ->
  task_exit retval st = Ok (j, st') ->
  (1 < fuel)%nat ->
  let P := proc_at st (current_process st) in
  exists (st'' : kstate) (given : list (bool * event)),
    reap_while fuel st' = Some st'' /\
    reap_queue st'' = [] /\
    trace st''
    = (irq st', EvFree (fds_entries P)) :: given
      ++ [(irq st', EvFree (wrap32 (image_stack P - KERNEL_STACK_SIZE)));
          (irq st', EvFree (wait_queue P));
          (irq st', EvListFree (wait_queue P))]
      ++ trace st' /\
    freed_blocks given
    = thread_page_directory P
      :: dir_blocks st' (thread_page_directory P) 1024 /\
    freed_frames given = dir_frames st' (thread_page_directory P) 1024.
Proof.
  intros Hw Hcur Hrq H Hfuel P.
  destruct (task_exit_record_and_queue retval st j st' Hw H)
    as (Hrec & Hq').
  rewrite Hrq in Hq'. cbn [app] in Hq'.
  rewrite reap_while_drains by (rewrite Hq'; cbn [length]; lia).
  rewrite Hq'. cbn [reap_each].
  destruct (Z.eqb_spec (current_process st) 0); [contradiction|].
  set (s := with_reap_queue [] st').
  destruct (with_reap_queue_frame [] st') as (Wr & Wk & Wp & Wi & Wh & Wt).
  fold s in Wr, Wk, Wp, Wi, Wh, Wt.
  assert (HP : proc_at s (current_process st)
               = set_finished 1 (set_status retval P)).
  { unfold proc_at at 1. rewrite Wp. exact Hrec. }
  destruct (reap_process_trace (current_process st) s) as (given & T & F & B).
  rewrite HP, Wi, Wt in T. rewrite HP in F, B.
  cbn [fds_entries image_stack wait_queue thread_page_directory set_finished
       set_status] in T, F, B.
  destruct (dir_summary_heap st' s (thread_page_directory P) 1024 Wh Wk)
    as [D1 D2].
  exists (reap_process (current_process st) s), given.
  split; [reflexivity|]. split.
  { destruct (reap_process_frame (current_process st) s) as [Hs _].
    apply sched_part_fields in Hs.
    destruct Hs as (_ & _ & _ & _ & _ & _ & -> & _). exact Wr. }
  split; [exact T|]. rewrite B, F, D1, D2. auto.
Qed.

(** ** The user-mode trampoline *)

Lemma wrap32_sub_sub (s n m : Z) :
  wrap32 (wrap32 (s - n) - m) = wrap32 (s - (n + m)).
Proof.
  unfold wrap32. rewrite Zminus_mod_idemp_l. f_equal. lia.
Qed.

Lemma wrap32_sub_add (s n m : Z) :
  wrap32 (wrap32 (s - n) + m) = wrap32 (s - (n - m)).
Proof.
  unfold wrap32. rewrite Zplus_mod_idemp_l. f_equal. lia.
Qed.

Lemma wrap32_sub_ne (s n m : Z) :
  0 < m - n < 2 ^ 32 -> wrap32 (s - n) <> wrap32 (s - m).
Proof.
  unfold wrap32. intros H E.
  assert (Hm : (m - n) mod 2 ^ 32 = 0).
  { replace (m - n) with ((s - n) - (s - m)) by lia.
    rewrite Zminus_mod, E, Z.sub_diag. reflexivity. }
  rewrite Z.mod_small in Hm by lia. lia.
Qed.

Lemma wrap32_sub_sub' (s n m k : Z) :
  n + m = k -> wrap32 (wrap32 (s - n) - m) = wrap32 (s - k).
Proof. intros <-. apply wrap32_sub_sub. Qed.

Lemma wrap32_sub_add' (s n m k : Z) :
  n - m = k -> wrap32 (wrap32 (s - n) + m) = wrap32 (s - k).
Proof. intros <-. apply wrap32_sub_add. Qed.

Ltac stack_addresses :=
  repeat match goal with
         | |- context [wrap32 (wrap32 (?s - ?n) - ?m)] =>
           let k := eval compute in (n + m) in
           rewrite (wrap32_sub_sub' s n m k eq_refl)
         | |- context [wrap32 (wrap32 (?s - ?n) + ?m)] =>
           let k := eval compute in (n - m) in
           rewrite (wrap32_sub_add' s n m k eq_refl)
         end.

Ltac stack_lookups :=
  repeat first
    [ rewrite lookup_insert_eq
    | rewrite lookup_insert_ne
        by first [ apply wrap32_sub_ne; lia
                 | apply not_eq_sym, wrap32_sub_ne; lia ] ].

Lemma ax_after_mov (eax : Z) :
  Z.land (Z.lor (Z.land eax 0xFFFF0000) (Z.land 0x23 0xFFFF)) 0xFFFF = 0x23.
Proof.
  rewrite Z.land_lor_distr_l, <- Z.land_assoc.
  change (Z.land 0xFFFF0000 0xFFFF) with 0. rewrite Z.land_0_r. reflexivity.
Qed.

(** X19: [enter_user_jmp] disables interrupts, gives the TSS the kernel stack
    of the caller, and lands at [location] in ring 3 ([cs = 0x1B],
    [ss = 0x23], the data segments [0x23]) with the interrupt flag set in
    [eflags] and the other flags as they were.  The user stack pointer is
    sixteen bytes below [stack], and from there up the stack holds the
    magic [0xDECADE21], [argc], [argv] and the null terminator.  Addresses
    are taken modulo 2^32. *)
Theorem enter_user_jmp_enters_ring3 (location argc argv stack : Z)
    (c : cpu_t) (st : kstate) :
  let u := (enter_user_jmp location argc argv stack c st).1 in
  let st' := (enter_user_jmp location argc argv stack c st).2 in
  u_eip u = location /\ u_cs u = 0x1B /\ u_ss u = 0x23 /\
  u_ds u = 0x23 /\ u_es u = 0x23 /\ u_fs u = 0x23 /\ u_gs u = 0x23 /\
  u_eflags u = Z.lor (r_eflags c) 0x200 /\
  Z.testbit (u_eflags u) 9 = true /\
  u_esp u = wrap32 (stack - 16) /\
  u_mem u !! wrap32 (stack - 16) = Some 0xDECADE21 /\
  u_mem u !! wrap32 (stack - 12) = Some argc /\
  u_mem u !! wrap32 (stack - 8) = Some argv /\
  u_mem u !! wrap32 (stack - 4) = Some 0 /\
  irq st' = false /\
  trace st'
  = (false, EvSetKernelStack (image_stack (proc_at st (current_process st))))
      :: (irq st, EvIrqOff) :: trace st.
Proof.
  destruct c as [esp0 eax0 ds0 es0 fs0 gs0 fl0 mem0].
  unfold enter_user_jmp. cbv zeta.
  cbv [pushl popl mov_esp mov_eax mov_ax ax mov_ds mov_es mov_fs mov_gs iret
       r_esp r_eax r_ds r_es r_fs r_gs r_eflags r_mem fst snd
       u_eip u_cs u_ss u_ds u_es u_fs u_gs u_eflags u_esp u_mem].
  stack_addresses. stack_lookups. cbv [from_option Datatypes.id].
  rewrite ax_after_mov.
  unfold set_kernel_stack.
  rewrite trace_emit, trace_IRQ_OFF, proc_at_IRQ_OFF, current_process_IRQ_OFF.
  rewrite (sched_part_irq _ _ (sched_part_emit _ _)), irq_IRQ_OFF.
  repeat split.
  rewrite Z.lor_spec. apply orb_true_r.
Qed.

End Task.

(** * The example machine

    The collaborators of [Demo] honour the contracts the properties above
    assume, and [Demo.state] is a well-formed memory; each property is then
    exhibited on it. *)

Abbreviation demo_clone_table :=
  (clone_table Demo.sizeof_page_table Demo.kvmalloc_p Demo.alloc_frame).
Abbreviation demo_clone_directory :=
  (clone_directory Demo.sizeof_page_directory Demo.sizeof_page_table
     Demo.offsetof_physical_tables Demo.kvmalloc_p Demo.alloc_frame).
Abbreviation demo_fork :=
  (fork Demo.KERNEL_STACK_SIZE Demo.sizeof_page_directory
     Demo.sizeof_page_table Demo.offsetof_physical_tables Demo.kvmalloc_p
     Demo.alloc_frame Demo.spawn_process_record).
Abbreviation demo_clone :=
  (clone Demo.KERNEL_STACK_SIZE Demo.spawn_process_record Demo.regs_esp).
Abbreviation demo_switch_task :=
  (switch_task Demo.KERNEL_STACK_SIZE Demo.code_addr Demo.end_addr).
Abbreviation demo_switch_next := (switch_next Demo.code_addr Demo.end_addr).
Abbreviation demo_reap_each := (reap_each Demo.KERNEL_STACK_SIZE).

Lemma foldr_max_bound (l : list Z) :
  0 <= foldr Z.max 0 l /\ forall k, k ∈ l -> k <= foldr Z.max 0 l.
Proof.
  induction l as [|x l [IH0 IH]]; cbn [foldr].
  - split; [lia|]. intros k Hk. inversion Hk.
  - split; [lia|]. intros k Hk. apply elem_of_cons in Hk.
    destruct Hk as [->|Hk]; [lia|]. specialize (IH k Hk). lia.
Qed.

Lemma top_key_bound {A : Type} (m : gmap Z A) :
  0 <= Demo.top_key m /\ forall k, k ∈ dom m -> k <= Demo.top_key m.
Proof.
  unfold Demo.top_key.
  destruct (foldr_max_bound (elements (dom m))) as [H0 H].
  split; [exact H0|]. intros k Hk. apply H. apply elem_of_elements. exact Hk.
Qed.

Lemma next_page_above (top : Z) :
  0 <= top ->
  top < Demo.next_page top /\ Demo.next_page top <> 0 /\
  Demo.next_page top <> 0xFFFFFFFF.
Proof.
  intros H. unfold Demo.next_page.
  pose proof (Z.div_mod top 0x1000 ltac:(lia)) as Hd.
  pose proof (Z.mod_pos_bound top 0x1000 ltac:(lia)) as Hm.
  repeat split; lia.
Qed.

Lemma demo_kvmalloc_fresh : kvmalloc_fresh Demo.kvmalloc_p.
Proof.
  intros size s. unfold Demo.kvmalloc_p. cbn [fst].
  destruct (top_key_bound (mem_tables s)) as [T0 T].
  destruct (top_key_bound (mem_dirs s)) as [D0 D].
  destruct (next_page_above
              (Z.max (Demo.top_key (mem_tables s)) (Demo.top_key (mem_dirs s))))
    as (Habove & Hn & Hs); [lia|].
  split; [exact Hn|]. split; [exact Hs|]. split.
  - intros Hin. specialize (T _ Hin). lia.
  - intros Hin. specialize (D _ Hin). lia.
Qed.

Lemma demo_kvmalloc_not_null (size : Z) (s : kstate) :
  (Demo.kvmalloc_p size s).1 <> 0.
Proof. apply demo_kvmalloc_fresh. Qed.

Lemma demo_alloc_frame_nonzero : alloc_frame_nonzero Demo.alloc_frame.
Proof. intros pg k w s. unfold Demo.alloc_frame. cbn [frame]. lia. Qed.

Lemma demo_spawn_fresh (parent : Z) (s : kstate) :
  (Demo.spawn_process_record parent s).1 <> 0 /\
  (Demo.spawn_process_record parent s).1 <> parent.
Proof.
  unfold Demo.spawn_process_record. cbn [fst].
  destruct (top_key_bound (mem_procs s)) as [P0 _].
  destruct (next_page_above (Z.max (Demo.top_key (mem_procs s)) parent))
    as (Habove & Hn & _); [lia|].
  split; [exact Hn | lia].
Qed.

Lemma demo_spawn_stack (parent : Z) (s : kstate) :
  Demo.KERNEL_STACK_SIZE
  <= image_stack (Demo.spawn_process_record parent s).2 < 2 ^ 32.
Proof.
  unfold Demo.spawn_process_record, Demo.KERNEL_STACK_SIZE.
  cbn [snd image_stack].
  pose proof (Z.mod_pos_bound (Z.of_nat (size (mem_procs s))) 0x1000
                ltac:(lia)) as Hm.
  lia.
Qed.

Lemma demo_entries (f : nat -> Z) (i : nat) :
  default 0 (map f (seq 0 1024) !! i) = if decide (i < 1024)%nat then f i else 0.
Proof.
  destruct (decide (i < 1024)%nat) as [Hi|Hi].
  - change (map f (seq 0 1024)) with (f <$> seq 0 1024).
    rewrite list_lookup_fmap, lookup_seq_lt by exact Hi. reflexivity.
  - rewrite (proj2 (lookup_ge_None _ _)); [reflexivity|].
    rewrite length_map, length_seq. lia.
Qed.

Lemma demo_user_tables (i : nat) :
  (i < 1024)%nat -> rd_tables Demo.state 0x2000 i = Demo.user_entry i.
Proof.
  intros Hi. unfold rd_tables.
  replace (dir_at Demo.state 0x2000) with Demo.user_dir by reflexivity.
  unfold Demo.user_dir. cbn [tables]. rewrite demo_entries.
  destruct (decide (i < 1024)%nat); [reflexivity | contradiction].
Qed.

Lemma demo_kernel_tables (i : nat) :
  (i < 1024)%nat ->
  rd_tables Demo.state (kernel_directory Demo.state) i = Demo.kernel_entry i.
Proof.
  intros Hi. unfold rd_tables.
  replace (dir_at Demo.state (kernel_directory Demo.state))
    with Demo.kernel_dir by reflexivity.
  unfold Demo.kernel_dir. cbn [tables]. rewrite demo_entries.
  destruct (decide (i < 1024)%nat); [reflexivity | contradiction].
Qed.

Lemma demo_table_5000 : 0x5000 ∈ dom (mem_tables Demo.state).
Proof. apply elem_of_dom. exists Demo.kernel_table. reflexivity. Qed.

Lemma demo_table_6000 : 0x6000 ∈ dom (mem_tables Demo.state).
Proof. apply elem_of_dom. exists Demo.user_table. reflexivity. Qed.

Lemma demo_user_live (i : nat) :
  (i < 1024)%nat -> live_table Demo.state (rd_tables Demo.state 0x2000 i).
Proof.
  intros Hi. rewrite demo_user_tables by exact Hi. unfold live_table.
  destruct i as [|[|[|i]]]; cbn [Demo.user_entry]; auto using demo_table_5000,
    demo_table_6000.
Qed.

Lemma demo_kernel_live (i : nat) :
  (i < 1024)%nat ->
  live_table Demo.state (rd_tables Demo.state (kernel_directory Demo.state) i).
Proof.
  intros Hi. rewrite demo_kernel_tables by exact Hi. unfold live_table.
  destruct i as [|[|i]]; cbn [Demo.kernel_entry]; auto using demo_table_5000.
Qed.

Lemma demo_running : current_process Demo.state <> 0.
Proof. discriminate. Qed.

Lemma demo_trap_frame_not_null :
  syscall_registers (proc_at Demo.state (current_process Demo.state)) <> 0.
Proof. discriminate. Qed.

Lemma demo_parent_stack :
  Demo.KERNEL_STACK_SIZE <= current_stack Demo.state < 2 ^ 32.
Proof.
  replace (current_stack Demo.state) with 0x28000 by reflexivity.
  unfold Demo.KERNEL_STACK_SIZE. lia.
Qed.

Lemma demo_in_parent_stack (a : Z) :
  0x20000 <= a < 0x28000 ->
  in_kernel_stack Demo.KERNEL_STACK_SIZE (current_stack Demo.state) a.
Proof.
  replace (current_stack Demo.state) with 0x28000 by reflexivity.
  unfold in_kernel_stack, Demo.KERNEL_STACK_SIZE. lia.
Qed.

(** ** The properties on the example machine *)

Lemma fork_clone_translate_esp_ebp_witness :
  exists pid st',
    demo_fork 0x100400 0x27e00 0x27e40 Demo.state = Ok (pid, st') /\
    exists child : Z,
      process_queue st' = process_queue Demo.state ++ [child] /\
      pid = id (proc_at st' child) /\
      thread_esp (proc_at st' child)
      = wrap32 (0x27e00 + (image_stack (proc_at st' child)
                           - image_stack (proc_at st' (current_process st')))) /\
      thread_ebp (proc_at st' child)
      = wrap32 (0x27e40 + (image_stack (proc_at st' child)
                           - image_stack (proc_at st' (current_process st')))).
Proof.
  destruct (fork_succeeds Demo.KERNEL_STACK_SIZE Demo.sizeof_page_directory
              Demo.sizeof_page_table Demo.offsetof_physical_tables
              Demo.kvmalloc_p Demo.alloc_frame Demo.spawn_process_record
              0x100400 0x27e00 0x27e40 Demo.state
              (fun p s => proj1 (demo_spawn_fresh p s))
              demo_kvmalloc_not_null demo_running) as (pid & st' & H).
  exists pid, st'. split; [exact H|].
  exact (proj2 (fork_clone_translate_esp_ebp Demo.KERNEL_STACK_SIZE
                  Demo.sizeof_page_directory Demo.sizeof_page_table
                  Demo.offsetof_physical_tables Demo.kvmalloc_p
                  Demo.alloc_frame Demo.spawn_process_record Demo.regs_esp)
           0 0 0x100400 0x27e00 0x27e40 Demo.state pid st' (or_introl H)).
Defined.

Lemma demo_fork_child_stack (eip esp ebp pid : Z) (st' : kstate) (child : Z) :
  demo_fork eip esp ebp Demo.state = Ok (pid, st') ->
  process_queue st' = [child] ->
  image_stack (proc_at st' child) = 0x38000.
Proof.
  intros H Hq.
  destruct (fork_ok_shape _ _ _ _ _ _ _ _ _ _ _ _ _ H)
    as (directory & st1 & c & rec & Hcd & Hsp & -> & _).
  rewrite process_queue_IRQ_RES, prepare_child_queue, at_read_eip_queue in Hq.
  pose proof (clone_directory_sched Demo.sizeof_page_directory
                Demo.sizeof_page_table Demo.offsetof_physical_tables
                Demo.kvmalloc_p Demo.alloc_frame
                (current_directory Demo.state) (IRQ_OFF Demo.state)) as Hs.
  rewrite Hcd in Hs. cbn [snd] in Hs. apply sched_part_fields in Hs.
  destruct Hs as (_ & _ & _ & Hprocs & _ & Hpq & _).
  rewrite Hpq, process_queue_IRQ_OFF in Hq. cbn in Hq.
  injection Hq as <-.
  rewrite proc_at_IRQ_RES.
  destruct (child_record Demo.KERNEL_STACK_SIZE (current_process Demo.state)
              directory c eip esp ebp rec st1) as (_ & _ & _ & -> & _).
  apply (f_equal snd) in Hsp. cbn [snd] in Hsp. rewrite <- Hsp.
  unfold Demo.spawn_process_record. cbn [snd image_stack].
  rewrite Hprocs.
  destruct (IRQ_OFF_frame Demo.state) as (_ & _ & _ & -> & _).
  reflexivity.
Qed.

Lemma fork_returns_twice_witness :
  exists (child : Z) (st1 : kstate) (j : jump_t) (st3 : kstate),
    demo_fork 0x100400 0x27e00 0x27e40 Demo.state
    = Ok (id (proc_at st1 child), st1) /\
    current_process st1 = current_process Demo.state /\
    thread_eip (proc_at st1 child) = 0x100400 /\
    process_queue st1 = [child] /\
    image_stack (proc_at st1 child) = 0x38000 /\
    demo_switch_next st1 = Ok (j, st3) /\
    j_eip j = 0x100400 /\ j_eax j = 0x10000 /\
    j_esp j = 0x37e00 /\ j_ebp j = 0x37e40 /\
    current_process st3 = child /\
    fr_parent (kstack_at st3 0x37e40) = current_process Demo.state /\
    fork_after_read_eip Demo.KERNEL_STACK_SIZE (j_eax j) (j_esp j) (j_ebp j) st3
    = Ok (0, st3).
Proof.
  destruct (fork_returns_twice Demo.KERNEL_STACK_SIZE
              Demo.sizeof_page_directory Demo.sizeof_page_table
              Demo.offsetof_physical_tables Demo.code_addr Demo.end_addr
              Demo.kvmalloc_p Demo.alloc_frame Demo.spawn_process_record
              0x100400 0x27e00 0x27e40 Demo.state
              demo_spawn_fresh demo_spawn_stack demo_kvmalloc_not_null
              demo_running demo_parent_stack
              (demo_in_parent_stack 0x27e00 ltac:(lia))
              (demo_in_parent_stack 0x27e40 ltac:(lia)))
    as (child & st1 & Hfork & _ & Hcur & Heip & Hq & Hchild).
  pose proof (demo_fork_child_stack _ _ _ _ _ child Hfork Hq) as Hstack.
  destruct (Hchild st1 [] Hq eq_refl (fun a _ => eq_refl))
    as (j & st3 & Hsw & J1 & J2 & J3 & J4 & _ & _ & Hc3 & Hpar & Hret).
  { unfold Demo.code_addr, Demo.end_addr. lia. }
  rewrite Hstack in J3, J4.
  replace (current_stack Demo.state) with 0x28000 in J3, J4 by reflexivity.
  cbn in J3, J4. rewrite J4 in Hpar.
  exists child, st1, j, st3. auto 14.
Defined.

Lemma demo_directory_block :
  (Demo.kvmalloc_p Demo.sizeof_page_directory Demo.state).1 = 0x7000.
Proof. vm_compute. reflexivity. Qed.

Lemma clone_directory_entry_cases_witness :
  rd_tables (demo_clone_directory 0x2000 Demo.state).2
    (demo_clone_directory 0x2000 Demo.state).1 2
  = (demo_clone_table 0x6000
       (for_loop 2
          (clone_directory_body Demo.sizeof_page_table Demo.kvmalloc_p
             Demo.alloc_frame 0x2000
             (demo_clone_directory 0x2000 Demo.state).1)
          (clone_directory_alloc Demo.sizeof_page_directory
             Demo.offsetof_physical_tables Demo.kvmalloc_p Demo.state).2)).1.1
  /\
  rd_physical_tables (demo_clone_directory 0x2000 Demo.state).2
    (demo_clone_directory 0x2000 Demo.state).1 2
  = Z.lor
      (demo_clone_table 0x6000
         (for_loop 2
            (clone_directory_body Demo.sizeof_page_table Demo.kvmalloc_p
               Demo.alloc_frame 0x2000
               (demo_clone_directory 0x2000 Demo.state).1)
            (clone_directory_alloc Demo.sizeof_page_directory
               Demo.offsetof_physical_tables Demo.kvmalloc_p Demo.state).2)).1.2
      0x07.
Proof.
  assert (H1 : (Demo.kvmalloc_p Demo.sizeof_page_directory Demo.state).1
               <> 0x2000) by (rewrite demo_directory_block; discriminate).
  assert (H2 : (Demo.kvmalloc_p Demo.sizeof_page_directory Demo.state).1
               <> kernel_directory Demo.state)
    by (rewrite demo_directory_block; discriminate).
  assert (H3 : (2 < 1024)%nat) by lia.
  pose proof (clone_directory_entry_cases Demo.sizeof_page_directory
                Demo.sizeof_page_table Demo.offsetof_physical_tables
                Demo.kvmalloc_p Demo.alloc_frame 0x2000 Demo.state 2
                H1 H2 H3) as H.
  cbv zeta in H.
  rewrite demo_user_tables, demo_kernel_tables in H by exact H3.
  exact H.
Defined.

Lemma free_directory_returns_clone_witness :
  exists (taken given : list (bool * event)) (cloned : list Z),
    trace (demo_clone_directory 0x2000 Demo.state).2
    = taken ++ trace Demo.state /\
    trace (free_directory (demo_clone_directory 0x2000 Demo.state).1
             (demo_clone_directory 0x2000 Demo.state).2)
    = given ++ trace (demo_clone_directory 0x2000 Demo.state).2 /\
    freed_frames given = allocated_frames taken /\
    allocated_blocks taken
    = cloned ++ [(demo_clone_directory 0x2000 Demo.state).1] /\
    freed_blocks given = (demo_clone_directory 0x2000 Demo.state).1 :: cloned /\
    (forall i, (i < 1024)%nat ->
       rd_tables (demo_clone_directory 0x2000 Demo.state).2
         (kernel_directory (demo_clone_directory 0x2000 Demo.state).2) i
       = rd_tables (demo_clone_directory 0x2000 Demo.state).2
           (demo_clone_directory 0x2000 Demo.state).1 i ->
       ~ In (rd_tables (demo_clone_directory 0x2000 Demo.state).2
               (demo_clone_directory 0x2000 Demo.state).1 i)
            (freed_blocks given)).
Proof.
  apply (free_directory_returns_clone Demo.sizeof_page_directory
           Demo.sizeof_page_table Demo.offsetof_physical_tables
           Demo.kvmalloc_p Demo.alloc_frame 0x2000 Demo.state).
  - exact demo_kvmalloc_fresh.
  - exact demo_alloc_frame_nonzero.
  - apply elem_of_dom. exists Demo.user_dir. reflexivity.
  - apply elem_of_dom. exists Demo.kernel_dir. reflexivity.
  - exact demo_user_live.
  - exact demo_kernel_live.
Defined.

Lemma demo_exited_state :
  exists j : jump_t,
    task_exit Demo.code_addr Demo.end_addr Demo.wakeup_queue 7 Demo.duo_state
    = Ok (j, Demo.exited_state).
Proof. vm_compute. eexists. reflexivity. Qed.

Lemma switch_task_resumption_arm_witness :
  process_available Demo.exited_state = false /\
  reap_queue Demo.exited_state = [0x3000] /\
  switch_task_after_read_eip Demo.KERNEL_STACK_SIZE Demo.code_addr
    Demo.end_addr 2 1 0x10000 0x37e00 0x37e40 Demo.exited_state
  = Returned (demo_reap_each (reap_queue Demo.exited_state) Demo.exited_state)
  /\
  reap_queue (demo_reap_each (reap_queue Demo.exited_state) Demo.exited_state)
  = [] /\
  mem_procs (demo_reap_each (reap_queue Demo.exited_state) Demo.exited_state)
  = mem_procs Demo.exited_state /\
  process_queue
    (demo_reap_each (reap_queue Demo.exited_state) Demo.exited_state)
  = process_queue Demo.exited_state /\
  current_process
    (demo_reap_each (reap_queue Demo.exited_state) Demo.exited_state)
  = current_process Demo.exited_state /\
  extends is_release Demo.exited_state
    (demo_reap_each (reap_queue Demo.exited_state) Demo.exited_state).
Proof.
  destruct (switch_task_resumption_arm Demo.KERNEL_STACK_SIZE Demo.code_addr
              Demo.end_addr 2 1 0x37e00 0x37e40 Demo.exited_state)
    as (H1 & H3 & H4 & H5 & H6 & _ & H8).
  - cbn [reap_queue Demo.exited_state length]. lia.
  - split; [reflexivity|]. split; [reflexivity|].
    split; [exact H1|]. split; [exact H3|]. split; [exact H4|].
    split; [exact H5|]. split; [exact H6|]. exact H8.
Defined.

Lemma demo_parent_trap_frame :
  in_kernel_stack Demo.KERNEL_STACK_SIZE
    (image_stack (proc_at Demo.state (current_process Demo.state)))
    (syscall_registers (proc_at Demo.state (current_process Demo.state))).
Proof.
  replace (proc_at Demo.state (current_process Demo.state)) with Demo.init
    by reflexivity.
  unfold in_kernel_stack, Demo.KERNEL_STACK_SIZE, Demo.init.
  cbn [image_stack syscall_registers]. lia.
Qed.

Lemma fork_clone_relocate_syscall_registers_witness :
  exists pid st',
    demo_clone 0 0 0x100400 0x27e00 0x27e40 Demo.state = Ok (pid, st') /\
    exists child : Z,
      process_queue st' = process_queue Demo.state ++ [child] /\
      pid = id (proc_at st' child) /\
      syscall_registers (proc_at st' child)
      = image_stack (proc_at st' child) - Demo.KERNEL_STACK_SIZE
        + (syscall_registers (proc_at Demo.state (current_process Demo.state))
           - (image_stack (proc_at Demo.state (current_process Demo.state))
              - Demo.KERNEL_STACK_SIZE)) /\
      in_kernel_stack Demo.KERNEL_STACK_SIZE (image_stack (proc_at st' child))
        (syscall_registers (proc_at st' child)).
Proof.
  destruct (clone_succeeds Demo.KERNEL_STACK_SIZE Demo.spawn_process_record
              Demo.regs_esp 0 0 0x100400 0x27e00 0x27e40 Demo.state
              (fun p s => proj1 (demo_spawn_fresh p s)) demo_running
              demo_trap_frame_not_null)
    as (pid & st' & H).
  exists pid, st'. split; [exact H|].
  exact (fork_clone_relocate_syscall_registers Demo.KERNEL_STACK_SIZE
           Demo.sizeof_page_directory Demo.sizeof_page_table
           Demo.offsetof_physical_tables Demo.kvmalloc_p Demo.alloc_frame
           Demo.spawn_process_record Demo.regs_esp
           0 0 0x100400 0x27e00 0x27e40 Demo.state pid st'
           (fun p s => proj2 (demo_spawn_fresh p s)) demo_spawn_stack
           (or_intror H) demo_parent_trap_frame).
Defined.

Lemma demo_table_block :
  (Demo.kvmalloc_p Demo.sizeof_page_table Demo.state).1 = 0x7000.
Proof. vm_compute. reflexivity. Qed.

Lemma clone_table_sets_access_bits_witness :
  exists t phys calls,
    (demo_clone_table 0x6000 Demo.state).1 = (t, phys) /\
    trace (demo_clone_table 0x6000 Demo.state).2
    = calls ++ (irq Demo.state, EvKvmalloc Demo.sizeof_page_table t phys)
               :: trace Demo.state /\
    (forall i : nat, (i < 1024)%nat ->
       let s := rd_page Demo.state 0x6000 i in
       let n := rd_page (demo_clone_table 0x6000 Demo.state).2 t i in
       (frame s = 0 -> n = zero_page) /\
       (frame s <> 0 ->
        (exists x : kstate,
           let pg := Demo.alloc_frame zero_page 0 0 x in
           present n = present pg || present s /\
           rw n = rw pg || rw s /\
           user n = user pg || user s /\
           accessed n = accessed pg || accessed s /\
           dirty n = dirty pg || dirty s /\
           frame n = frame pg) /\
        (present s = true -> present n = true) /\
        (rw s = true -> rw n = true) /\
        (user s = true -> user n = true) /\
        (accessed s = true -> accessed n = true) /\
        (dirty s = true -> dirty n = true) /\
        In (irq Demo.state, EvAllocFrame t i (frame n)) calls /\
        In (irq Demo.state, EvCopyPage (wrap32 (frame s * 0x1000))
                                       (wrap32 (frame n * 0x1000))) calls)) /\
    (forall (b : bool) (t' : Z) (i : nat) (f : Z),
       In (b, EvAllocFrame t' i f) calls ->
       (i < 1024)%nat /\ frame (rd_page Demo.state 0x6000 i) <> 0) /\
    ((forall i : nat, (i < 1024)%nat -> frame (rd_page Demo.state 0x6000 i) = 0) ->
     table_at (demo_clone_table 0x6000 Demo.state).2 t = zero_table /\
     calls = []).
Proof.
  apply (clone_table_sets_access_bits Demo.sizeof_page_table
           Demo.kvmalloc_p Demo.alloc_frame 0x6000 Demo.state).
  rewrite demo_table_block. discriminate.
Defined.

(** C8: the access bits of the new entry are not always those of the source
    entry.  With a frame allocator that marks the entry it fills as present
    and open to user mode, the clone of the kernel's table [0x5000] has
    [user] set in entry 0, whose source has a frame and [user] clear. *)
Lemma clone_table_mirrors_access_bits_counterexample :
  frame (rd_page Demo.state 0x5000 0) = 0x100 /\
  user (rd_page Demo.state 0x5000 0) = false /\
  user (rd_page
          (clone_table Demo.sizeof_page_table Demo.kvmalloc_p
             Demo.alloc_user_frame 0x5000 Demo.state).2
          (clone_table Demo.sizeof_page_table Demo.kvmalloc_p
             Demo.alloc_user_frame 0x5000 Demo.state).1.1 0) = true.
Proof. vm_compute. repeat split; reflexivity. Qed.

Lemma switch_task_noop_witness :
  demo_switch_task 1 1 0x100500 0x27e00 0x27e40 Demo.state
  = Returned Demo.state.
Proof.
  apply (switch_task_noop Demo.KERNEL_STACK_SIZE Demo.code_addr Demo.end_addr
           1 1 0x100500 0x27e00 0x27e40 Demo.state).
  right. reflexivity.
Defined.

(** C6: [fork] and [clone] are to run with interrupts disabled from entry
    until the child is enqueued.  [fork] does
    ([fork_keeps_interrupts_off]).  [clone] has neither [IRQ_OFF] nor
    [IRQ_RES]: called on the example machine with interrupts enabled, it
    makes every call, [make_process_ready] included, with interrupts
    enabled. *)
Theorem clone_runs_with_interrupts_enabled :
  irq Demo.state = true /\
  match demo_clone 0 0 0x100400 0x27e00 0x27e40 Demo.state with
  | Ok (pid, st') =>
    pid = 2 /\ irq st' = true /\
    trace st'
    = [(true, EvMakeReady 0x4000); (true, EvSetEnv 0x4000 0x2000);
       (true, EvSpawn 0x3000 0x4000); (true, EvKprintf 0x27f00)]
  | Halt => False
  end.
Proof. vm_compute. repeat split; reflexivity. Qed.


(** ** The further properties on the example machine *)

Abbreviation demo_task_exit :=
  (task_exit Demo.code_addr Demo.end_addr Demo.wakeup_queue).
Abbreviation demo_reap_while := (reap_while Demo.KERNEL_STACK_SIZE).
Abbreviation demo_reap_process := (reap_process Demo.KERNEL_STACK_SIZE).

Lemma demo_worker_ready :
  Demo.code_addr < thread_eip (proc_at Demo.duo_state 0x4000) < Demo.end_addr.
Proof. vm_compute. split; reflexivity. Qed.

Lemma demo_wakeup_queue_frame : wakeup_queue_frame Demo.wakeup_queue.
Proof. intros q s. repeat split. Qed.

Lemma demo_fork_ok :
  exists pid st', demo_fork 0x100400 0x27e00 0x27e40 Demo.state = Ok (pid, st').
Proof.
  exact (fork_succeeds Demo.KERNEL_STACK_SIZE Demo.sizeof_page_directory
           Demo.sizeof_page_table Demo.offsetof_physical_tables
           Demo.kvmalloc_p Demo.alloc_frame Demo.spawn_process_record
           0x100400 0x27e00 0x27e40 Demo.state
           (fun p s => proj1 (demo_spawn_fresh p s))
           demo_kvmalloc_not_null demo_running).
Qed.

Lemma demo_clone_ok :
  exists pid st',
    demo_clone 0 0 0x100400 0x27e00 0x27e40 Demo.state = Ok (pid, st').
Proof.
  exact (clone_succeeds Demo.KERNEL_STACK_SIZE Demo.spawn_process_record
           Demo.regs_esp 0 0 0x100400 0x27e00 0x27e40 Demo.state
           (fun p s => proj1 (demo_spawn_fresh p s)) demo_running
           demo_trap_frame_not_null).
Qed.

Lemma demo_task_exit_ok :
  exists j st', demo_task_exit 7 Demo.duo_state = Ok (j, st').
Proof. vm_compute. eexists _, _. reflexivity. Qed.

Lemma switch_next_installs_process_witness :
  exists (j : jump_t) (st' : kstate),
    demo_switch_next Demo.duo_state = Ok (j, st') /\
    j_cr3 j
    = physical_address
        (dir_at Demo.duo_state
           (thread_page_directory (proc_at Demo.duo_state 0x4000))) /\
    current_process st' = 0x4000 /\
    current_directory st'
    = thread_page_directory (proc_at Demo.duo_state 0x4000) /\
    process_queue st' = [] /\
    trace st'
    = (irq Demo.duo_state,
       EvSetKernelStack (image_stack (proc_at Demo.duo_state 0x4000)))
        :: trace Demo.duo_state /\
    mem_procs st' = mem_procs Demo.duo_state /\
    mem_kstacks st' = mem_kstacks Demo.duo_state /\
    heap_part st' = heap_part Demo.duo_state /\
    reap_queue st' = reap_queue Demo.duo_state /\
    irq st' = irq Demo.duo_state.
Proof.
  exact (switch_next_installs_process Demo.code_addr Demo.end_addr 0x4000 []
           Demo.duo_state eq_refl demo_worker_ready).
Defined.

Lemma switch_next_asserts_kernel_text_witness :
  demo_switch_next Demo.busy_state = Halt.
Proof.
  apply (switch_next_asserts_kernel_text Demo.code_addr Demo.end_addr 0x7000 []
           Demo.busy_state eq_refl).
  vm_compute. intros [H _]. discriminate H.
Defined.

Lemma switch_task_saves_and_requeues_witness :
  exists (j : jump_t) (st' : kstate),
    demo_switch_task 1 1 0x100500 0x27e00 0x27e40 Demo.duo_state
    = Switched j st' /\
    current_process st' = 0x4000 /\
    process_queue st' = [0x3000] /\
    proc_at st' 0x3000
    = set_thread_ebp 0x27e40
        (set_thread_esp 0x27e00
           (set_thread_eip 0x100500 (proc_at Demo.duo_state 0x3000))) /\
    (forall r, r <> 0x3000 -> proc_at st' r = proc_at Demo.duo_state r) /\
    j_eip j = 0x100800 /\ j_esp j = 0x37e00 /\ j_ebp j = 0x37e40 /\
    j_eax j = 0x10000.
Proof.
  apply (switch_task_saves_and_requeues Demo.KERNEL_STACK_SIZE Demo.code_addr
           Demo.end_addr 1 1 0x100500 0x27e00 0x27e40 Demo.duo_state
           0x4000 []).
  - discriminate.
  - reflexivity.
  - discriminate.
  - discriminate.
  - exact demo_worker_ready.
Defined.

Lemma switch_task_resumes_saved_registers_witness :
  exists (j1 : jump_t) (st1 : kstate) (j2 : jump_t) (st2 : kstate),
    demo_switch_task 1 1 0x100500 0x27e00 0x27e40 Demo.duo_state
    = Switched j1 st1 /\
    current_process st1 = 0x4000 /\
    demo_switch_task 1 0 0x100900 0x37d00 0x37d40 st1 = Switched j2 st2 /\
    current_process st2 = current_process Demo.duo_state /\
    j_eip j2 = 0x100500 /\ j_esp j2 = 0x27e00 /\ j_ebp j2 = 0x27e40 /\
    j_eax j2 = 0x10000.
Proof.
  apply (switch_task_resumes_saved_registers Demo.KERNEL_STACK_SIZE
           Demo.code_addr Demo.end_addr 1 1 1 0x100500 0x27e00 0x27e40
           0 0x100900 0x37d00 0x37d40 Demo.duo_state 0x4000).
  - discriminate.
  - reflexivity.
  - discriminate.
  - discriminate.
  - discriminate.
  - discriminate.
  - discriminate.
  - exact demo_worker_ready.
  - unfold Demo.code_addr, Demo.end_addr. lia.
Defined.

Lemma clone_directory_writes_fresh_blocks_only_witness :
  sched_part (demo_clone_directory 0x2000 Demo.state).2
  = sched_part Demo.state /\
  (forall d, d ∈ dom (mem_dirs Demo.state) ->
     mem_dirs (demo_clone_directory 0x2000 Demo.state).2 !! d
     = mem_dirs Demo.state !! d) /\
  (forall t, t ∈ dom (mem_tables Demo.state) ->
     mem_tables (demo_clone_directory 0x2000 Demo.state).2 !! t
     = mem_tables Demo.state !! t).
Proof.
  exact (clone_directory_writes_fresh_blocks_only Demo.sizeof_page_directory
           Demo.sizeof_page_table Demo.offsetof_physical_tables
           Demo.kvmalloc_p Demo.alloc_frame 0x2000 Demo.state
           demo_kvmalloc_fresh).
Defined.

Lemma free_directory_without_own_tables_witness :
  free_directory (kernel_directory Demo.state) Demo.state
  = free (kernel_directory Demo.state) Demo.state.
Proof.
  apply (free_directory_without_own_tables (kernel_directory Demo.state)
           Demo.state).
  intros i _. apply owned_shared. reflexivity.
Defined.

Lemma fork_clone_write_child_record_only_witness :
  exists pid st',
    demo_fork 0x100400 0x27e00 0x27e40 Demo.state = Ok (pid, st') /\
    exists child : Z,
      process_queue st' = process_queue Demo.state ++ [child] /\
      (forall r, r <> child -> proc_at st' r = proc_at Demo.state r) /\
      current_process st' = current_process Demo.state /\
      current_directory st' = current_directory Demo.state /\
      kernel_directory st' = kernel_directory Demo.state /\
      reap_queue st' = reap_queue Demo.state.
Proof.
  destruct demo_fork_ok as (pid & st' & H).
  exists pid, st'. split; [exact H|].
  exact (fork_clone_write_child_record_only Demo.KERNEL_STACK_SIZE
           Demo.sizeof_page_directory Demo.sizeof_page_table
           Demo.offsetof_physical_tables Demo.kvmalloc_p Demo.alloc_frame
           Demo.spawn_process_record Demo.regs_esp
           0 0 0x100400 0x27e00 0x27e40 Demo.state pid st' (or_introl H)).
Defined.

Lemma clone_shares_address_space_witness :
  exists pid st',
    demo_clone 0 0 0x100400 0x27e00 0x27e40 Demo.state = Ok (pid, st') /\
    exists child : Z,
      process_queue st' = process_queue Demo.state ++ [child] /\
      thread_page_directory (proc_at st' child)
      = current_directory Demo.state /\
      heap_part st' = heap_part Demo.state /\
      exists calls : list (bool * event),
        trace st' = calls ++ trace Demo.state /\
        Forall (fun e => ~ is_paging_call e) calls.
Proof.
  destruct demo_clone_ok as (pid & st' & H).
  exists pid, st'. split; [exact H|].
  exact (clone_shares_address_space Demo.KERNEL_STACK_SIZE
           Demo.spawn_process_record Demo.regs_esp
           0 0 0x100400 0x27e00 0x27e40 Demo.state pid st' H).
Defined.

Lemma fork_child_runs_in_clone_witness :
  exists pid st',
    demo_fork 0x100400 0x27e00 0x27e40 Demo.state = Ok (pid, st') /\
    exists (child : Z) (j : jump_t) (st3 : kstate),
      demo_switch_next st' = Ok (j, st3) /\
      current_process st3 = child /\
      getpid st3 = pid /\
      current_directory st3
      = (Demo.kvmalloc_p Demo.sizeof_page_directory (IRQ_OFF Demo.state)).1 /\
      j_cr3 j
      = wrap32 ((Demo.kvmalloc_p Demo.sizeof_page_directory
                   (IRQ_OFF Demo.state)).2
                + Demo.offsetof_physical_tables) /\
      j_eip j = 0x100400 /\
      j_eax j = 0x10000.
Proof.
  destruct demo_fork_ok as (pid & st' & H).
  exists pid, st'. split; [exact H|].
  apply (fork_child_runs_in_clone Demo.KERNEL_STACK_SIZE
           Demo.sizeof_page_directory Demo.sizeof_page_table
           Demo.offsetof_physical_tables Demo.code_addr Demo.end_addr
           Demo.kvmalloc_p Demo.alloc_frame Demo.spawn_process_record
           0x100400 0x27e00 0x27e40 Demo.state pid st' H).
  - reflexivity.
  - unfold Demo.code_addr, Demo.end_addr. lia.
Defined.

Lemma fork_then_reap_returns_clone_witness :
  exists pid st',
    demo_fork 0x100400 0x27e00 0x27e40 Demo.state = Ok (pid, st') /\
    exists (child : Z) (taken given : list (bool * event)) (cloned : list Z),
      process_queue st' = process_queue Demo.state ++ [child] /\
      trace st' = taken ++ trace Demo.state /\
      allocated_blocks taken
      = cloned ++ [thread_page_directory (proc_at st' child)] /\
      trace (demo_reap_process child st')
      = (irq st', EvFree (fds_entries (proc_at st' child))) :: given
        ++ [(irq st', EvFree (wrap32 (image_stack (proc_at st' child)
                                      - Demo.KERNEL_STACK_SIZE)));
            (irq st', EvFree (wait_queue (proc_at st' child)));
            (irq st', EvListFree (wait_queue (proc_at st' child)))]
        ++ trace st' /\
      freed_frames given = allocated_frames taken /\
      freed_blocks given = thread_page_directory (proc_at st' child) :: cloned.
Proof.
  destruct demo_fork_ok as (pid & st' & H).
  exists pid, st'. split; [exact H|].
  apply (fork_then_reap_returns_clone Demo.KERNEL_STACK_SIZE
           Demo.sizeof_page_directory Demo.sizeof_page_table
           Demo.offsetof_physical_tables Demo.kvmalloc_p Demo.alloc_frame
           Demo.spawn_process_record 0x100400 0x27e00 0x27e40 Demo.state
           pid st').
  - exact demo_kvmalloc_fresh.
  - exact demo_alloc_frame_nonzero.
  - apply elem_of_dom. exists Demo.user_dir. reflexivity.
  - apply elem_of_dom. exists Demo.kernel_dir. reflexivity.
  - exact demo_user_live.
  - exact demo_kernel_live.
  - exact H.
Defined.

Lemma fork_critical_section_witness :
  exists pid st',
    demo_fork 0x100400 0x27e00 0x27e40 Demo.state = Ok (pid, st') /\
    exists (child directory : Z) (paging : list (bool * event)),
      trace st'
      = (false, EvIrqRes) :: (false, EvMakeReady child)
          :: (false, EvSetEnv child directory)
          :: (false, EvSpawn (current_process Demo.state) child)
          :: paging ++ (irq Demo.state, EvIrqOff) :: trace Demo.state /\
      Forall (paging_call_at false) paging /\
      irq st' = true.
Proof.
  destruct demo_fork_ok as (pid & st' & H).
  exists pid, st'. split; [exact H|].
  exact (fork_critical_section Demo.KERNEL_STACK_SIZE
           Demo.sizeof_page_directory Demo.sizeof_page_table
           Demo.offsetof_physical_tables Demo.kvmalloc_p Demo.alloc_frame
           Demo.spawn_process_record 0x100400 0x27e00 0x27e40 Demo.state
           pid st' H).
Defined.

Lemma task_exit_marks_finished_and_reapable_witness :
  exists j st',
    demo_task_exit 7 Demo.duo_state = Ok (j, st') /\
    proc_at st' (current_process Demo.duo_state)
    = set_finished 1
        (set_status 7 (proc_at Demo.duo_state (current_process Demo.duo_state)))
    /\
    (forall r, r <> current_process Demo.duo_state ->
       proc_at st' r = proc_at Demo.duo_state r) /\
    reap_queue st'
    = reap_queue Demo.duo_state ++ [current_process Demo.duo_state] /\
    j_eip j = thread_eip (proc_at st' (current_process st')) /\
    j_esp j = thread_esp (proc_at st' (current_process st')) /\
    j_ebp j = thread_ebp (proc_at st' (current_process st')) /\
    j_eax j = 0x10000.
Proof.
  destruct demo_task_exit_ok as (j & st' & H).
  exists j, st'. split; [exact H|].
  exact (task_exit_marks_finished_and_reapable Demo.code_addr Demo.end_addr
           Demo.wakeup_queue 7 Demo.duo_state j st'
           demo_wakeup_queue_frame H).
Defined.

Lemma task_exit_then_reaped_witness :
  exists j st',
    demo_task_exit 7 Demo.duo_state = Ok (j, st') /\
    exists (st'' : kstate) (given : list (bool * event)),
      demo_reap_while 2 st' = Some st'' /\
      reap_queue st'' = [] /\
      trace st''
      = (irq st', EvFree (fds_entries Demo.init)) :: given
        ++ [(irq st', EvFree (wrap32 (image_stack Demo.init
                                      - Demo.KERNEL_STACK_SIZE)));
            (irq st', EvFree (wait_queue Demo.init));
            (irq st', EvListFree (wait_queue Demo.init))]
        ++ trace st' /\
      freed_blocks given
      = thread_page_directory Demo.init
        :: dir_blocks st' (thread_page_directory Demo.init) 1024 /\
      freed_frames given
      = dir_frames st' (thread_page_directory Demo.init) 1024.
Proof.
  destruct demo_task_exit_ok as (j & st' & H).
  exists j, st'. split; [exact H|].
  apply (task_exit_then_reaped Demo.KERNEL_STACK_SIZE Demo.code_addr
           Demo.end_addr Demo.wakeup_queue 7 Demo.duo_state j st' 2
           demo_wakeup_queue_frame).
  - discriminate.
  - reflexivity.
  - exact H.
  - lia.
Defined.
